(** * Wata payment client: request normalisation and error propagation

    A shallow embedding of [Wata/exceptions.py] and [Wata/modules/payment.py]
    together with the parts of the Python runtime they call
    ([str], [decimal.Decimal], [float], [datetime.isoformat], [dict]).

    Layout: Python values, the exception classes, decimal arithmetic,
    binary64 conversion, datetimes, the effect monad, the three operations of
    [PaymentModule]; then the lemmas about them. *)

From Stdlib Require Import ZArith NArith Lia Bool.
From Stdlib Require Import Strings.String Strings.Ascii.
From Stdlib Require Import Numbers.DecimalString Numbers.DecimalZ Numbers.DecimalN Numbers.DecimalPos.
From Stdlib Require Import Numbers.DecimalFacts.
From Stdlib Require Import Floats.SpecFloat.
From stdpp Require Import gmap strings list.

#[local] Set Warnings "-register-all".
#[local] Open Scope string_scope.
#[local] Open Scope list_scope.
#[local] Open Scope Z_scope.

(* ===================================================================== *)
(** ** Python values *)
(* ===================================================================== *)

(** The values that travel in request payloads, query parameters and parsed
    responses.  A Python [float] is an IEEE-754 binary64, here a
    [spec_float]; a [dict] with string keys is a finite map. *)
Inductive pyval :=
  | PNone
  | PBool (b : bool)
  | PInt (z : Z)
  | PFloat (f : spec_float)
  | PStr (s : string)
  | PList (l : list pyval)
  | PDict (d : gmap string pyval).

(** The exceptions that can leave an operation.  [ApiError] and its
    subclasses carry an object (defined below, hence the parameter). *)
Inductive exn_of (E : Type) :=
  | ExApi (e : E)
  | ExAttributeError (type_name attr : string)
  | ExInvalidOperation
  | ExValueError
  | ExTypeError (what : string)
  | ExOther (name : string).
Arguments ExApi {E} e.
Arguments ExAttributeError {E} type_name attr.
Arguments ExInvalidOperation {E}.
Arguments ExValueError {E}.
Arguments ExTypeError {E} what.
Arguments ExOther {E} name.

(** The decimal digits of an [int], with a leading [-] when it is
    negative: what [str(n)] returns when it returns.  Whether it returns is
    [int_str], below, which the operations use for the numbers a caller
    passes; the digits alone serve where the number is short by
    construction (the digits of a [float], a field of a date) and for the
    status code of an error (0 or an HTTP status). *)
Definition str_int (z : Z) : string := NilZero.string_of_int (Z.to_int z).

(** [s.startswith(p)]. *)
Definition startswith (s p : string) : bool := String.prefix p s.

(** Truthiness of an [Optional[str]] argument: [None] and [""] are falsy. *)
Definition truthy (o : option string) : bool :=
  match o with
  | Some s => negb (String.eqb s "")
  | None => false
  end.

(* ===================================================================== *)
(** ** exceptions.py *)
(* ===================================================================== *)

Inductive exc_class := ApiError | ApiTimeoutError | ApiConnectionError.

(** An instance of [ApiError] or of a subclass.  [__init__] sets
    [status_code], [message], [response_data] and the exception text
    ([args]); the classes define no other attribute.  [error_code] is the
    instance attribute of that name when somebody has set it on the object
    ([Some v]); on an object that only went through [__init__] it is absent
    ([None]) and reading it raises [AttributeError]. *)
Record api_error := {
  cls : exc_class;
  status_code : Z;
  message : string;
  response_data : option pyval;
  args : string;
  error_code : option pyval
}.

Abbreviation exn := (exn_of api_error).

(** [ApiError.__init__(self, status_code, message, response_data=None)]. *)
Definition ApiError_init (c : exc_class) (status_code : Z) (message : string)
    (response_data : option pyval) : api_error :=
  let error_text :=
    if startswith message ("HTTP " +:+ str_int status_code)
    then message
    else message in
  {| cls := c;
     status_code := status_code;
     message := message;
     response_data := response_data;
     args := "API Error " +:+ str_int status_code +:+ ": " +:+ error_text;
     error_code := None |}.

Definition new_ApiError (status_code : Z) (message : string)
    (response_data : option pyval) : api_error :=
  ApiError_init ApiError status_code message response_data.

(** [ApiTimeoutError(message=...)]: [super().__init__(408, message)].  The
    default message is a fixed Russian sentence; its text plays no role. *)
Definition default_timeout_message : string := "Превышено время ожидания ответа от API".

Definition new_ApiTimeoutError (message : option string) : api_error :=
  ApiError_init ApiTimeoutError 408 (default default_timeout_message message) None.

Definition default_connection_message : string := "Ошибка подключения к API".

(** [ApiConnectionError(message=...)]: [super().__init__(0, message)]. *)
Definition new_ApiConnectionError (message : option string) : api_error :=
  ApiError_init ApiConnectionError 0 (default default_connection_message message) None.

(** [str(e)] for an exception with one argument. *)
Definition str_exc (e : api_error) : string := args e.

(** [setattr(e, "error_code", v)]: what a transport does when it attaches a
    machine-readable code to the error it raises. *)
Definition with_error_code (e : api_error) (v : pyval) : api_error :=
  {| cls := cls e; status_code := status_code e; message := message e;
     response_data := response_data e; args := args e; error_code := Some v |}.

(** The status codes HTTP defines are the three-digit codes 100 to 599. *)
Definition is_http_status (s : Z) : bool := (100 <=? s) && (s <=? 599).

(* ===================================================================== *)
(** ** Results of library calls *)
(* ===================================================================== *)

(** A call either returns a value or raises. *)
Inductive outcome (A : Type) :=
  | Return (a : A)
  | Raise (ex : exn).
Arguments Return {A} a.
Arguments Raise {A} ex.

(* ===================================================================== *)
(** ** The [decimal] module, under its default context *)
(* ===================================================================== *)

(** Python's [decimal] keeps a number as a sign, a coefficient (a digit
    string without leading zeros, here an [N]) and an exponent; infinities
    and NaNs are special values.  The default context has precision 28,
    [Emax = 999999], [Emin = -999999], no clamping, and traps
    [InvalidOperation], so a signalled [InvalidOperation] is a raised
    exception.  The operations below follow the library's own definitions
    ([Decimal.__new__], [quantize], [_rescale], [__float__]) at the level of
    that triple. *)
Module decimal.

Inductive Decimal :=
  | Dec (sign : bool) (coeff : N) (exp : Z)
  | DecInf (sign : bool)
  | DecNaN (sign : bool) (signaling : bool) (payload : N).

Inductive rounding_mode := ROUND_HALF_UP | ROUND_HALF_EVEN | ROUND_DOWN.

Definition prec : Z := 28.
Definition Emax : Z := 999999.
Definition Emin : Z := -999999.
Definition Etiny : Z := Emin - prec + 1.

(** [len(str(n))]: the number of decimal digits of [n], 1 for 0.  The
    recursion divides by ten; the binary size of [n] bounds its depth. *)
Fixpoint ndigits_fuel (fuel : nat) (n : N) : Z :=
  match fuel with
  | O => 1
  | S fuel' => if (n <? 10)%N then 1 else 1 + ndigits_fuel fuel' (n / 10)%N
  end.

Definition ndigits (n : N) : Z := ndigits_fuel (N.to_nat (N.size n)) n.

(** [self.adjusted()]: the exponent of the most significant digit. *)
Definition adjusted (coeff : N) (exp : Z) : Z := exp + ndigits coeff - 1.

(** *** Construction from a string *)

Definition is_digit (c : ascii) : bool :=
  let n := nat_of_ascii c in (48 <=? n)%nat && (n <=? 57)%nat.

Fixpoint all_digits (s : string) : bool :=
  match s with
  | EmptyString => true
  | String c s' => is_digit c && all_digits s'
  end.

(** ASCII lower case, for the case-insensitive match of the grammar. *)
Definition lower_ascii (c : ascii) : ascii :=
  let n := nat_of_ascii c in
  if (65 <=? n)%nat && (n <=? 90)%nat then ascii_of_nat (n + 32) else c.

Fixpoint lower (s : string) : string :=
  match s with
  | EmptyString => EmptyString
  | String c s' => String (lower_ascii c) (lower s')
  end.

(** [s.partition(c)]: the text before the first [c], and the text after it
    when [c] occurs. *)
Fixpoint partition (c : ascii) (s : string) : string * option string :=
  match s with
  | EmptyString => (EmptyString, None)
  | String a s' =>
      if Ascii.eqb a c then (EmptyString, Some s')
      else let '(before, after) := partition c s' in (String a before, after)
  end.

(** The value of a string of digits ([int(s)], with [int("")] read as 0
    where the grammar allows an empty group). *)
Definition digits_value (s : string) : option N :=
  match NilEmpty.uint_of_string s with
  | Some u => Some (N.of_uint u)
  | None => None
  end.

(** An optional leading sign. *)
Definition split_sign (s : string) : bool * string :=
  match s with
  | String "-" r => (true, r)
  | String "+" r => (false, r)
  | _ => (false, s)
  end.

(** [[-+]?\d+], the exponent group. *)
Definition signed_digits_value (s : string) : option Z :=
  let '(neg, body) := split_sign s in
  match body with
  | EmptyString => None
  | _ => match digits_value body with
         | Some n => Some (if neg then - Z.of_N n else Z.of_N n)
         | None => None
         end
  end.

Definition strip_prefix (p s : string) : option string :=
  if String.prefix p s
  then Some (String.substring (String.length p) (String.length s - String.length p) s)
  else None.

(** The part of the grammar after the sign, on lower-cased text: either a
    number with at least one digit, an optional fraction and an optional
    exponent, or [inf]/[infinity], or [nan]/[snan] with optional
    diagnostic digits.  Anything else signals [ConversionSyntax], an
    [InvalidOperation]. *)
Definition Decimal_of_body (sign : bool) (body : string) : outcome Decimal :=
  if String.eqb body "inf" || String.eqb body "infinity" then Return (DecInf sign)
  else
    match strip_prefix "nan" body, strip_prefix "snan" body with
    | Some diag, _ =>
        match digits_value diag with
        | Some n => Return (DecNaN sign false n)
        | None => Raise ExInvalidOperation
        end
    | None, Some diag =>
        match digits_value diag with
        | Some n => Return (DecNaN sign true n)
        | None => Raise ExInvalidOperation
        end
    | None, None =>
        let '(mantissa, exppart) := partition "e" body in
        let '(intpart, fracopt) := partition "." mantissa in
        let fracpart := default "" fracopt in
        let e :=
          match exppart with
          | None => Some 0
          | Some t => signed_digits_value t
          end in
        match digits_value (intpart +:+ fracpart), e with
        | Some c, Some e =>
            if String.eqb (intpart +:+ fracpart) "" then Raise ExInvalidOperation
            else Return (Dec sign c (e - Z.of_nat (String.length fracpart)))
        | _, _ => Raise ExInvalidOperation
        end
    end.

(** [Decimal(value)] for a [str].  (The constructor first strips white
    space and underscores; the strings this program passes, from [str] of
    a number and the literal ['0.01'], have none, and the embedding does
    not strip.) *)
Definition Decimal_of_str (value : string) : outcome Decimal :=
  let '(sign, body) := split_sign value in
  Decimal_of_body sign (lower body).

(** *** quantize *)

(** The coefficient of [coeff * 10^exp] rewritten at the exponent
    [exp - k], [k >= 0]: zeros are appended. *)
Definition pad_coeff (coeff : N) (k : Z) : N := (coeff * 10 ^ Z.to_N k)%N.

(** The coefficient left when the last [k > 0] digits of [coeff] are
    dropped under the rounding mode: the library looks at the first
    dropped digit and at whether the rest is zero, which is a comparison of
    twice the dropped part with [10^k]. *)
Definition round_coeff (rounding : rounding_mode) (coeff : N) (k : Z) : N :=
  let p := (10 ^ Z.to_N k)%N in
  let q := (coeff / p)%N in
  let r := (coeff mod p)%N in
  match rounding with
  | ROUND_HALF_UP => if (p <=? 2 * r)%N then (q + 1)%N else q
  | ROUND_HALF_EVEN =>
      match (2 * r ?= p)%N with
      | Gt => (q + 1)%N
      | Eq => if N.even q then q else (q + 1)%N
      | Lt => q
      end
  | ROUND_DOWN => q
  end.

(** [self._rescale(exp, rounding)] for a finite [self]. *)
Definition rescale (sign : bool) (coeff : N) (e : Z) (exp : Z)
    (rounding : rounding_mode) : Decimal :=
  if (coeff =? 0)%N then Dec sign 0 exp
  else if exp <=? e then Dec sign (pad_coeff coeff (e - exp)) exp
  else Dec sign (round_coeff rounding coeff (exp - e)) exp.

(** A NaN result keeps at most [prec] digits of payload ([_fix_nan]). *)
Definition fix_nan (sign signaling : bool) (payload : N) : Decimal :=
  DecNaN sign signaling (payload mod 10 ^ Z.to_N prec)%N.

(** [self.quantize(exp, rounding=rounding)]: [self] rounded to the exponent
    of [exp].  A result that needs more than [prec] digits, an infinite
    operand on one side only, or a signalling NaN is an
    [InvalidOperation].  The concluding [_fix] leaves a result with at most
    [prec] digits and an exponent of at least [Etiny] as it is. *)
Definition quantize (self exp : Decimal) (rounding : rounding_mode) : outcome Decimal :=
  match self, exp with
  | DecNaN _ true _, _ => Raise ExInvalidOperation
  | _, DecNaN _ true _ => Raise ExInvalidOperation
  | DecNaN s false p, _ => Return (fix_nan s false p)
  | _, DecNaN s false p => Return (fix_nan s false p)
  | DecInf s, DecInf _ => Return (DecInf s)
  | DecInf _, Dec _ _ _ => Raise ExInvalidOperation
  | Dec _ _ _, DecInf _ => Raise ExInvalidOperation
  | Dec s c e, Dec _ _ ee =>
      if negb ((Etiny <=? ee) && (ee <=? Emax)) then Raise ExInvalidOperation
      else if (c =? 0)%N then Return (Dec s 0 ee)
      else if Emax <? adjusted c e then Raise ExInvalidOperation
      else if prec <? adjusted c e - ee + 1 then Raise ExInvalidOperation
      else
        match rescale s c e ee rounding with
        | Dec s' c' e' =>
            if Emax <? adjusted c' e' then Raise ExInvalidOperation
            else if prec <? ndigits c' then Raise ExInvalidOperation
            else Return (Dec s' c' e')
        | ans => Return ans
        end
  end.

End decimal.

(* ===================================================================== *)
(** ** [int]: conversion to text *)
(* ===================================================================== *)

(** [str(n)], [repr(n)] and [f"{n}"] for an [int], in CPython 3.11 with
    its default settings: the conversion raises [ValueError] when [n] has
    more than [sys.get_int_max_str_digits()] = 4300 decimal digits, the
    sign not counted, and returns the digits otherwise. *)
Definition int_max_str_digits : Z := 4300.

Definition int_printable (n : Z) : bool :=
  decimal.ndigits (Z.abs_N n) <=? int_max_str_digits.

Definition int_str (n : Z) : outcome string :=
  if int_printable n then Return (str_int n) else Raise ExValueError.

(* ===================================================================== *)
(** ** [float]: IEEE-754 binary64 *)
(* ===================================================================== *)

(** Conversions between binary64 and decimal text.  [float(s)] and
    [repr(x)] are correctly rounded in CPython: [float(s)] is the binary64
    nearest to the decimal value (ties to even), and [repr(x)] is the
    shortest digit string that [float] reads back as [x], the nearest to [x]
    when several of that length do. *)
Module binary64.

Definition prec : Z := 53.
Definition emax : Z := 1024.

(** The binary64 nearest to [(-1)^s * n / d]. *)
Definition of_ratio (s : bool) (n d : Z) : spec_float :=
  let '(mz, ez, lz) := SFdiv_core_binary prec emax n 0 d 0 in
  binary_round_aux prec emax s mz ez lz.

(** The binary64 nearest to [(-1)^s * c * 10^e], [c > 0]. *)
Definition of_decimal (s : bool) (c : Z) (e : Z) : spec_float :=
  if 0 <=? e then of_ratio s (c * 10 ^ e) 1 else of_ratio s c (10 ^ (- e)).

Definition same (x y : spec_float) : bool :=
  match x, y with
  | S754_zero a, S754_zero b => Bool.eqb a b
  | S754_infinity a, S754_infinity b => Bool.eqb a b
  | S754_nan, S754_nan => true
  | S754_finite a m e, S754_finite b m' e' => Bool.eqb a b && (m =? m')%positive && (e =? e')
  | _, _ => false
  end.

Definition ndigitsZ (z : Z) : Z := decimal.ndigits (Z.to_N z).

(** [floor(log10(n / d))] for [n, d > 0]. *)
Definition decimal_exponent (n d : Z) : Z :=
  if d <=? n then ndigitsZ (n / d) - 1
  else - ndigitsZ ((d + n - 1) / n - 1).

(** The digits of the shortest decimal that reads back as
    [x = (-1)^s * m * 2^e], tried at [p], [p + 1], ... significant
    digits: at each length the two [p]-digit decimals around [x] are the
    only candidates.  Seventeen digits always suffice. *)
Fixpoint shortest_from (fuel : nat) (p : Z) (x : spec_float) (s : bool)
    (n d k : Z) : Z * Z :=
  let sc := k - p + 1 in
  let '(a, b) := if 0 <=? sc then (n, d * 10 ^ sc) else (n * 10 ^ (- sc), d) in
  let lo := a / b in
  let r := a mod b in
  let nearest :=
    if 2 * r <? b then lo
    else if b <? 2 * r then lo + 1
    else if Z.even lo then lo else lo + 1 in
  let ok_lo := (0 <? lo) && same (of_decimal s lo sc) x in
  let ok_hi := same (of_decimal s (lo + 1) sc) x in
  match ok_lo, ok_hi, fuel with
  | true, true, _ => (nearest, sc)
  | true, false, _ => (lo, sc)
  | false, true, _ => (lo + 1, sc)
  | false, false, S fuel' => shortest_from fuel' (p + 1) x s n d k
  | false, false, O => (nearest, sc)
  end.

Fixpoint strip_zeros (fuel : nat) (c sc : Z) : Z * Z :=
  match fuel with
  | O => (c, sc)
  | S fuel' =>
      if (c mod 10 =? 0) && negb (c =? 0) then strip_zeros fuel' (c / 10) (sc + 1)
      else (c, sc)
  end.

Definition shortest (s : bool) (m : positive) (e : Z) : Z * Z :=
  let '(n, d) := if 0 <=? e then (Zpos m * 2 ^ e, 1) else (Zpos m, 2 ^ (- e)) in
  let '(c, sc) := shortest_from 16 1 (S754_finite s m e) s n d (decimal_exponent n d) in
  strip_zeros 17 c sc.

Fixpoint zeros (n : nat) : string :=
  match n with
  | O => EmptyString
  | S n' => String "0" (zeros n')
  end.

(** ["%02d" % n] for [n >= 0]. *)
Definition pad2 (n : Z) : string :=
  if n <? 10 then "0" +:+ str_int n else str_int n.

(** [repr(x)], which is also [str(x)]: fixed notation when the decimal
    point falls within the digits or at most 16 places right or 4 places
    left of them, exponent notation otherwise. *)
Definition repr (x : spec_float) : string :=
  match x with
  | S754_nan => "nan"
  | S754_infinity s => if s then "-inf" else "inf"
  | S754_zero s => if s then "-0.0" else "0.0"
  | S754_finite s m e =>
      let '(c, sc) := shortest s m e in
      let ds := str_int c in
      let n := String.length ds in
      let decpt := sc + Z.of_nat n in
      let body :=
        if (-4 <? decpt) && (decpt <=? 16) then
          if decpt <=? 0 then "0." +:+ zeros (Z.to_nat (- decpt)) +:+ ds
          else if Z.of_nat n <=? decpt then ds +:+ zeros (Z.to_nat decpt - n) +:+ ".0"
          else String.substring 0 (Z.to_nat decpt) ds +:+ "." +:+
               String.substring (Z.to_nat decpt) (n - Z.to_nat decpt) ds
        else
          String.substring 0 1 ds +:+
          (if (1 <? n)%nat then "." +:+ String.substring 1 (n - 1) ds else "") +:+
          "e" +:+ (if decpt - 1 <? 0 then "-" else "+") +:+ pad2 (Z.abs (decpt - 1)) in
      (if s then "-" else "") +:+ body
  end.

(** [float(d)] for a [Decimal]: the library converts through [str(d)].  A
    signalling NaN raises [ValueError]. *)
Definition of_Decimal (d : decimal.Decimal) : outcome spec_float :=
  match d with
  | decimal.DecNaN _ true _ => Raise ExValueError
  | decimal.DecNaN _ false _ => Return S754_nan
  | decimal.DecInf s => Return (S754_infinity s)
  | decimal.Dec s c e =>
      if (c =? 0)%N then Return (S754_zero s)
      else Return (of_decimal s (Z.of_N c) e)
  end.

End binary64.

(* ===================================================================== *)
(** ** [datetime.datetime] *)
(* ===================================================================== *)

Module datetime.

(** A [datetime] value.  [utcoffset] is the offset of its [tzinfo] in
    microseconds, [None] for a naive datetime. *)
Record datetime := {
  year : Z;
  month : Z;
  day : Z;
  hour : Z;
  minute : Z;
  second : Z;
  microsecond : Z;
  utcoffset : option Z
}.

(** ["%0<width>d" % n] for [n >= 0]. *)
Definition zpad (width : nat) (n : Z) : string :=
  let s := str_int n in
  binary64.zeros (width - String.length s) +:+ s.

(** The time part, with [timespec='auto']: microseconds are printed only
    when they are not zero. *)
Definition format_time (hh mm ss us : Z) : string :=
  zpad 2 hh +:+ ":" +:+ zpad 2 mm +:+ ":" +:+ zpad 2 ss +:+
  (if us =? 0 then "" else "." +:+ zpad 6 us).

(** The UTC offset: sign, hours and minutes, then seconds and
    microseconds when they are not zero. *)
Definition format_offset (off : option Z) : string :=
  match off with
  | None => ""
  | Some off =>
      let sign := if off <? 0 then "-" else "+" in
      let a := Z.abs off in
      let hh := a / 3600000000 in
      let rest := a mod 3600000000 in
      let mm := rest / 60000000 in
      let ss := rest mod 60000000 in
      sign +:+ zpad 2 hh +:+ ":" +:+ zpad 2 mm +:+
      (if ss =? 0 then ""
       else ":" +:+ zpad 2 (ss / 1000000) +:+
            (if ss mod 1000000 =? 0 then "" else "." +:+ zpad 6 (ss mod 1000000)))
  end.

(** [dt.isoformat()]. *)
Definition isoformat (dt : datetime) : string :=
  zpad 4 (year dt) +:+ "-" +:+ zpad 2 (month dt) +:+ "-" +:+ zpad 2 (day dt) +:+ "T" +:+
  format_time (hour dt) (minute dt) (second dt) (microsecond dt) +:+
  format_offset (utcoffset dt).

End datetime.

(* ===================================================================== *)
(** ** Collaborators: the HTTP client and the logger *)
(* ===================================================================== *)

Abbreviation pydict := (gmap string pyval).

(** A request handed to the HTTP client. *)
Inductive request :=
  | POST (path : string) (data : pydict)
  | GET (path : string) (params : option pydict).

(** The injected HTTP client ([self._http_client]).  [PaymentModule] only
    calls it, so it is a parameter of every operation: any pair of
    functions that return a parsed response (a [dict], as the operations'
    return annotation [Dict[str, Any]] says) or raise. *)
Record http_client := {
  post : string -> pydict -> outcome pydict;
  get : string -> option pydict -> outcome pydict
}.

Inductive level := INFO | DEBUG | WARNING | ERROR.

(** The arguments an amount, a time bound and a list filter can take. *)
Inductive amount_arg :=
  | AmtInt (n : Z)
  | AmtFloat (x : spec_float)
  | AmtDecimal (d : decimal.Decimal).

Inductive time_arg :=
  | TimeDatetime (dt : datetime.datetime)
  | TimeStr (s : string).

Inductive filter_arg :=
  | FilterStr (s : string)
  | FilterList (l : list string).

(** The log lines of [payment.py], one constructor per message, with the
    values its f-string interpolates. *)
Inductive log_message :=
  | MsgCreating (amount : amount_arg) (currency : string)
  | MsgCreated
  | MsgInvalidAmount (amount : decimal.Decimal)
  | MsgUnsupportedCurrency (currency : string)
  | MsgCreateFailed (text : string)
  | MsgGetting (uuid : string)
  | MsgGot (uuid : string)
  | MsgLinkUnavailable (uuid : string)
  | MsgGetFailed (uuid : string) (text : string)
  | MsgSearching
  | MsgSearchParams (params : pydict)
  | MsgFound (count : nat)
  | MsgNoItems
  | MsgSearchFailed (text : string).

(** What an operation leaves behind: the requests it sent and the lines it
    logged, oldest first. *)
Record world := {
  sent : list request;
  logged : list (level * log_message)
}.

(** An operation is a function of the world that returns or raises and
    leaves a new world; effects survive a raise. *)
Definition M (A : Type) : Type := world -> outcome A * world.

Definition ret {A} (a : A) : M A := fun w => (Return a, w).

Definition bind {A B} (m : M A) (k : A -> M B) : M B :=
  fun w =>
    match m w with
    | (Return a, w') => k a w'
    | (Raise ex, w') => (Raise ex, w')
    end.

Definition raise {A} (ex : exn) : M A := fun w => (Raise ex, w).

Definition lift {A} (o : outcome A) : M A := fun w => (o, w).

Notation "x <- m ;; k" := (bind m (fun x => k))
  (at level 100, m at next level, right associativity).
Notation "m ;;; k" := (bind m (fun _ => k))
  (at level 100, right associativity).

(** [self.logger.<level>(...)].  The logger comes from [BaseComponent], in
    the logger module; here a log call records its line and returns. *)
Definition log (l : level) (m : log_message) : M unit :=
  fun w => (Return tt, {| sent := sent w; logged := logged w ++ [(l, m)] |}).

(** [await self._http_client.post(path, data=data)] and [.get(...)]. *)
Definition http_post (c : http_client) (path : string) (data : pydict) : M pydict :=
  fun w => (post c path data, {| sent := sent w ++ [POST path data]; logged := logged w |}).

Definition http_get (c : http_client) (path : string) (params : option pydict) : M pydict :=
  fun w => (get c path params, {| sent := sent w ++ [GET path params]; logged := logged w |}).

(** [try: body / except ApiError as e: handler]: only [ApiError] and its
    subclasses are caught. *)
Definition try_except_ApiError {A} (body : M A) (handler : api_error -> M A) : M A :=
  fun w =>
    match body w with
    | (Raise (ExApi e), w') => handler e w'
    | r => r
    end.

Definition class_name (c : exc_class) : string :=
  match c with
  | ApiError => "ApiError"
  | ApiTimeoutError => "ApiTimeoutError"
  | ApiConnectionError => "ApiConnectionError"
  end.

(** [e.error_code]: [AttributeError] when the object has no such
    attribute. *)
Definition get_error_code (e : api_error) : M pyval :=
  match error_code e with
  | Some v => ret v
  | None => raise (ExAttributeError (class_name (cls e)) "error_code")
  end.

(** [v == "<literal>"] for an attribute value: true on an equal [str]
    only. *)
Definition eq_str (v : pyval) (s : string) : bool :=
  match v with
  | PStr t => String.eqb t s
  | _ => false
  end.

(** A Python [str] is kept as its UTF-8 encoding, so its length, the
    number of code points, is the number of bytes that are not continuation
    bytes [10xxxxxx]. *)
Definition is_continuation_byte (c : ascii) : bool :=
  match c with
  | Ascii _ _ _ _ _ _ b6 b7 => b7 && negb b6
  end.

Fixpoint str_len (s : string) : nat :=
  match s with
  | EmptyString => O
  | String c s' => if is_continuation_byte c then str_len s' else S (str_len s')
  end.

(** [len(v)]: defined for strings, lists and dicts, [TypeError]
    otherwise. *)
Definition py_len (v : pyval) : outcome nat :=
  match v with
  | PStr s => Return (str_len s)
  | PList l => Return (List.length l)
  | PDict d => Return (size d)
  | PNone => Raise (ExTypeError "object of type 'NoneType' has no len()")
  | PBool _ => Raise (ExTypeError "object of type 'bool' has no len()")
  | PInt _ => Raise (ExTypeError "object of type 'int' has no len()")
  | PFloat _ => Raise (ExTypeError "object of type 'float' has no len()")
  end.

(** The f-strings of the log lines are evaluated before the logger is
    called, and two of them print an [int] the caller passed: [{amount}] in
    the first line of [create], and [{params}] in [search_links], where
    printing the dict prints each of its values ([params] holds floats,
    strings and the two page numbers).  Printing a [float], a [Decimal] or a
    [str] always returns. *)
Definition format_amount (a : amount_arg) : outcome unit :=
  match a with
  | AmtInt n =>
      match int_str n with
      | Return _ => Return tt
      | Raise ex => Raise ex
      end
  | AmtFloat _ | AmtDecimal _ => Return tt
  end.

Definition value_printable (v : pyval) : bool :=
  match v with
  | PInt n => int_printable n
  | _ => true
  end.

Definition format_params (params : pydict) : outcome unit :=
  if forallb (fun kv => value_printable kv.2) (map_to_list params)
  then Return tt
  else Raise ExValueError.

(* ===================================================================== *)
(** ** modules/payment.py *)
(* ===================================================================== *)

Record PaymentModule := { _http_client : http_client }.

(** [if value: data[key] = value], the statement [create] uses for each of
    its optional arguments. *)
Definition set_if_truthy (key : string) (value : option string) (data : pydict) : pydict :=
  if truthy value then <[key := PStr (default "" value)]> data else data.

(** [PaymentModule.create]. *)
Definition create (self : PaymentModule) (amount : amount_arg) (currency : string)
    (description order_id success_redirect_url fail_redirect_url : option string)
    : M pydict :=
  lift (format_amount amount) ;;;
  log INFO (MsgCreating amount currency) ;;;
  amount <- match amount with
            | AmtInt n => s <- lift (int_str n) ;; lift (decimal.Decimal_of_str s)
            | AmtFloat x => lift (decimal.Decimal_of_str (binary64.repr x))
            | AmtDecimal d => ret d
            end ;;
  cent <- lift (decimal.Decimal_of_str "0.01") ;;
  amount <- lift (decimal.quantize amount cent decimal.ROUND_HALF_UP) ;;
  number <- lift (binary64.of_Decimal amount) ;;
  let data : pydict := <["currency" := PStr currency]> (<["amount" := PFloat number]> ∅) in
  let data := set_if_truthy "description" description data in
  let data := set_if_truthy "orderId" order_id data in
  let data := set_if_truthy "successRedirectUrl" success_redirect_url data in
  let data := set_if_truthy "failRedirectUrl" fail_redirect_url data in
  try_except_ApiError
    (result <- http_post (_http_client self) "api/h2h/links" data ;;
     log INFO MsgCreated ;;;
     ret result)
    (fun e =>
       (code <- get_error_code e ;;
        if eq_str code "Payment:PL_1001" then log ERROR (MsgInvalidAmount amount)
        else
          code <- get_error_code e ;;
          if eq_str code "Payment:PL_1002" then log ERROR (MsgUnsupportedCurrency currency)
          else log ERROR (MsgCreateFailed (str_exc e))) ;;;
       raise (ExApi e)).

(** [PaymentModule.get_link_by_uuid]. *)
Definition get_link_by_uuid (self : PaymentModule) (uuid : string) : M pydict :=
  log INFO (MsgGetting uuid) ;;;
  try_except_ApiError
    (result <- http_get (_http_client self) ("api/h2h/links/" +:+ uuid) None ;;
     log DEBUG (MsgGot uuid) ;;;
     ret result)
    (fun e =>
       (code <- get_error_code e ;;
        if eq_str code "Payment:PL_1003" then log ERROR (MsgLinkUnavailable uuid)
        else log ERROR (MsgGetFailed uuid (str_exc e))) ;;;
       raise (ExApi e)).

(** [PaymentModule.search_links]. *)
Definition search_links (self : PaymentModule)
    (amount_from amount_to : option amount_arg)
    (creation_time_from creation_time_to : option time_arg)
    (order_id : option string)
    (currencies statuses : option filter_arg)
    (sorting : option string)
    (skip_count max_result_count : option Z) : M pydict :=
  log INFO MsgSearching ;;;
  let params : pydict := ∅ in
  params <- match amount_from with
            | Some amount_from =>
                amount_from <- match amount_from with
                               | AmtInt n =>
                                   s <- lift (int_str n) ;; lift (decimal.Decimal_of_str s)
                               | AmtFloat x => lift (decimal.Decimal_of_str (binary64.repr x))
                               | AmtDecimal d => ret d
                               end ;;
                cent <- lift (decimal.Decimal_of_str "0.01") ;;
                amount_from <- lift (decimal.quantize amount_from cent decimal.ROUND_HALF_UP) ;;
                number <- lift (binary64.of_Decimal amount_from) ;;
                ret (<["amountFrom" := PFloat number]> params)
            | None => ret params
            end ;;
  params <- match amount_to with
            | Some amount_to =>
                amount_to <- match amount_to with
                             | AmtInt n =>
                                 s <- lift (int_str n) ;; lift (decimal.Decimal_of_str s)
                             | AmtFloat x => lift (decimal.Decimal_of_str (binary64.repr x))
                             | AmtDecimal d => ret d
                             end ;;
                cent <- lift (decimal.Decimal_of_str "0.01") ;;
                amount_to <- lift (decimal.quantize amount_to cent decimal.ROUND_HALF_UP) ;;
                number <- lift (binary64.of_Decimal amount_to) ;;
                ret (<["amountTo" := PFloat number]> params)
            | None => ret params
            end ;;
  let params :=
    match creation_time_from with
    | Some creation_time_from =>
        let creation_time_from :=
          match creation_time_from with
          | TimeDatetime dt => datetime.isoformat dt
          | TimeStr s => s
          end in
        <["creationTimeFrom" := PStr creation_time_from]> params
    | None => params
    end in
  let params :=
    match creation_time_to with
    | Some creation_time_to =>
        let creation_time_to :=
          match creation_time_to with
          | TimeDatetime dt => datetime.isoformat dt
          | TimeStr s => s
          end in
        <["creationTimeTo" := PStr creation_time_to]> params
    | None => params
    end in
  let params :=
    match order_id with
    | Some order_id => <["orderId" := PStr order_id]> params
    | None => params
    end in
  let params :=
    match currencies with
    | Some currencies =>
        let currencies :=
          match currencies with
          | FilterList l => String.concat "," l
          | FilterStr s => s
          end in
        <["currencies" := PStr currencies]> params
    | None => params
    end in
  let params :=
    match statuses with
    | Some statuses =>
        let statuses :=
          match statuses with
          | FilterList l => String.concat "," l
          | FilterStr s => s
          end in
        <["statuses" := PStr statuses]> params
    | None => params
    end in
  let params :=
    match sorting with
    | Some sorting => <["sorting" := PStr sorting]> params
    | None => params
    end in
  let params :=
    match skip_count with
    | Some skip_count => <["skipCount" := PInt skip_count]> params
    | None => params
    end in
  let params :=
    match max_result_count with
    | Some max_result_count => <["maxResultCount" := PInt max_result_count]> params
    | None => params
    end in
  lift (format_params params) ;;;
  log DEBUG (MsgSearchParams params) ;;;
  try_except_ApiError
    (result <- http_get (_http_client self) "api/h2h/links/" (Some params) ;;
     match result !! "items" with
     | Some items => count <- lift (py_len items) ;; log INFO (MsgFound count)
     | None => log WARNING MsgNoItems
     end ;;;
     ret result)
    (fun e =>
       log ERROR (MsgSearchFailed (str_exc e)) ;;;
       raise (ExApi e)).

(* ===================================================================== *)
(** ** Definitions used to state the properties *)
(* ===================================================================== *)

(** The decimal an amount argument stands for once the program has read
    it: an [int] or a [float] goes through its [str] (which, for an [int]
    of more than 4300 digits, raises [ValueError]), a [Decimal] is taken as
    it is. *)
Definition amount_decimal (a : amount_arg) : outcome decimal.Decimal :=
  match a with
  | AmtInt n =>
      match int_str n with
      | Return s => decimal.Decimal_of_str s
      | Raise ex => Raise ex
      end
  | AmtFloat x => decimal.Decimal_of_str (binary64.repr x)
  | AmtDecimal d => Return d
  end.

(** What the amount block of the operations computes from an argument: the
    quantized decimal, then the number put in the request. *)
Definition quantized_amount (a : amount_arg) : outcome decimal.Decimal :=
  match amount_decimal a with
  | Return d => decimal.quantize d (decimal.Dec false 1 (-2)) decimal.ROUND_HALF_UP
  | Raise ex => Raise ex
  end.

Definition transmitted_amount (a : amount_arg) : outcome spec_float :=
  match quantized_amount a with
  | Return q => binary64.of_Decimal q
  | Raise ex => Raise ex
  end.

(** The entry an amount bound contributes to the query: none when the
    bound is [None]. *)
Definition amount_param (o : option amount_arg) : outcome (option pyval) :=
  match o with
  | None => Return None
  | Some a =>
      match transmitted_amount a with
      | Return x => Return (Some (PFloat x))
      | Raise ex => Raise ex
      end
  end.

(** The text a time bound and a list filter are sent as. *)
Definition time_text (t : time_arg) : string :=
  match t with
  | TimeDatetime dt => datetime.isoformat dt
  | TimeStr s => s
  end.

Definition filter_text (f : filter_arg) : string :=
  match f with
  | FilterList l => String.concat "," l
  | FilterStr s => s
  end.

(** The query keys of the search endpoint. *)
Definition search_keys : list string :=
  ["amountFrom"; "amountTo"; "creationTimeFrom"; "creationTimeTo"; "orderId";
   "currencies"; "statuses"; "sorting"; "skipCount"; "maxResultCount"].

(** The amount bound is one the program can normalize. *)
Definition accepted (o : option amount_arg) : Prop :=
  exists v, amount_param o = Return v.

(** The page number, when given, is one the debug line can print. *)
Definition printable (o : option Z) : bool :=
  match o with
  | Some n => int_printable n
  | None => true
  end.

(** The error line [create] and [get_link_by_uuid] choose from the error
    code. *)
Definition create_error_line (code : pyval) (amount : decimal.Decimal) (currency : string)
    (e : api_error) : log_message :=
  if eq_str code "Payment:PL_1001" then MsgInvalidAmount amount
  else if eq_str code "Payment:PL_1002" then MsgUnsupportedCurrency currency
  else MsgCreateFailed (str_exc e).

Definition get_error_line (code : pyval) (uuid : string) (e : api_error) : log_message :=
  if eq_str code "Payment:PL_1003" then MsgLinkUnavailable uuid
  else MsgGetFailed uuid (str_exc e).

(** How [search_links] ends once its query [params] is built: the request,
    the log lines, and the result. *)
Definition search_finish (self : PaymentModule) (params : pydict) (w : world)
    : outcome pydict * world :=
  let started := (logged w ++ [(INFO, MsgSearching)]) ++ [(DEBUG, MsgSearchParams params)] in
  let asked := sent w ++ [GET "api/h2h/links/" (Some params)] in
  match get (_http_client self) "api/h2h/links/" (Some params) with
  | Return r =>
      match r !! "items" with
      | Some items =>
          match py_len items with
          | Return count =>
              (Return r, {| sent := asked; logged := started ++ [(INFO, MsgFound count)] |})
          | Raise ex => (Raise ex, {| sent := asked; logged := started |})
          end
      | None => (Return r, {| sent := asked; logged := started ++ [(WARNING, MsgNoItems)] |})
      end
  | Raise (ExApi e) =>
      (Raise (ExApi e),
       {| sent := asked; logged := started ++ [(ERROR, MsgSearchFailed (str_exc e))] |})
  | Raise ex => (Raise ex, {| sent := asked; logged := started |})
  end.

(** The same with the step before it: the debug line has to print
    [params] first. *)
Definition search_end (self : PaymentModule) (params : pydict) (w : world)
    : outcome pydict * world :=
  match format_params params with
  | Return _ => search_finish self params w
  | Raise ex => (Raise ex, {| sent := sent w; logged := logged w ++ [(INFO, MsgSearching)] |})
  end.

(** Round-half-up to two fractional digits, stated on the value: the
    number of hundredths nearest to [coeff * 10^exp], a half going up, that
    is [floor(100 * coeff * 10^exp + 1/2)]. *)
Definition half_up_cents (coeff : N) (exp : Z) : N :=
  if -2 <=? exp then (coeff * 10 ^ Z.to_N (exp + 2))%N
  else let p := (10 ^ Z.to_N (- 2 - exp))%N in ((2 * coeff + p) / (2 * p))%N.

(** The plain number for a count of hundredths: the nearest binary64. *)
Definition float_of_cents (sign : bool) (cents : N) : spec_float :=
  if (cents =? 0)%N then S754_zero sign
  else binary64.of_ratio sign (Z.of_N cents) 100.

(** ISO 8601, extended format, complete representation of a calendar date
    and a time of day: [YYYY-MM-DDThh:mm:ss], then optionally a decimal
    fraction of the second ([.] or [,] and digits) and optionally the zone,
    [Z] or an offset from UTC [+hh:mm], [-hh:mm], [+hh] or [-hh] (an offset
    has hours and minutes only, and [-00:00] is not allowed).  Written from
    the standard, independently of [datetime.isoformat]: [parse] reads such
    a text back as the datetime it spells, and is [None] on any other text.
    The fraction is read to the microsecond (one to six digits), and a leap
    second [60], which a [datetime] cannot hold, is not read. *)
Module iso8601.

(** The first [k] characters of [s], and the rest. *)
Fixpoint split_at (k : nat) (s : string) : option (string * string) :=
  match k, s with
  | O, _ => Some (EmptyString, s)
  | S k', String c s' =>
      match split_at k' s' with
      | Some (a, b) => Some (String c a, b)
      | None => None
      end
  | S _, EmptyString => None
  end.

(** A field of exactly [k] digits. *)
Definition field (k : nat) (s : string) : option (Z * string) :=
  match split_at k s with
  | Some (ds, rest) =>
      if decimal.all_digits ds
      then match decimal.digits_value ds with
           | Some n => Some (Z.of_N n, rest)
           | None => None
           end
      else None
  | None => None
  end.

(** The longest leading run of digits. *)
Fixpoint span_digits (s : string) : string * string :=
  match s with
  | String c s' =>
      if decimal.is_digit c
      then let '(a, b) := span_digits s' in (String c a, b)
      else (EmptyString, s)
  | EmptyString => (EmptyString, EmptyString)
  end.

Definition expect (c : ascii) (s : string) : option string :=
  match s with
  | String a s' => if Ascii.eqb a c then Some s' else None
  | EmptyString => None
  end.

Definition is_leap (y : Z) : bool :=
  ((y mod 4 =? 0) && negb (y mod 100 =? 0)) || (y mod 400 =? 0).

Definition days_in_month (y m : Z) : Z :=
  if m =? 2 then (if is_leap y then 29 else 28)
  else if (m =? 4) || (m =? 6) || (m =? 9) || (m =? 11) then 30
  else 31.

(** The decimal fraction of the second, in microseconds. *)
Definition fraction (s : string) : option (Z * string) :=
  match s with
  | String c s' =>
      if Ascii.eqb c "." || Ascii.eqb c ","
      then
        let '(ds, rest) := span_digits s' in
        let n := String.length ds in
        if (1 <=? n)%nat && (n <=? 6)%nat
        then match decimal.digits_value ds with
             | Some v => Some (Z.of_N v * 10 ^ Z.of_nat (6 - n), rest)
             | None => None
             end
        else None
      else Some (0, s)
  | EmptyString => Some (0, s)
  end.

(** The zone: the offset from UTC in minutes, [None] for local time. *)
Definition signed_offset (negative : bool) (hh mm : Z) : option (option Z) :=
  if (hh <=? 23) && (mm <=? 59)
  then if negative
       then if hh * 60 + mm =? 0 then None else Some (Some (- (hh * 60 + mm)))
       else Some (Some (hh * 60 + mm))
  else None.

Definition zone (s : string) : option (option Z) :=
  match s with
  | EmptyString => Some None
  | String c s' =>
      if Ascii.eqb c "Z" then (if String.eqb s' "" then Some (Some 0) else None)
      else if Ascii.eqb c "+" || Ascii.eqb c "-"
      then
        match field 2 s' with
        | Some (hh, EmptyString) => signed_offset (Ascii.eqb c "-") hh 0
        | Some (hh, String sep rest) =>
            if Ascii.eqb sep ":"
            then match field 2 rest with
                 | Some (mm, EmptyString) => signed_offset (Ascii.eqb c "-") hh mm
                 | _ => None
                 end
            else None
        | None => None
        end
      else None
  end.

Definition parse (s : string) : option datetime.datetime :=
  '(y, s) ← field 4 s;
  s ← expect "-" s;
  '(mo, s) ← field 2 s;
  s ← expect "-" s;
  '(d, s) ← field 2 s;
  s ← expect "T" s;
  '(h, s) ← field 2 s;
  s ← expect ":" s;
  '(mi, s) ← field 2 s;
  s ← expect ":" s;
  '(sec, s) ← field 2 s;
  '(us, s) ← fraction s;
  off ← zone s;
  if (1 <=? mo) && (mo <=? 12) && (1 <=? d) && (d <=? days_in_month y mo)
     && (h <=? 23) && (mi <=? 59) && (sec <=? 59)
  then Some {| datetime.year := y; datetime.month := mo; datetime.day := d;
               datetime.hour := h; datetime.minute := mi; datetime.second := sec;
               datetime.microsecond := us;
               datetime.utcoffset := (fun m => m * 60000000) <$> off |}
  else None.

End iso8601.

(** The ranges every [datetime] object keeps its fields in, and the
    datetimes whose UTC offset, if any, is a whole number of minutes. *)
Definition valid_datetime (dt : datetime.datetime) : Prop :=
  1 <= datetime.year dt <= 9999 /\ 1 <= datetime.month dt <= 12 /\
  1 <= datetime.day dt <= iso8601.days_in_month (datetime.year dt) (datetime.month dt) /\
  0 <= datetime.hour dt <= 23 /\ 0 <= datetime.minute dt <= 59 /\
  0 <= datetime.second dt <= 59 /\ 0 <= datetime.microsecond dt <= 999999 /\
  forall off, datetime.utcoffset dt = Some off -> - 86400000000 < off < 86400000000.

Definition whole_minute_offset (dt : datetime.datetime) : Prop :=
  forall off, datetime.utcoffset dt = Some off -> off mod 60000000 = 0.

(** The [k] low decimal digits of [n], least significant first. *)
Definition digit_cons (r : N) (d : Decimal.uint) : Decimal.uint :=
  match r with
  | 0 => Decimal.D0 d | 1 => Decimal.D1 d | 2 => Decimal.D2 d | 3 => Decimal.D3 d
  | 4 => Decimal.D4 d | 5 => Decimal.D5 d | 6 => Decimal.D6 d | 7 => Decimal.D7 d
  | 8 => Decimal.D8 d | _ => Decimal.D9 d
  end%N.

Fixpoint lu_digits (k : nat) (n : N) : Decimal.uint :=
  match k with
  | O => Decimal.Nil
  | S k' => digit_cons (n mod 10) (lu_digits k' (n / 10))
  end.

(** The empty world, and the requests an operation adds to a world. *)
Definition fresh : world := {| sent := []; logged := [] |}.

(** The binary64 values written [10.005] and [10.01] in Python. *)
Definition float_10_005 : spec_float := S754_finite false 5632314283980227 (-49).
Definition float_10_01 : spec_float := S754_finite false 5635129033747333 (-49).

(** Clients that answer every request with a given response, or raise a
    given exception on every request. *)
Definition client_returning (r : pydict) : http_client :=
  {| post := fun _ _ => Return r; get := fun _ _ => Return r |}.

Definition client_raising (ex : exn) : http_client :=
  {| post := fun _ _ => Raise ex; get := fun _ _ => Raise ex |}.

Definition module_with (c : http_client) : PaymentModule := {| _http_client := c |}.

(** 2 January 2024, 03:04:05, without time zone. *)
Definition sample_datetime : datetime.datetime :=
  {| datetime.year := 2024; datetime.month := 1; datetime.day := 2;
     datetime.hour := 3; datetime.minute := 4; datetime.second := 5;
     datetime.microsecond := 0; datetime.utcoffset := None |}.

(** 31 December 987, 23:59:59.000250, at UTC-03:30; and the first
    datetime in a zone 30 seconds ahead of UTC. *)
Definition aware_datetime : datetime.datetime :=
  {| datetime.year := 987; datetime.month := 12; datetime.day := 31;
     datetime.hour := 23; datetime.minute := 59; datetime.second := 59;
     datetime.microsecond := 250; datetime.utcoffset := Some (-12600000000) |}.

Definition odd_offset_datetime : datetime.datetime :=
  {| datetime.year := 2024; datetime.month := 1; datetime.day := 2;
     datetime.hour := 3; datetime.minute := 4; datetime.second := 5;
     datetime.microsecond := 0; datetime.utcoffset := Some 30000000 |}.

(** The reading of "the three kinds of error are told apart by their
    status field": no timeout and no connection failure shares its status
    with an API error that carries an HTTP status, or with each other. *)
Definition status_separates_kinds : Prop :=
  forall (m1 m2 : option string) (s : Z) (msg : string) (rd : option pyval),
    is_http_status s = true ->
    status_code (new_ApiConnectionError m1) <> status_code (new_ApiError s msg rd) /\
    status_code (new_ApiTimeoutError m2) <> status_code (new_ApiError s msg rd) /\
    status_code (new_ApiConnectionError m1) <> status_code (new_ApiTimeoutError m2).

(** The exceptions the handlers of payment.py catch: [ApiError] and its
    subclasses. *)
Definition is_api_error (ex : exn) : bool :=
  match ex with
  | ExApi _ => true
  | _ => false
  end.

(** An argument that is not [None], the key an argument contributes to a
    request, and an optional string with [""] read as [None]. *)
Definition given {A} (o : option A) : bool :=
  match o with
  | Some _ => true
  | None => false
  end.

Definition key_if (present : bool) (key : string) : gset string :=
  if present then {[key]} else ∅.

Definition falsy_as_None (o : option string) : option string :=
  if truthy o then o else None.

(** [d.copy_negate()], and a function applied to what an outcome returns. *)
Definition copy_negate (d : decimal.Decimal) : decimal.Decimal :=
  match d with
  | decimal.Dec s c e => decimal.Dec (negb s) c e
  | decimal.DecInf s => decimal.DecInf (negb s)
  | decimal.DecNaN s signaling p => decimal.DecNaN (negb s) signaling p
  end.

Definition map_outcome {A B} (f : A -> B) (o : outcome A) : outcome B :=
  match o with
  | Return a => Return (f a)
  | Raise ex => Raise ex
  end.

(** The [float] nearest to [n] hundredths is transmitted as itself. *)
Definition float_amount_unchanged (n : nat) : bool :=
  match transmitted_amount (AmtFloat (float_of_cents false (N.of_nat n))) with
  | Return x => binary64.same x (float_of_cents false (N.of_nat n))
  | Raise _ => false
  end.

(* ===================================================================== *)
(** * Properties *)
(* ===================================================================== *)

(** ** Decimal digits and rounding *)

Section DecimalDigits.
Import decimal.

Lemma ndigits_fuel_pos fuel n : 1 <= ndigits_fuel fuel n.
Proof.
  revert n. induction fuel as [|fuel IH]; intros n; cbn; [lia|].
  destruct (n <? 10)%N; [lia|]. specialize (IH (n / 10)%N). lia.
Qed.

Lemma ndigits_fuel_bounds fuel n :
  (0 < n < 2 ^ N.of_nat fuel)%N ->
  10 ^ (ndigits_fuel fuel n - 1) <= Z.of_N n < 10 ^ ndigits_fuel fuel n.
Proof.
  revert n. induction fuel as [|fuel IH]; intros n [Hpos Hlt].
  - cbn in Hlt. lia.
  - cbn [ndigits_fuel]. destruct (N.ltb_spec n 10) as [Hsmall|Hbig].
    + cbn. lia.
    + assert (Hq : (0 < n / 10 < 2 ^ N.of_nat fuel)%N).
      { split.
        - apply N.div_str_pos. lia.
        - apply N.Div0.div_lt_upper_bound.
          rewrite Nat2N.inj_succ, N.pow_succ_r' in Hlt. lia. }
      specialize (IH _ Hq). pose proof (ndigits_fuel_pos fuel (n / 10)%N) as Hd.
      rewrite N2Z.inj_div in IH. cbn [Z.of_N] in IH.
      set (d := ndigits_fuel fuel (n / 10)%N) in *.
      replace (1 + d - 1) with (Z.succ (d - 1)) by lia.
      replace (1 + d) with (Z.succ d) by lia.
      rewrite !Z.pow_succ_r by lia.
      pose proof (Z.div_mod (Z.of_N n) 10 ltac:(lia)) as Hdm.
      pose proof (Z.mod_pos_bound (Z.of_N n) 10 ltac:(lia)) as Hm.
      lia.
Qed.

Lemma ndigits_pos n : 1 <= ndigits n.
Proof. apply ndigits_fuel_pos. Qed.

Lemma ndigits_bounds n :
  (0 < n)%N -> 10 ^ (ndigits n - 1) <= Z.of_N n < 10 ^ ndigits n.
Proof.
  intros Hpos. apply ndigits_fuel_bounds. split; [exact Hpos|].
  rewrite N2Nat.id. apply N.size_gt.
Qed.

Lemma ndigits_zero : ndigits 0 = 1.
Proof. reflexivity. Qed.

(** A number below [10^k] has at most [k] digits, and conversely. *)
Lemma ndigits_le_iff n k :
  1 <= k -> (ndigits n <= k <-> Z.of_N n < 10 ^ k).
Proof.
  intros Hk. destruct (N.eq_dec n 0%N) as [->|Hn].
  - rewrite ndigits_zero. split; intros _; [|lia]. cbn. apply Z.pow_pos_nonneg; lia.
  - pose proof (ndigits_bounds n ltac:(lia)) as [Hlo Hhi].
    pose proof (ndigits_pos n) as Hd. split; intros H.
    + eapply Z.lt_le_trans; [exact Hhi|]. apply Z.pow_le_mono_r; lia.
    + destruct (Z.le_gt_cases (ndigits n) k) as [|Hgt]; [assumption|exfalso].
      assert (10 ^ k <= 10 ^ (ndigits n - 1)) by (apply Z.pow_le_mono_r; lia).
      lia.
Qed.

Lemma pow10_pos (k : N) : (0 < 10 ^ k)%N.
Proof. apply N.neq_0_lt_0, N.pow_nonzero. discriminate. Qed.

(** Dropping digits under ROUND_HALF_UP is [floor(x + 1/2)]. *)
Lemma round_coeff_half_up c k :
  let p := (10 ^ Z.to_N k)%N in
  round_coeff ROUND_HALF_UP c k = ((2 * c + p) / (2 * p))%N.
Proof.
  intros p. unfold round_coeff. fold p.
  pose proof (pow10_pos (Z.to_N k)) as Hp. fold p in Hp.
  pose proof (N.div_mod c p ltac:(lia)) as Hdm.
  pose proof (N.mod_lt c p ltac:(lia)) as Hm.
  set (q := (c / p)%N) in *. set (r := (c mod p)%N) in *.
  destruct (N.leb_spec p (2 * r)) as [Hup|Hdown].
  - apply (N.div_unique _ _ _ (2 * r - p)%N); lia.
  - apply (N.div_unique _ _ _ (2 * r + p)%N); lia.
Qed.

Lemma half_up_cents_rescale s c e :
  c <> 0%N ->
  rescale s c e (-2) ROUND_HALF_UP = Dec s (half_up_cents c e) (-2).
Proof.
  intros Hc. unfold rescale, half_up_cents.
  destruct (N.eqb_spec c 0) as [->|_]; [congruence|].
  destruct (Z.leb_spec (-2) e) as [Hge|Hlt].
  - unfold pad_coeff. reflexivity.
  - rewrite round_coeff_half_up. reflexivity.
Qed.

(** What [half_up_cents] is: the hundredths nearest to the value, a half
    going up.  With [p = 10^(-2-e)] the value in hundredths is [c / p]. *)
Lemma half_up_cents_exact c e :
  -2 <= e -> Z.of_N (half_up_cents c e) = Z.of_N c * 10 ^ (e + 2).
Proof.
  intros He. unfold half_up_cents.
  destruct (Z.leb_spec (-2) e); [|lia].
  rewrite N2Z.inj_mul, N2Z.inj_pow, Z2N.id by lia. reflexivity.
Qed.

Lemma half_up_cents_nearest c e :
  e < -2 ->
  let p := 10 ^ (- 2 - e) in
  2 * Z.of_N c - p < 2 * Z.of_N (half_up_cents c e) * p <= 2 * Z.of_N c + p.
Proof.
  intros He p. unfold half_up_cents.
  destruct (Z.leb_spec (-2) e); [lia|].
  rewrite N2Z.inj_div, N2Z.inj_add, !N2Z.inj_mul, N2Z.inj_pow, Z2N.id by lia.
  change (Z.of_N 2) with 2. change (Z.of_N 10) with 10. fold p.
  assert (Hp : 0 < p) by (apply Z.pow_pos_nonneg; lia).
  pose proof (Z.div_mod (2 * Z.of_N c + p) (2 * p) ltac:(lia)) as Hdm.
  pose proof (Z.mod_pos_bound (2 * Z.of_N c + p) (2 * p) ltac:(lia)) as Hm.
  lia.
Qed.

Lemma half_up_cents_zero e : half_up_cents 0 e = 0%N.
Proof.
  unfold half_up_cents. destruct (-2 <=? e); [reflexivity|].
  apply N.div_small. pose proof (pow10_pos (Z.to_N (- 2 - e))). lia.
Qed.

Lemma adjusted_of_small_cents c e :
  c <> 0%N -> (half_up_cents c e < 10 ^ 28)%N -> adjusted c e <= 25.
Proof.
  intros Hc Hsmall. unfold adjusted.
  pose proof (ndigits_bounds c ltac:(lia)) as [Hlo _].
  pose proof (ndigits_pos c) as Hnd.
  destruct (Z.le_gt_cases (e + ndigits c - 1) 25) as [|Hbig]; [assumption|exfalso].
  apply N2Z.inj_lt in Hsmall. rewrite N2Z.inj_pow in Hsmall.
  change (Z.of_N 10 ^ Z.of_N 28) with (10 ^ 28) in Hsmall.
  destruct (Z.le_gt_cases (-2) e) as [Hge|Hlt].
  - rewrite half_up_cents_exact in Hsmall by lia.
    assert (H1 : 10 ^ 28 <= 10 ^ (ndigits c - 1 + (e + 2))) by (apply Z.pow_le_mono_r; lia).
    rewrite Z.pow_add_r in H1 by lia.
    assert (H2 : 0 < 10 ^ (e + 2)) by (apply Z.pow_pos_nonneg; lia).
    nia.
  - pose proof (half_up_cents_nearest c e ltac:(lia)) as [Hnear _]. cbv zeta in Hnear.
    set (p := 10 ^ (- 2 - e)) in *.
    assert (Hp : 0 < p) by (apply Z.pow_pos_nonneg; lia).
    assert (H1 : 10 ^ (28 + (- 2 - e)) <= 10 ^ (ndigits c - 1)) by (apply Z.pow_le_mono_r; lia).
    rewrite Z.pow_add_r in H1 by lia. fold p in H1.
    nia.
Qed.

(** [quantize] to hundredths under ROUND_HALF_UP returns the half-up
    hundredths whenever they fit the precision of the context, *)
Lemma quantize_cents s c e :
  (half_up_cents c e < 10 ^ 28)%N ->
  quantize (Dec s c e) (Dec false 1 (-2)) ROUND_HALF_UP
  = Return (Dec s (half_up_cents c e) (-2)).
Proof.
  intros Hsmall. unfold quantize.
  change (negb ((Etiny <=? -2) && (-2 <=? Emax))) with false. cbv iota.
  destruct (N.eqb_spec c 0) as [->|Hc].
  - rewrite half_up_cents_zero. reflexivity.
  - pose proof (adjusted_of_small_cents c e Hc Hsmall) as Hadj.
    unfold Emax, prec in *.
    destruct (Z.ltb_spec 999999 (adjusted c e)); [lia|].
    destruct (Z.ltb_spec 28 (adjusted c e - -2 + 1)); [lia|].
    rewrite half_up_cents_rescale by assumption.
    assert (Hd : ndigits (half_up_cents c e) <= 28).
    { apply ndigits_le_iff; [lia|].
      apply N2Z.inj_lt in Hsmall. rewrite N2Z.inj_pow in Hsmall. exact Hsmall. }
    unfold adjusted.
    destruct (Z.ltb_spec 999999 (-2 + ndigits (half_up_cents c e) - 1)); [lia|].
    destruct (Z.ltb_spec 28 (ndigits (half_up_cents c e))); [lia|].
    reflexivity.
Qed.

(** and is an [InvalidOperation] whenever they do not. *)
Lemma quantize_cents_overflow s c e :
  (10 ^ 28 <= half_up_cents c e)%N ->
  quantize (Dec s c e) (Dec false 1 (-2)) ROUND_HALF_UP = Raise ExInvalidOperation.
Proof.
  intros Hbig. unfold quantize.
  change (negb ((Etiny <=? -2) && (-2 <=? Emax))) with false. cbv iota.
  destruct (N.eqb_spec c 0) as [->|Hc].
  - rewrite half_up_cents_zero in Hbig. pose proof (pow10_pos 28). lia.
  - destruct (Emax <? adjusted c e); [reflexivity|].
    destruct (prec <? adjusted c e - -2 + 1); [reflexivity|].
    rewrite half_up_cents_rescale by assumption.
    destruct (Emax <? adjusted (half_up_cents c e) (-2)); [reflexivity|].
    assert (Hd : ~ ndigits (half_up_cents c e) <= 28).
    { rewrite ndigits_le_iff by lia.
      apply N2Z.inj_le in Hbig. rewrite N2Z.inj_pow in Hbig.
      change (Z.of_N 10 ^ Z.of_N 28) with (10 ^ 28) in Hbig. lia. }
    unfold prec. destruct (Z.ltb_spec 28 (ndigits (half_up_cents c e))); [reflexivity|lia].
Qed.
End DecimalDigits.

(** ** Reading an [int] as a [Decimal] *)

Section DecimalOfInt.
Import decimal.

Lemma is_digit_cases c :
  is_digit c = true ->
  c = "0"%char \/ c = "1"%char \/ c = "2"%char \/ c = "3"%char \/ c = "4"%char \/
  c = "5"%char \/ c = "6"%char \/ c = "7"%char \/ c = "8"%char \/ c = "9"%char.
Proof.
  destruct c as [[] [] [] [] [] [] [] []]; cbv; intros H;
    first [discriminate H | intuition congruence].
Qed.

Ltac digit_cases c H :=
  destruct (is_digit_cases c H) as [->|[->|[->|[->|[->|[->|[->|[->|[->| ->]]]]]]]]].

Lemma lower_digits s : all_digits s = true -> lower s = s.
Proof.
  induction s as [|c s IH]; cbn; [reflexivity|].
  intros H. apply andb_true_iff in H as [Hc Hs]. rewrite (IH Hs).
  digit_cases c Hc; reflexivity.
Qed.

Lemma partition_digits c s :
  is_digit c = false -> all_digits s = true -> partition c s = (s, None).
Proof.
  intros Hc. induction s as [|a s IH]; cbn; [reflexivity|].
  intros H. apply andb_true_iff in H as [Ha Hs]. rewrite (IH Hs).
  destruct (Ascii.eqb_spec a c) as [->|_]; [congruence|reflexivity].
Qed.

Lemma all_digits_string_of_uint u : all_digits (NilEmpty.string_of_uint u) = true.
Proof. induction u; cbn; auto. Qed.

Lemma append_empty s : s +:+ "" = s.
Proof.
  induction s as [|a s IH]; [reflexivity|].
  change (String a (s +:+ "") = String a s). by rewrite IH.
Qed.

Lemma split_sign_digits ds :
  all_digits ds = true -> split_sign ds = (false, ds).
Proof.
  destruct ds as [|a r]; [reflexivity|]. cbn [all_digits].
  intros H. apply andb_true_iff in H as [Ha _].
  digit_cases a Ha; reflexivity.
Qed.

(** A non-empty string of digits is read as the integer it spells. *)
Lemma Decimal_of_body_digits sign ds c :
  all_digits ds = true -> ds <> "" -> digits_value ds = Some c ->
  Decimal_of_body sign (lower ds) = Return (Dec sign c 0).
Proof.
  intros Hall Hne Hval. unfold Decimal_of_body.
  rewrite (lower_digits ds Hall).
  rewrite !(partition_digits _ ds) by (reflexivity || assumption).
  cbn [default]. rewrite append_empty, Hval.
  destruct ds as [|a r]; [congruence|].
  cbn in Hall. apply andb_true_iff in Hall as [Ha _].
  digit_cases a Ha; reflexivity.
Qed.

Lemma digits_value_of_pos p :
  digits_value (NilEmpty.string_of_uint (Pos.to_uint p)) = Some (Npos p).
Proof.
  unfold digits_value. rewrite NilEmpty.usu.
  f_equal. apply DecimalPos.Unsigned.of_to.
Qed.

Lemma string_of_uint_nonempty p : NilEmpty.string_of_uint (Pos.to_uint p) <> "".
Proof.
  intros H. pose proof (NilEmpty.usu (Pos.to_uint p)) as Hu. rewrite H in Hu.
  cbn in Hu. injection Hu as Hu.
  pose proof (DecimalPos.Unsigned.of_to p) as Hp. rewrite <- Hu in Hp. discriminate Hp.
Qed.

Lemma str_of_pos p :
  NilZero.string_of_uint (Pos.to_uint p) = NilEmpty.string_of_uint (Pos.to_uint p).
Proof.
  pose proof (string_of_uint_nonempty p) as Hne.
  destruct (Pos.to_uint p); first [reflexivity | exfalso; apply Hne; reflexivity].
Qed.

(** [Decimal(str(n))] for an [int] is [n] itself, with exponent 0. *)
Lemma Decimal_of_str_int n :
  Decimal_of_str (str_int n) = Return (Dec (n <? 0) (Z.abs_N n) 0).
Proof.
  unfold str_int, Decimal_of_str.
  destruct n as [|p|p]; cbn [Z.to_int Z.ltb Z.compare Z.abs_N NilZero.string_of_int].
  - reflexivity.
  - rewrite str_of_pos, split_sign_digits by apply all_digits_string_of_uint.
    apply Decimal_of_body_digits;
      auto using all_digits_string_of_uint, string_of_uint_nonempty, digits_value_of_pos.
  - rewrite str_of_pos. cbn [split_sign].
    apply Decimal_of_body_digits;
      auto using all_digits_string_of_uint, string_of_uint_nonempty, digits_value_of_pos.
Qed.
End DecimalOfInt.

(** ** exceptions.py *)


Example ApiError_text_404 :
  str_exc (new_ApiError 404 "HTTP 404 Not Found" None) = "API Error 404: HTTP 404 Not Found".
Proof. reflexivity. Qed.

(** The timeout status 408 is an HTTP status, and an API error built for a
    server's own 408 response has the status of a timeout. *)
Lemma timeout_status_not_separating : ~ status_separates_kinds.
Proof.
  intros H.
  destruct (H None None 408 "Request Timeout" None eq_refl) as (_ & Hne & _).
  apply Hne. reflexivity.
Qed.

(** C9 (as the code has it).  A connection failure carries status 0, which
    is no HTTP status and differs from the timeout status 408; a timeout
    differs in status from every API error whose HTTP status is not 408, and
    in class from every API error. *)
Theorem status_markers :
  forall (m1 m2 : option string) (s : Z) (msg : string) (rd : option pyval),
    is_http_status s = true ->
    status_code (new_ApiConnectionError m1) = 0 /\
    status_code (new_ApiTimeoutError m2) = 408 /\
    is_http_status (status_code (new_ApiConnectionError m1)) = false /\
    status_code (new_ApiConnectionError m1) <> status_code (new_ApiError s msg rd) /\
    status_code (new_ApiConnectionError m1) <> status_code (new_ApiTimeoutError m2) /\
    (s <> 408 -> status_code (new_ApiTimeoutError m2) <> status_code (new_ApiError s msg rd)) /\
    cls (new_ApiTimeoutError m2) <> cls (new_ApiError s msg rd) /\
    cls (new_ApiConnectionError m1) <> cls (new_ApiError s msg rd).
Proof.
  intros m1 m2 s msg rd Hs. cbn.
  unfold is_http_status in Hs. apply andb_true_iff in Hs as [Hlo Hhi].
  apply Z.leb_le in Hlo. apply Z.leb_le in Hhi.
  repeat split; try reflexivity; try discriminate; lia.
Qed.

Lemma status_markers_witness :
  status_code (new_ApiConnectionError None) <> status_code (new_ApiError 404 "Not Found" None).
Proof.
  exact (proj1 (proj2 (proj2 (proj2
    (status_markers None None 404 "Not Found" None eq_refl))))).
Defined.

(** ** Running the operations *)

(** Lookups in a dict built by conditional assignments. *)
Section OptionalKeys.
Context {A : Type}.
Implicit Types (o : option A) (g : A -> pyval) (m : pydict) (k : string).

Lemma lookup_opt_insert_ne o g m k k' :
  k <> k' ->
  (match o with Some v => <[k := g v]> m | None => m end) !! k' = m !! k'.
Proof. intros Hne. destruct o; [by rewrite lookup_insert_ne|done]. Qed.

Lemma lookup_opt_insert_eq o g m k :
  m !! k = None ->
  (match o with Some v => <[k := g v]> m | None => m end) !! k = g <$> o.
Proof. intros Hm. destruct o; [by rewrite lookup_insert_eq|done]. Qed.
End OptionalKeys.

Lemma lookup_set_if_truthy_ne k k' v (m : pydict) :
  k <> k' -> set_if_truthy k v m !! k' = m !! k'.
Proof.
  intros Hne. unfold set_if_truthy. destruct (truthy v); [by rewrite lookup_insert_ne|done].
Qed.

Lemma lookup_set_if_truthy_eq k v (m : pydict) :
  m !! k = None ->
  set_if_truthy k v m !! k = if truthy v then PStr <$> v else None.
Proof.
  intros Hm. unfold set_if_truthy. destruct v as [s|]; cbn; [|done].
  destruct (negb (String.eqb s "")); [by rewrite lookup_insert_eq|done].
Qed.

(** One step of an operation. *)
Section Running.
Context {A B : Type}.

Lemma run_log l m (k : unit -> M B) w :
  bind (log l m) k w = k tt {| sent := sent w; logged := logged w ++ [(l, m)] |}.
Proof. reflexivity. Qed.

Lemma run_lift_return (a : A) (k : A -> M B) w :
  bind (lift (Return a)) k w = k a w.
Proof. reflexivity. Qed.

Lemma run_lift_raise ex (k : A -> M B) w :
  bind (lift (Raise ex)) k w = (Raise ex, w).
Proof. reflexivity. Qed.

Lemma run_ret (a : A) (k : A -> M B) w :
  bind (ret a) k w = k a w.
Proof. reflexivity. Qed.
End Running.

(** The [isinstance] test of the amount blocks. *)
Lemma coerce_amount (a : amount_arg) :
  match a with
  | AmtInt n => s <- lift (int_str n) ;; lift (decimal.Decimal_of_str s)
  | AmtFloat x => lift (decimal.Decimal_of_str (binary64.repr x))
  | AmtDecimal d => ret d
  end = lift (amount_decimal a).
Proof.
  destruct a as [n| |]; try reflexivity.
  cbn [amount_decimal]. destruct (int_str n); reflexivity.
Qed.

(** An [int] is printed when it is below [10^4300] in magnitude, and only
    then. *)
Lemma int_printable_iff n : int_printable n = true <-> Z.abs n < 10 ^ 4300.
Proof.
  unfold int_printable, int_max_str_digits. rewrite Z.leb_le, ndigits_le_iff by lia.
  by rewrite N2Z.inj_abs_N.
Qed.

Lemma int_str_printable n : int_printable n = true -> int_str n = Return (str_int n).
Proof. unfold int_str. by intros ->. Qed.

Lemma int_str_unprintable n : int_printable n = false -> int_str n = Raise ExValueError.
Proof. unfold int_str. by intros ->. Qed.

Lemma int_printable_below n k : 0 <= k <= 4300 -> Z.abs n < 10 ^ k -> int_printable n = true.
Proof.
  intros Hk Hn. apply int_printable_iff.
  eapply Z.lt_le_trans; [exact Hn|]. apply Z.pow_le_mono_r; lia.
Qed.

Lemma int_unprintable_iff n : int_printable n = false <-> 10 ^ 4300 <= Z.abs n.
Proof.
  pose proof (int_printable_iff n) as H. destruct (int_printable n).
  - split; [discriminate|]. intros Hge. exfalso. apply (Z.lt_irrefl (Z.abs n)).
    eapply Z.lt_le_trans; [by apply H|exact Hge].
  - split; [|reflexivity]. intros _.
    destruct (Z.le_gt_cases (10 ^ 4300) (Z.abs n)) as [|Hlt]; [assumption|].
    apply H in Hlt. discriminate Hlt.
Qed.

(** An amount that is normalized can be printed. *)
Lemma format_amount_accepted a d : amount_decimal a = Return d -> format_amount a = Return tt.
Proof.
  destruct a as [n| |]; try reflexivity.
  cbn [amount_decimal format_amount]. by destruct (int_str n).
Qed.

(** An [int] amount that cannot be printed is one that is not normalized. *)
Lemma format_amount_raise a ex :
  format_amount a = Raise ex -> amount_decimal a = Raise ex.
Proof.
  destruct a as [n| |]; try discriminate.
  cbn [amount_decimal format_amount]. destruct (int_str n); [discriminate|]. by intros [= ->].
Qed.

(** Unfold the monad and the effects, and project the world. *)
Ltac run_M :=
  unfold bind, ret, lift, raise, log, http_post, http_get, try_except_ApiError, get_error_code;
  cbn [sent logged fst snd].

Lemma Decimal_cent : decimal.Decimal_of_str "0.01" = Return (decimal.Dec false 1 (-2)).
Proof. reflexivity. Qed.

(** What [create] sends: one POST with the normalized amount, or nothing
    when the amount is rejected. *)
Lemma create_request self a currency description order_id success_redirect_url
    fail_redirect_url w :
  match transmitted_amount a with
  | Return x =>
      sent (snd (create self a currency description order_id
                   success_redirect_url fail_redirect_url w))
      = sent w ++
        [POST "api/h2h/links"
           (set_if_truthy "failRedirectUrl" fail_redirect_url
             (set_if_truthy "successRedirectUrl" success_redirect_url
               (set_if_truthy "orderId" order_id
                 (set_if_truthy "description" description
                   (<["currency" := PStr currency]> (<["amount" := PFloat x]> ∅))))))]
  | Raise ex =>
      create self a currency description order_id success_redirect_url fail_redirect_url w
      = (Raise ex,
         match format_amount a with
         | Return _ =>
             {| sent := sent w; logged := logged w ++ [(INFO, MsgCreating a currency)] |}
         | Raise _ => w
         end)
  end.
Proof.
  unfold transmitted_amount, quantized_amount, create.
  rewrite coerce_amount, Decimal_cent. run_M.
  destruct (format_amount a) as [[]|ex'] eqn:Hformat;
    [|by rewrite (format_amount_raise a ex' Hformat)].
  destruct (amount_decimal a) as [d|ex]; [|reflexivity].
  destruct (decimal.quantize d _ _) as [q|ex]; [|reflexivity].
  destruct (binary64.of_Decimal q) as [x|ex]; [|reflexivity].
  destruct (post (_http_client self) _ _) as [r|[e| | | | |]]; try reflexivity.
  destruct (error_code e) as [v|]; run_M; [|reflexivity].
  destruct (eq_str v "Payment:PL_1001"); [reflexivity|].
  destruct (eq_str v "Payment:PL_1002"); reflexivity.
Qed.

(** Turn the leading [let] of a goal [... (let x := E in B) w ...] into a
    local definition, so that later steps never copy [E]. *)
Ltac name_let :=
  lazymatch goal with
  | |- context G [(let x := ?E in @?B x) ?w] =>
      let p := fresh "params" in
      pose (p := E);
      let g := context G [B p w] in
      change g; cbv beta
  end.

(** Lookups through the layers of the query, one [if ... is not None] at a
    time. *)
Ltac unfold_head :=
  lazymatch goal with
  | |- ?p !! _ = _ => is_var p; subst p
  end.

Ltac peel_with tac :=
  repeat first
    [ rewrite lookup_empty
    | rewrite lookup_insert_eq
    | rewrite lookup_insert_ne by tac
    | etrans; [apply lookup_opt_insert_ne; tac|]
    | unfold_head ].

Ltac lookup_key :=
  repeat first
    [ etrans; [apply lookup_opt_insert_ne; discriminate|]
    | unfold_head ];
  first
    [ etrans; [apply lookup_opt_insert_eq; peel_with discriminate; reflexivity|]; reflexivity
    | peel_with discriminate; reflexivity ].

Ltac lookup_other_key H :=
  unfold search_keys in H;
  repeat (apply not_elem_of_cons in H as [? H]);
  peel_with congruence; reflexivity.

(** An amount block of [search_links], run as a whole. *)
Lemma run_amount_block {B} (key : string) (a : amount_arg) (params : pydict)
    (k : pydict -> M B) w :
  bind
    (amount <- match a with
               | AmtInt n => s <- lift (int_str n) ;; lift (decimal.Decimal_of_str s)
               | AmtFloat x => lift (decimal.Decimal_of_str (binary64.repr x))
               | AmtDecimal d => ret d
               end ;;
     cent <- lift (decimal.Decimal_of_str "0.01") ;;
     amount <- lift (decimal.quantize amount cent decimal.ROUND_HALF_UP) ;;
     number <- lift (binary64.of_Decimal amount) ;;
     ret (<[key := PFloat number]> params)) k w
  = match transmitted_amount a with
    | Return x => k (<[key := PFloat x]> params) w
    | Raise ex => (Raise ex, w)
    end.
Proof.
  unfold transmitted_amount, quantized_amount.
  rewrite coerce_amount, Decimal_cent. run_M.
  destruct (amount_decimal a) as [d|ex]; [|reflexivity].
  destruct (decimal.quantize d _ _) as [q|ex]; [|reflexivity].
  destruct (binary64.of_Decimal q) as [x|ex]; reflexivity.
Qed.

(** What [search_links] does: it stops at a rejected amount bound, or
    builds the query, one key per argument that is not [None], and ends as
    [search_end] says. *)
Lemma search_links_request self amount_from amount_to creation_time_from creation_time_to
    order_id currencies statuses sorting skip_count max_result_count w :
  let run := search_links self amount_from amount_to creation_time_from creation_time_to
               order_id currencies statuses sorting skip_count max_result_count w in
  let early ex :=
    run = (Raise ex, {| sent := sent w; logged := logged w ++ [(INFO, MsgSearching)] |}) in
  match amount_param amount_from with
  | Raise ex => early ex
  | Return vfrom =>
      match amount_param amount_to with
      | Raise ex => early ex
      | Return vto =>
          exists params : pydict,
            run = search_end self params w /\
            params !! "amountFrom" = vfrom /\
            params !! "amountTo" = vto /\
            params !! "creationTimeFrom" = (fun t => PStr (time_text t)) <$> creation_time_from /\
            params !! "creationTimeTo" = (fun t => PStr (time_text t)) <$> creation_time_to /\
            params !! "orderId" = PStr <$> order_id /\
            params !! "currencies" = (fun f => PStr (filter_text f)) <$> currencies /\
            params !! "statuses" = (fun f => PStr (filter_text f)) <$> statuses /\
            params !! "sorting" = PStr <$> sorting /\
            params !! "skipCount" = PInt <$> skip_count /\
            params !! "maxResultCount" = PInt <$> max_result_count /\
            (forall k, k ∉ search_keys -> params !! k = None)
      end
  end.
Proof.
  intros run early. subst run early. cbv beta.
  cbv beta delta [search_links amount_param].
  rewrite run_log; cbv beta. name_let.
  destruct amount_from as [a1|]; destruct amount_to as [a2|];
    rewrite ?run_amount_block, ?run_ret; cbv beta.
  all: try (destruct (transmitted_amount a1) as [x1|ex]; [|reflexivity]).
  all: try (rewrite ?run_amount_block, ?run_ret; cbv beta).
  all: try (destruct (transmitted_amount a2) as [x2|ex]; [|reflexivity]).
  all: do 8 name_let.
  all: lazymatch goal with |- context [MsgSearchParams ?p] => exists p end; split;
    [ unfold search_end, search_finish; run_M;
      destruct (format_params _) as [[]|ex]; [|reflexivity];
      destruct (get (_http_client self) _ _) as [r|[e| | | | |]]; try reflexivity;
      destruct (r !! "items") as [items|]; [|reflexivity];
      destruct items; reflexivity |].
  all: repeat match goal with |- _ /\ _ => split end.
  all: try lookup_key.
  all: intros k Hk; lookup_other_key Hk.
Qed.

Lemma sent_search_finish self params w :
  sent (snd (search_finish self params w)) = sent w ++ [GET "api/h2h/links/" (Some params)].
Proof.
  unfold search_finish.
  destruct (get (_http_client self) _ _) as [r|[e| | | | |]]; try reflexivity.
  destruct (r !! "items") as [items|]; [|reflexivity].
  destruct (py_len items); reflexivity.
Qed.

(** Printing the query: it prints when every [int] in it does. *)
Lemma format_params_printable (params : pydict) :
  (forall k v, params !! k = Some v -> value_printable v = true) ->
  format_params params = Return tt.
Proof.
  intros Hall. unfold format_params.
  assert (H : forallb (fun kv => value_printable kv.2) (map_to_list params) = true);
    [|by rewrite H].
  apply forallb_forall. intros [k v] Hin.
  apply list_elem_of_In, elem_of_map_to_list in Hin. exact (Hall k v Hin).
Qed.

Lemma format_params_unprintable (params : pydict) k n :
  params !! k = Some (PInt n) -> int_printable n = false ->
  format_params params = Raise ExValueError.
Proof.
  intros Hk Hn. unfold format_params.
  destruct (forallb _ _) eqn:Hall; [|reflexivity].
  rewrite forallb_forall in Hall.
  specialize (Hall (k, PInt n)). cbn in Hall. rewrite Hn in Hall.
  discriminate Hall. by apply list_elem_of_In, elem_of_map_to_list.
Qed.

Lemma amount_param_printable o v x :
  amount_param o = Return v -> v = Some x -> value_printable x = true.
Proof.
  destruct o as [a|]; cbn; [|by intros [= <-]].
  destruct (transmitted_amount a); [|discriminate]. by intros [= <-] [= <-].
Qed.

(** The query of [search_links] when both amount bounds are accepted and
    the page numbers can be printed. *)
Lemma search_links_query self amount_from amount_to creation_time_from creation_time_to
    order_id currencies statuses sorting skip_count max_result_count w vfrom vto :
  amount_param amount_from = Return vfrom ->
  amount_param amount_to = Return vto ->
  printable skip_count = true ->
  printable max_result_count = true ->
  exists params : pydict,
    search_links self amount_from amount_to creation_time_from creation_time_to
      order_id currencies statuses sorting skip_count max_result_count w
    = search_finish self params w /\
    sent (snd (search_links self amount_from amount_to creation_time_from creation_time_to
                 order_id currencies statuses sorting skip_count max_result_count w))
    = sent w ++ [GET "api/h2h/links/" (Some params)] /\
    params !! "amountFrom" = vfrom /\
    params !! "amountTo" = vto /\
    params !! "creationTimeFrom" = (fun t => PStr (time_text t)) <$> creation_time_from /\
    params !! "creationTimeTo" = (fun t => PStr (time_text t)) <$> creation_time_to /\
    params !! "orderId" = PStr <$> order_id /\
    params !! "currencies" = (fun f => PStr (filter_text f)) <$> currencies /\
    params !! "statuses" = (fun f => PStr (filter_text f)) <$> statuses /\
    params !! "sorting" = PStr <$> sorting /\
    params !! "skipCount" = PInt <$> skip_count /\
    params !! "maxResultCount" = PInt <$> max_result_count /\
    (forall k, k ∉ search_keys -> params !! k = None).
Proof.
  intros Hvf Hvt Hps Hpm.
  pose proof (search_links_request self amount_from amount_to creation_time_from
                creation_time_to order_id currencies statuses sorting skip_count
                max_result_count w) as Hreq.
  cbv zeta in Hreq. rewrite Hvf, Hvt in Hreq.
  destruct Hreq as (params & Hrun & Hrest).
  assert (Hformat : format_params params = Return tt).
  { destruct Hrest as (Hfrom & Hto & Hctf & Hctt & Hoid & Hcur & Hst & Hsort & Hskip
                       & Hmax & Hother).
    apply format_params_printable. intros k v Hk.
    destruct (decide (k ∈ search_keys)) as [Hin|Hout];
      [|by rewrite (Hother k Hout) in Hk].
    unfold search_keys in Hin.
    repeat (apply elem_of_cons in Hin as [->|Hin]); [..|by apply elem_of_nil in Hin].
    - rewrite Hfrom in Hk. exact (amount_param_printable _ _ _ Hvf Hk).
    - rewrite Hto in Hk. exact (amount_param_printable _ _ _ Hvt Hk).
    - rewrite Hctf in Hk. destruct creation_time_from; by inversion Hk.
    - rewrite Hctt in Hk. destruct creation_time_to; by inversion Hk.
    - rewrite Hoid in Hk. destruct order_id; by inversion Hk.
    - rewrite Hcur in Hk. destruct currencies; by inversion Hk.
    - rewrite Hst in Hk. destruct statuses; by inversion Hk.
    - rewrite Hsort in Hk. destruct sorting; by inversion Hk.
    - rewrite Hskip in Hk. destruct skip_count; inversion Hk. exact Hps.
    - rewrite Hmax in Hk. destruct max_result_count; inversion Hk. exact Hpm. }
  assert (Hfinish : search_links self amount_from amount_to creation_time_from
                      creation_time_to order_id currencies statuses sorting skip_count
                      max_result_count w = search_finish self params w).
  { rewrite Hrun. unfold search_end. by rewrite Hformat. }
  exists params. split; [exact Hfinish|]. split; [|exact Hrest].
  rewrite Hfinish. apply sent_search_finish.
Qed.

(** A page number of more than 4300 digits stops [search_links] at the
    debug line: [ValueError], and no request. *)
Lemma search_links_unprintable_page self amount_from amount_to creation_time_from
    creation_time_to order_id currencies statuses sorting skip_count max_result_count w :
  accepted amount_from -> accepted amount_to ->
  printable skip_count && printable max_result_count = false ->
  search_links self amount_from amount_to creation_time_from creation_time_to
    order_id currencies statuses sorting skip_count max_result_count w
  = (Raise ExValueError, {| sent := sent w; logged := logged w ++ [(INFO, MsgSearching)] |}).
Proof.
  intros [vf Hvf] [vt Hvt] Hpage.
  pose proof (search_links_request self amount_from amount_to creation_time_from
                creation_time_to order_id currencies statuses sorting skip_count
                max_result_count w) as Hreq.
  cbv zeta in Hreq. rewrite Hvf, Hvt in Hreq.
  destruct Hreq as (params & Hrun & _ & _ & _ & _ & _ & _ & _ & _ & Hskip & Hmax & _).
  rewrite Hrun. unfold search_end.
  apply andb_false_iff in Hpage as [Hp|Hp].
  - destruct skip_count as [n|]; [|discriminate Hp].
    by rewrite (format_params_unprintable params "skipCount" n Hskip Hp).
  - destruct max_result_count as [n|]; [|discriminate Hp].
    by rewrite (format_params_unprintable params "maxResultCount" n Hmax Hp).
Qed.

(** [search_links(currencies=["RUB", "EUR"], skip_count=10**4300)]: the
    debug line cannot print the query, and no request is sent. *)
Example search_links_skip_count_1e4300 :
  search_links (module_with (client_returning ∅)) None None None None None
    (Some (FilterList ["RUB"; "EUR"])) None None (Some (10 ^ 4300)) None fresh
  = (Raise ExValueError, {| sent := []; logged := [(INFO, MsgSearching)] |}).
Proof.
  apply (search_links_unprintable_page (module_with (client_returning ∅)) None None None None
           None (Some (FilterList ["RUB"; "EUR"])) None None (Some (10 ^ 4300)) None fresh).
  - by exists None.
  - by exists None.
  - apply andb_false_iff. left. apply int_unprintable_iff.
    rewrite Z.abs_eq by (apply Z.pow_nonneg; lia). apply Z.le_refl.
Qed.

(** ** [create]: the amount *)

Lemma of_Decimal_cents sign cents :
  binary64.of_Decimal (decimal.Dec sign cents (-2)) = Return (float_of_cents sign cents).
Proof. unfold binary64.of_Decimal, float_of_cents. destruct (cents =? 0)%N; reflexivity. Qed.

(** An amount read as a finite decimal whose half-up hundredths fit the
    context is transmitted as the binary64 nearest to those hundredths. *)
Lemma transmitted_amount_cents a sign c e :
  amount_decimal a = Return (decimal.Dec sign c e) ->
  (half_up_cents c e < 10 ^ 28)%N ->
  transmitted_amount a = Return (float_of_cents sign (half_up_cents c e)).
Proof.
  intros Ha Hfit. unfold transmitted_amount, quantized_amount.
  rewrite Ha, quantize_cents by assumption. apply of_Decimal_cents.
Qed.

(** One whose hundredths do not fit is rejected. *)
Lemma transmitted_amount_overflow a sign c e :
  amount_decimal a = Return (decimal.Dec sign c e) ->
  (10 ^ 28 <= half_up_cents c e)%N ->
  transmitted_amount a = Raise ExInvalidOperation.
Proof.
  intros Ha Hbig. unfold transmitted_amount, quantized_amount.
  rewrite Ha, quantize_cents_overflow by assumption. reflexivity.
Qed.

Lemma amount_decimal_int n :
  int_printable n = true ->
  amount_decimal (AmtInt n) = Return (decimal.Dec (n <? 0) (Z.abs_N n) 0).
Proof.
  intros Hn. cbn [amount_decimal]. rewrite (int_str_printable n Hn).
  apply Decimal_of_str_int.
Qed.

(** An [int] of more than 4300 digits is not read at all: its [str] raises
    [ValueError].  In [create] that happens in the f-string of the first
    log line, so nothing is logged either. *)
Lemma amount_decimal_unprintable n :
  int_printable n = false -> amount_decimal (AmtInt n) = Raise ExValueError.
Proof. intros Hn. cbn [amount_decimal]. by rewrite (int_str_unprintable n Hn). Qed.

Lemma create_unprintable_int self n currency description order_id success_redirect_url
    fail_redirect_url w :
  int_printable n = false ->
  create self (AmtInt n) currency description order_id success_redirect_url
    fail_redirect_url w
  = (Raise ExValueError, w).
Proof.
  intros Hn. unfold create, format_amount. rewrite (int_str_unprintable n Hn). reflexivity.
Qed.

(** [create(amount=10**4300, currency="RUB")]: nothing is logged, nothing
    is sent. *)
Example create_rejects_1e4300 :
  create (module_with (client_returning ∅)) (AmtInt (10 ^ 4300)) "RUB" None None None None fresh
  = (Raise ExValueError, fresh).
Proof.
  apply create_unprintable_int, int_unprintable_iff.
  rewrite Z.abs_eq by (apply Z.pow_nonneg; lia). apply Z.le_refl.
Qed.


Lemma lookup_create_data (key : string) x currency description order_id
    success_redirect_url fail_redirect_url :
  key = "amount" \/ key = "currency" ->
  set_if_truthy "failRedirectUrl" fail_redirect_url
    (set_if_truthy "successRedirectUrl" success_redirect_url
      (set_if_truthy "orderId" order_id
        (set_if_truthy "description" description
          (<["currency" := PStr currency]> (<["amount" := PFloat x]> ∅))))) !! key
  = if String.eqb key "amount" then Some (PFloat x) else Some (PStr currency).
Proof.
  intros [-> | ->]; rewrite !lookup_set_if_truthy_ne by discriminate;
    [rewrite lookup_insert_ne by discriminate|]; by rewrite lookup_insert_eq.
Qed.

(** [create(amount=10**26, currency="RUB")]: [quantize] needs 29 digits,
    signals [InvalidOperation], and no request is sent. *)
Lemma create_rejects_1e26 :
  create (module_with (client_returning ∅)) (AmtInt (10 ^ 26)) "RUB" None None None None fresh
  = (Raise ExInvalidOperation,
     {| sent := []; logged := [(INFO, MsgCreating (AmtInt (10 ^ 26)) "RUB")] |}).
Proof. vm_compute. reflexivity. Qed.

(** C1 (as the code has it).  For an amount given as an [int], a [float] or
    a [Decimal] that the program reads as the finite decimal
    [(-1)^sign * c * 10^e] (a [float] through its [repr]), and whose
    half-up rounding to hundredths has at most 28 digits, [create] sends one
    POST whose ["amount"] is a float, the binary64 nearest to that rounding;
    when the rounding needs more digits, [create] raises
    [decimal.InvalidOperation] and sends nothing; an [int] of more than 4300
    digits is not read as a decimal at all ([amount_decimal] is the
    [ValueError] of its [str]): [create] raises [ValueError] in the
    f-string of its first log line, logs nothing and sends nothing; an
    [int] below [10^26] in magnitude is sent as the binary64 nearest to
    itself; and
    [create(amount=10.005, currency="RUB")] sends exactly
    [{"amount": 10.01, "currency": "RUB"}].  The rounding [half_up_cents] is
    the number of hundredths within one half of the value, a half going up
    in magnitude (last part). *)
Theorem create_amount_half_up :
  (forall self a currency description order_id success_redirect_url fail_redirect_url w
          sign c e,
      amount_decimal a = Return (decimal.Dec sign c e) ->
      (half_up_cents c e < 10 ^ 28)%N ->
      exists data : pydict,
        sent (snd (create self a currency description order_id
                     success_redirect_url fail_redirect_url w))
        = sent w ++ [POST "api/h2h/links" data] /\
        data !! "amount" = Some (PFloat (float_of_cents sign (half_up_cents c e))) /\
        data !! "currency" = Some (PStr currency)) /\
  (forall self a currency description order_id success_redirect_url fail_redirect_url w
          sign c e,
      amount_decimal a = Return (decimal.Dec sign c e) ->
      (10 ^ 28 <= half_up_cents c e)%N ->
      let run := create self a currency description order_id
                   success_redirect_url fail_redirect_url w in
      fst run = Raise ExInvalidOperation /\ sent (snd run) = sent w) /\
  (forall self n currency description order_id success_redirect_url fail_redirect_url w,
      10 ^ 4300 <= Z.abs n ->
      amount_decimal (AmtInt n) = Raise ExValueError /\
      create self (AmtInt n) currency description order_id
        success_redirect_url fail_redirect_url w
      = (Raise ExValueError, w)) /\
  (forall self n currency description order_id success_redirect_url fail_redirect_url w,
      Z.abs n < 10 ^ 26 ->
      exists data : pydict,
        sent (snd (create self (AmtInt n) currency description order_id
                     success_redirect_url fail_redirect_url w))
        = sent w ++ [POST "api/h2h/links" data] /\
        data !! "amount" = Some (PFloat (float_of_cents (n <? 0) (Z.abs_N n * 100)))) /\
  (forall self w,
      sent (snd (create self (AmtFloat float_10_005) "RUB" None None None None w))
      = sent w ++
        [POST "api/h2h/links"
           (<["amount" := PFloat float_10_01]> (<["currency" := PStr "RUB"]> ∅))]) /\
  (forall c e,
      (-2 <= e -> Z.of_N (half_up_cents c e) = Z.of_N c * 10 ^ (e + 2)) /\
      (e < -2 ->
       2 * Z.of_N c - 10 ^ (- 2 - e)
       < 2 * Z.of_N (half_up_cents c e) * 10 ^ (- 2 - e)
       <= 2 * Z.of_N c + 10 ^ (- 2 - e))).
Proof.
  split; [|split; [|split; [|split; [|split]]]].
  - intros self a currency d o s f w sign c e Ha Hfit.
    pose proof (create_request self a currency d o s f w) as Hreq.
    rewrite (transmitted_amount_cents a sign c e Ha Hfit) in Hreq.
    eexists. split; [exact Hreq|].
    split; rewrite lookup_create_data by auto; reflexivity.
  - intros self a currency d o s f w sign c e Ha Hbig run. subst run.
    pose proof (create_request self a currency d o s f w) as Hreq.
    rewrite (transmitted_amount_overflow a sign c e Ha Hbig) in Hreq.
    rewrite Hreq. split; [reflexivity|]. cbn [snd]. by destruct (format_amount a).
  - intros self n currency d o s f w Hn. apply int_unprintable_iff in Hn.
    split; [by apply amount_decimal_unprintable|by apply create_unprintable_int].
  - intros self n currency d o s f w Hn.
    pose proof (create_request self (AmtInt n) currency d o s f w) as Hreq.
    assert (Hp : int_printable n = true) by (apply (int_printable_below n 26); [lia|exact Hn]).
    rewrite (transmitted_amount_cents _ _ _ _ (amount_decimal_int n Hp)) in Hreq.
    + eexists. split; [exact Hreq|]. rewrite lookup_create_data by auto. reflexivity.
    + change (half_up_cents (Z.abs_N n) 0) with (Z.abs_N n * 100)%N. lia.
  - intros self w.
    pose proof (create_request self (AmtFloat float_10_005) "RUB" None None None None w) as Hreq.
    assert (Hx : transmitted_amount (AmtFloat float_10_005) = Return float_10_01)
      by (vm_compute; reflexivity).
    rewrite Hx in Hreq. rewrite Hreq. reflexivity.
  - intros c e. split; [apply half_up_cents_exact|apply half_up_cents_nearest].
Qed.

Lemma create_amount_half_up_witness :
  exists data : pydict,
    sent (snd (create (module_with (client_returning ∅)) (AmtInt 10) "RUB"
                 None None None None fresh))
    = sent fresh ++ [POST "api/h2h/links" data] /\
    data !! "amount" = Some (PFloat (float_of_cents false (half_up_cents 10 0))) /\
    data !! "currency" = Some (PStr "RUB").
Proof.
  apply (proj1 create_amount_half_up (module_with (client_returning ∅)) (AmtInt 10) "RUB"
           None None None None fresh false 10%N 0).
  - reflexivity.
  - reflexivity.
Defined.

(** ** Optional fields *)

Lemma set_if_truthy_no_null k v (m : pydict) :
  (forall k', m !! k' <> Some PNone) ->
  forall k', set_if_truthy k v m !! k' <> Some PNone.
Proof.
  intros Hm k'. unfold set_if_truthy. destruct (truthy v); [|apply Hm].
  destruct (decide (k = k')) as [->|Hne].
  - rewrite lookup_insert_eq. discriminate.
  - rewrite lookup_insert_ne by assumption. apply Hm.
Qed.

(** [search_links(order_id="")]: the empty string is not [None], and the
    key is sent. *)
Lemma search_links_sends_empty_order_id :
  sent (snd (search_links (module_with (client_returning ∅))
               None None None None (Some "") None None None None None fresh))
  = [GET "api/h2h/links/" (Some {["orderId" := PStr ""]})].
Proof. reflexivity. Qed.

(** C2 (as the code has it).  In the payload of [create] an optional
    argument is a key exactly when it is truthy (neither [None] nor [""]),
    under its documented name and with its own value; in the query of
    [search_links] an argument is a key exactly when it is not [None], so an
    empty string or a zero is sent; neither request ever has a key whose
    value is null.  (Stated, as every property of a request below, for the
    calls that reach the request: the amounts are ones the program can
    normalize and, in [search_links], the page numbers are ones the debug
    line can print.  [search_links_unprintable_page] is the other case.) *)
Theorem optional_fields_by_omission :
  (forall self a currency description order_id success_redirect_url fail_redirect_url w x,
      transmitted_amount a = Return x ->
      exists data : pydict,
        sent (snd (create self a currency description order_id
                     success_redirect_url fail_redirect_url w))
        = sent w ++ [POST "api/h2h/links" data] /\
        data !! "description" = (if truthy description then PStr <$> description else None) /\
        data !! "orderId" = (if truthy order_id then PStr <$> order_id else None) /\
        data !! "successRedirectUrl"
          = (if truthy success_redirect_url then PStr <$> success_redirect_url else None) /\
        data !! "failRedirectUrl"
          = (if truthy fail_redirect_url then PStr <$> fail_redirect_url else None) /\
        (forall k, data !! k <> Some PNone)) /\
  (forall self amount_from amount_to creation_time_from creation_time_to
          order_id currencies statuses sorting skip_count max_result_count w,
      accepted amount_from -> accepted amount_to ->
      printable skip_count = true -> printable max_result_count = true ->
      exists params : pydict,
        sent (snd (search_links self amount_from amount_to creation_time_from
                     creation_time_to order_id currencies statuses sorting
                     skip_count max_result_count w))
        = sent w ++ [GET "api/h2h/links/" (Some params)] /\
        (is_Some (params !! "amountFrom") <-> amount_from <> None) /\
        (is_Some (params !! "amountTo") <-> amount_to <> None) /\
        params !! "creationTimeFrom" = (fun t => PStr (time_text t)) <$> creation_time_from /\
        params !! "creationTimeTo" = (fun t => PStr (time_text t)) <$> creation_time_to /\
        params !! "orderId" = PStr <$> order_id /\
        params !! "currencies" = (fun f => PStr (filter_text f)) <$> currencies /\
        params !! "statuses" = (fun f => PStr (filter_text f)) <$> statuses /\
        params !! "sorting" = PStr <$> sorting /\
        params !! "skipCount" = PInt <$> skip_count /\
        params !! "maxResultCount" = PInt <$> max_result_count /\
        (forall k, params !! k <> Some PNone)).
Proof.
  split.
  - intros self a currency d o s f w x Hx.
    pose proof (create_request self a currency d o s f w) as Hreq. rewrite Hx in Hreq.
    eexists. split; [exact Hreq|].
    repeat match goal with |- _ /\ _ => split end.
    + rewrite !lookup_set_if_truthy_ne by discriminate.
      apply lookup_set_if_truthy_eq. by rewrite !lookup_insert_ne by discriminate.
    + rewrite !lookup_set_if_truthy_ne by discriminate.
      apply lookup_set_if_truthy_eq.
      rewrite lookup_set_if_truthy_ne by discriminate.
      by rewrite !lookup_insert_ne by discriminate.
    + rewrite !lookup_set_if_truthy_ne by discriminate.
      apply lookup_set_if_truthy_eq.
      rewrite !lookup_set_if_truthy_ne by discriminate.
      by rewrite !lookup_insert_ne by discriminate.
    + apply lookup_set_if_truthy_eq.
      rewrite !lookup_set_if_truthy_ne by discriminate.
      by rewrite !lookup_insert_ne by discriminate.
    + do 4 apply set_if_truthy_no_null. intros k.
      destruct (decide ("currency" = k)) as [<-|Hc];
        [rewrite lookup_insert_eq; discriminate|rewrite lookup_insert_ne by assumption].
      destruct (decide ("amount" = k)) as [<-|Ha];
        [rewrite lookup_insert_eq; discriminate|rewrite lookup_insert_ne by assumption].
      rewrite lookup_empty. discriminate.
  - intros self af at' ctf ctt oid cur st sort skip maxr w [vf Hvf] [vt Hvt] Hps Hpm.
    destruct (search_links_query self af at' ctf ctt oid cur st sort skip maxr w vf vt Hvf Hvt Hps Hpm)
      as (params & _ & Hsent & Hfrom & Hto & Hctf & Hctt & Hoid & Hcur & Hst & Hsort
                      & Hskip & Hmax & Hother).
    exists params. split; [exact Hsent|].
    repeat match goal with |- _ /\ _ => split end; try assumption.
    + rewrite Hfrom. destruct af as [a|]; cbn in Hvf.
      * destruct (transmitted_amount a); [|discriminate]. injection Hvf as <-.
        split; [discriminate|eauto].
      * injection Hvf as <-. split; [intros [? ?]; discriminate|congruence].
    + rewrite Hto. destruct at' as [a|]; cbn in Hvt.
      * destruct (transmitted_amount a); [|discriminate]. injection Hvt as <-.
        split; [discriminate|eauto].
      * injection Hvt as <-. split; [intros [? ?]; discriminate|congruence].
    + intros k. destruct (decide (k ∈ search_keys)) as [Hin|Hout].
      * unfold search_keys in Hin.
        repeat (apply elem_of_cons in Hin as [->|Hin]);
          [..|by apply elem_of_nil in Hin].
        -- rewrite Hfrom. destruct af as [a|]; cbn in Hvf;
             [destruct (transmitted_amount a); [|discriminate]|];
             injection Hvf as <-; discriminate.
        -- rewrite Hto. destruct at' as [a|]; cbn in Hvt;
             [destruct (transmitted_amount a); [|discriminate]|];
             injection Hvt as <-; discriminate.
        -- rewrite Hctf. destruct ctf; discriminate.
        -- rewrite Hctt. destruct ctt; discriminate.
        -- rewrite Hoid. destruct oid; discriminate.
        -- rewrite Hcur. destruct cur; discriminate.
        -- rewrite Hst. destruct st; discriminate.
        -- rewrite Hsort. destruct sort; discriminate.
        -- rewrite Hskip. destruct skip; discriminate.
        -- rewrite Hmax. destruct maxr; discriminate.
      * rewrite (Hother k Hout). discriminate.
Qed.

Lemma optional_fields_by_omission_witness :
  (exists data : pydict,
     sent (snd (create (module_with (client_returning ∅)) (AmtInt 10) "RUB"
                  (Some "") (Some "order-7") None None fresh))
     = sent fresh ++ [POST "api/h2h/links" data] /\
     data !! "description" = None /\
     data !! "orderId" = Some (PStr "order-7") /\
     data !! "successRedirectUrl" = None /\
     data !! "failRedirectUrl" = None /\
     (forall k, data !! k <> Some PNone)) /\
  (exists params : pydict,
     sent (snd (search_links (module_with (client_returning ∅)) None (Some (AmtInt 10))
                  None None (Some "") None None None (Some 0) None fresh))
     = sent fresh ++ [GET "api/h2h/links/" (Some params)] /\
     (is_Some (params !! "amountFrom") <-> None <> @None amount_arg) /\
     (is_Some (params !! "amountTo") <-> Some (AmtInt 10) <> None) /\
     params !! "creationTimeFrom" = None /\
     params !! "creationTimeTo" = None /\
     params !! "orderId" = Some (PStr "") /\
     params !! "currencies" = None /\
     params !! "statuses" = None /\
     params !! "sorting" = None /\
     params !! "skipCount" = Some (PInt 0) /\
     params !! "maxResultCount" = None /\
     (forall k, params !! k <> Some PNone)).
Proof.
  split.
  - apply (proj1 optional_fields_by_omission (module_with (client_returning ∅)) (AmtInt 10)
             "RUB" (Some "") (Some "order-7") None None fresh
             (S754_finite false 5629499534213120 (-49))).
    vm_compute. reflexivity.
  - apply (proj2 optional_fields_by_omission (module_with (client_returning ∅))
             None (Some (AmtInt 10)) None None (Some "") None None None (Some 0) None fresh).
    + exists None. reflexivity.
    + exists (Some (PFloat (S754_finite false 5629499534213120 (-49)))).
      vm_compute. reflexivity.
    + reflexivity.
    + reflexivity.
Defined.

Lemma accepted_None : accepted None.
Proof. by exists None. Qed.

(** ** [search_links]: filters, time bounds, the whole query *)

(** C4.  A [currencies] or [statuses] argument given as a list of strings
    is sent as one string, the items joined by commas, under the one key
    ["currencies"] or ["statuses"]; given as a string it is sent as it
    is.  (For the calls that reach the request.) *)
Theorem list_filters_comma_joined :
  forall self amount_from amount_to creation_time_from creation_time_to
         order_id currencies statuses sorting skip_count max_result_count w,
    accepted amount_from -> accepted amount_to ->
    printable skip_count = true -> printable max_result_count = true ->
    exists params : pydict,
      sent (snd (search_links self amount_from amount_to creation_time_from
                   creation_time_to order_id currencies statuses sorting
                   skip_count max_result_count w))
      = sent w ++ [GET "api/h2h/links/" (Some params)] /\
      (forall l, currencies = Some (FilterList l) ->
                 params !! "currencies" = Some (PStr (String.concat "," l))) /\
      (forall s, currencies = Some (FilterStr s) -> params !! "currencies" = Some (PStr s)) /\
      (forall l, statuses = Some (FilterList l) ->
                 params !! "statuses" = Some (PStr (String.concat "," l))) /\
      (forall s, statuses = Some (FilterStr s) -> params !! "statuses" = Some (PStr s)) /\
      String.concat "," ["RUB"; "EUR"] = "RUB,EUR".
Proof.
  intros self af at' ctf ctt oid cur st sort skip maxr w [vf Hvf] [vt Hvt] Hps Hpm.
  destruct (search_links_query self af at' ctf ctt oid cur st sort skip maxr w vf vt Hvf Hvt Hps Hpm)
    as (params & _ & Hsent & _ & _ & _ & _ & _ & Hcur & Hst & _).
  exists params. split; [exact Hsent|].
  repeat split; intros ? ->; first [exact Hcur | exact Hst].
Qed.

Lemma list_filters_comma_joined_witness :
  exists params : pydict,
    sent (snd (search_links (module_with (client_returning ∅)) None None None None None
                 (Some (FilterList ["RUB"; "EUR"])) (Some (FilterStr "Opened"))
                 None None None fresh))
    = sent fresh ++ [GET "api/h2h/links/" (Some params)] /\
    (forall l, Some (FilterList ["RUB"; "EUR"]) = Some (FilterList l) ->
               params !! "currencies" = Some (PStr (String.concat "," l))) /\
    (forall s, Some (FilterList ["RUB"; "EUR"]) = Some (FilterStr s) ->
               params !! "currencies" = Some (PStr s)) /\
    (forall l, Some (FilterStr "Opened") = Some (FilterList l) ->
               params !! "statuses" = Some (PStr (String.concat "," l))) /\
    (forall s, Some (FilterStr "Opened") = Some (FilterStr s) ->
               params !! "statuses" = Some (PStr s)) /\
    String.concat "," ["RUB"; "EUR"] = "RUB,EUR".
Proof.
  apply (list_filters_comma_joined (module_with (client_returning ∅)) None None None None None
           (Some (FilterList ["RUB"; "EUR"])) (Some (FilterStr "Opened")) None None None fresh).
  - exact accepted_None.
  - exact accepted_None.
  - reflexivity.
  - reflexivity.
Defined.

(** C5.  [search_links(currencies=["RUB","USD"], statuses="Opened",
    skip_count=0, max_result_count=50)] sends one GET whose query is exactly
    [{"currencies": "RUB,USD", "statuses": "Opened", "skipCount": 0,
    "maxResultCount": 50}]: the zero [skip_count] is there. *)
Theorem search_scenario_query :
  forall self w,
    sent (snd (search_links self None None None None None
                 (Some (FilterList ["RUB"; "USD"])) (Some (FilterStr "Opened"))
                 None (Some 0) (Some 50) w))
    = sent w ++
      [GET "api/h2h/links/"
         (Some (<["currencies" := PStr "RUB,USD"]>
                 (<["statuses" := PStr "Opened"]>
                   (<["skipCount" := PInt 0]>
                     (<["maxResultCount" := PInt 50]> ∅)))))].
Proof.
  intros self w. unfold search_links. run_M.
  destruct (get (_http_client self) _ _) as [r|[e| | | | |]]; try reflexivity.
  destruct (r !! "items") as [items|]; [|reflexivity].
  destruct items; reflexivity.
Qed.

(** ** [isoformat] and ISO 8601 *)

(** The digits of a number below [10^k]. *)
Lemma of_lu_digit_cons r d :
  (r < 10)%N -> Unsigned.of_lu (digit_cons r d) = (r + 10 * Unsigned.of_lu d)%N.
Proof.
  intros Hr.
  assert (H : (r = 0 \/ r = 1 \/ r = 2 \/ r = 3 \/ r = 4 \/ r = 5 \/ r = 6 \/ r = 7 \/ r = 8
               \/ r = 9)%N) by lia.
  destruct H as [->|[->|[->|[->|[->|[->|[->|[->|[->| ->]]]]]]]]]; cbn [digit_cons Unsigned.of_lu]; lia.
Qed.

Lemma of_lu_lu_digits k n : Unsigned.of_lu (lu_digits k n) = (n mod 10 ^ N.of_nat k)%N.
Proof.
  revert n. induction k as [|k IH]; intros n.
  - cbn. by rewrite N.mod_1_r.
  - cbn [lu_digits]. rewrite of_lu_digit_cons by (apply N.mod_lt; lia).
    rewrite IH, Nat2N.inj_succ, N.pow_succ_r'.
    rewrite N.Div0.mod_mul_r. lia.
Qed.

Lemma nb_digits_digit_cons r d : Decimal.nb_digits (digit_cons r d) = S (Decimal.nb_digits d).
Proof. unfold digit_cons. destruct r as [|[[[[]|[]|]|[[]|[]|]|]|[[[]|[]|]|[[]|[]|]|]|]]; reflexivity. Qed.

Lemma nb_digits_lu_digits k n : Decimal.nb_digits (lu_digits k n) = k.
Proof.
  revert n. induction k as [|k IH]; intros n; [reflexivity|].
  cbn [lu_digits]. by rewrite nb_digits_digit_cons, IH.
Qed.

Lemma length_string_of_uint u :
  String.length (NilEmpty.string_of_uint u) = Decimal.nb_digits u.
Proof. induction u; cbn; congruence. Qed.

(** A number below [10^k] is printed with at most [k] digits. *)
Lemma nb_digits_to_uint (k : nat) (n : N) :
  (1 <= k)%nat -> (n < 10 ^ N.of_nat k)%N -> (Decimal.nb_digits (N.to_uint n) <= k)%nat.
Proof.
  intros Hk Hn.
  pose proof (of_lu_lu_digits k n) as Hval. rewrite N.mod_small in Hval by exact Hn.
  rewrite <- Unsigned.of_lu_rev in Hval.
  rewrite <- Hval, DecimalN.Unsigned.to_of.
  etrans; [apply nb_digits_unorm|].
  - intros Hnil. apply (f_equal Decimal.nb_digits) in Hnil.
    rewrite nb_digits_rev, nb_digits_lu_digits in Hnil. cbn in Hnil. lia.
  - by rewrite nb_digits_rev, nb_digits_lu_digits.
Qed.

Lemma str_int_nonneg n :
  0 <= n -> str_int n = NilZero.string_of_uint (N.to_uint (Z.to_N n)).
Proof. intros Hn. destruct n as [|p|p]; [reflexivity|reflexivity|lia]. Qed.

Lemma string_of_uint_to_uint n :
  NilZero.string_of_uint (N.to_uint n) = NilEmpty.string_of_uint (N.to_uint n).
Proof. destruct n as [|p]; [reflexivity|]. apply str_of_pos. Qed.

Lemma length_str_int (k : nat) n :
  (1 <= k)%nat -> 0 <= n < 10 ^ Z.of_nat k -> (String.length (str_int n) <= k)%nat.
Proof.
  intros Hk [Hlo Hhi].
  rewrite str_int_nonneg, string_of_uint_to_uint, length_string_of_uint by exact Hlo.
  apply nb_digits_to_uint; [exact Hk|].
  apply N2Z.inj_lt. rewrite Z2N.id, N2Z.inj_pow by lia. rewrite nat_N_Z. exact Hhi.
Qed.

Lemma length_append (a b : string) :
  String.length (a +:+ b) = (String.length a + String.length b)%nat.
Proof.
  induction a as [|c a IH]; [reflexivity|].
  change (S (String.length (a +:+ b)) = S (String.length a + String.length b)).
  by rewrite IH.
Qed.

Lemma length_zeros j : String.length (binary64.zeros j) = j.
Proof. induction j; cbn; congruence. Qed.

Lemma all_digits_append a b :
  decimal.all_digits (a +:+ b) = decimal.all_digits a && decimal.all_digits b.
Proof.
  induction a as [|c a IH]; [reflexivity|].
  change (decimal.is_digit c && decimal.all_digits (a +:+ b)
          = decimal.is_digit c && decimal.all_digits a && decimal.all_digits b).
  by rewrite IH, andb_assoc.
Qed.

Lemma all_digits_zeros j : decimal.all_digits (binary64.zeros j) = true.
Proof. induction j; cbn; auto. Qed.

Lemma digits_value_zeros j s :
  decimal.digits_value (binary64.zeros j +:+ s) = decimal.digits_value s.
Proof.
  induction j as [|j IH]; [reflexivity|]. rewrite <- IH.
  change (binary64.zeros (S j) +:+ s) with (String "0" (binary64.zeros j +:+ s)).
  unfold decimal.digits_value. cbn [NilEmpty.uint_of_string].
  destruct (NilEmpty.uint_of_string (binary64.zeros j +:+ s)); reflexivity.
Qed.

(** [zpad] of a number below [10^width] is [width] digits that spell it. *)
Lemma zpad_spec (width : nat) n :
  (1 <= width)%nat -> 0 <= n < 10 ^ Z.of_nat width ->
  String.length (datetime.zpad width n) = width /\
  decimal.all_digits (datetime.zpad width n) = true /\
  decimal.digits_value (datetime.zpad width n) = Some (Z.to_N n).
Proof.
  intros Hw Hn. unfold datetime.zpad. cbv zeta.
  pose proof (length_str_int width n Hw Hn) as Hlen.
  split; [|split].
  - rewrite length_append, length_zeros. lia.
  - rewrite all_digits_append, all_digits_zeros.
    rewrite str_int_nonneg, string_of_uint_to_uint by lia.
    apply all_digits_string_of_uint.
  - rewrite digits_value_zeros, str_int_nonneg, string_of_uint_to_uint by lia.
    unfold decimal.digits_value. rewrite NilEmpty.usu. f_equal.
    apply DecimalN.Unsigned.of_to.
Qed.

Lemma append_assoc (a b c : string) : (a +:+ b) +:+ c = a +:+ (b +:+ c).
Proof.
  induction a as [|x a IH]; [reflexivity|].
  change (String x ((a +:+ b) +:+ c) = String x (a +:+ (b +:+ c))). by rewrite IH.
Qed.

Lemma split_at_append a b : iso8601.split_at (String.length a) (a +:+ b) = Some (a, b).
Proof.
  induction a as [|x a IH]; [by destruct b|].
  change (iso8601.split_at (S (String.length a)) (String x (a +:+ b)) = Some (String x a, b)).
  cbn [iso8601.split_at]. by rewrite IH.
Qed.

Lemma field_zpad (width : nat) n rest :
  (1 <= width)%nat -> 0 <= n < 10 ^ Z.of_nat width ->
  iso8601.field width (datetime.zpad width n +:+ rest) = Some (n, rest).
Proof.
  intros Hw Hn. destruct (zpad_spec width n Hw Hn) as (Hlen & Hdig & Hval).
  unfold iso8601.field. rewrite <- Hlen at 1. rewrite split_at_append, Hdig, Hval.
  by rewrite Z2N.id by lia.
Qed.

Lemma span_digits_append ds rest :
  decimal.all_digits ds = true ->
  match rest with String c _ => decimal.is_digit c = false | EmptyString => True end ->
  iso8601.span_digits (ds +:+ rest) = (ds, rest).
Proof.
  intros Hds Hrest. induction ds as [|x ds IH].
  - destruct rest as [|c r]; [reflexivity|]. cbn. change ("" +:+ String c r) with (String c r).
    cbn [iso8601.span_digits]. by rewrite Hrest.
  - cbn in Hds. apply andb_true_iff in Hds as [Hx Hds].
    change (iso8601.span_digits (String x (ds +:+ rest)) = (String x ds, rest)).
    cbn [iso8601.span_digits]. by rewrite Hx, (IH Hds).
Qed.

Lemma lit_append c (s : string) : String c "" +:+ s = String c s.
Proof. reflexivity. Qed.

Lemma expect_cons c s : iso8601.expect c (String c s) = Some s.
Proof. unfold iso8601.expect. by rewrite Ascii.eqb_refl. Qed.

Lemma zone_format_offset off :
  (forall o, off = Some o -> - 86400000000 < o < 86400000000 /\ o mod 60000000 = 0) ->
  iso8601.zone (datetime.format_offset off) = Some ((fun o => o / 60000000) <$> off).
Proof.
  intros Hoff. destruct off as [o|]; [|reflexivity].
  destruct (Hoff o eq_refl) as [Hrange Hmin]. clear Hoff.
  unfold datetime.format_offset. cbv zeta.
  set (a := Z.abs o).
  assert (Hss : (a mod 3600000000) mod 60000000 = 0) by (subst a; Z.div_mod_to_equations; lia).
  rewrite Hss. change (0 =? 0) with true. cbv iota.
  set (hh := a / 3600000000). set (mm := a mod 3600000000 / 60000000).
  assert (Hhh : 0 <= hh < 10 ^ Z.of_nat 2) by (subst hh a; change (10 ^ Z.of_nat 2) with 100; Z.div_mod_to_equations; lia).
  assert (Hmm : 0 <= mm < 10 ^ Z.of_nat 2) by (subst mm a; change (10 ^ Z.of_nat 2) with 100; Z.div_mod_to_equations; lia).
  assert (Hsign : exists c, (if o <? 0 then "-" else "+") = String c "" /\
                    Ascii.eqb c "Z" = false /\ Ascii.eqb c "+" || Ascii.eqb c "-" = true /\
                    Ascii.eqb c "-" = (o <? 0)).
  { destruct (o <? 0); eexists; repeat split. }
  destruct Hsign as (c & -> & HZ & Hpm & Hneg).
  rewrite lit_append. unfold iso8601.zone. rewrite HZ, Hpm.
  rewrite (field_zpad 2 hh) by (lia || exact Hhh).
  rewrite lit_append. change (Ascii.eqb ":" ":") with true. cbv iota.
  rewrite (field_zpad 2 mm) by (lia || exact Hmm).
  rewrite Hneg. unfold iso8601.signed_offset.
  assert (Hh23 : (hh <=? 23) = true) by (apply Z.leb_le; subst hh a; Z.div_mod_to_equations; lia).
  assert (Hm59 : (mm <=? 59) = true) by (apply Z.leb_le; subst mm a; Z.div_mod_to_equations; lia).
  rewrite Hh23, Hm59. cbn [andb fmap option_fmap option_map].
  destruct (Z.ltb_spec o 0) as [Hlt|Hge].
  - assert (Hnz : (hh * 60 + mm =? 0) = false) by (apply Z.eqb_neq; subst hh mm a; Z.div_mod_to_equations; lia).
    rewrite Hnz. do 2 f_equal. subst hh mm a. Z.div_mod_to_equations. lia.
  - do 2 f_equal. subst hh mm a. Z.div_mod_to_equations. lia.
Qed.

(** A UTC offset with seconds is no ISO 8601 zone. *)
Lemma zone_format_offset_seconds o :
  - 86400000000 < o < 86400000000 -> o mod 60000000 <> 0 ->
  iso8601.zone (datetime.format_offset (Some o)) = None.
Proof.
  intros Hrange Hsec.
  unfold datetime.format_offset. cbv zeta.
  set (a := Z.abs o).
  assert (Hss : ((a mod 3600000000) mod 60000000 =? 0) = false)
    by (apply Z.eqb_neq; subst a; Z.div_mod_to_equations; lia).
  rewrite Hss. cbv iota.
  set (hh := a / 3600000000). set (mm := a mod 3600000000 / 60000000).
  assert (Hhh : 0 <= hh < 10 ^ Z.of_nat 2)
    by (subst hh a; change (10 ^ Z.of_nat 2) with 100; Z.div_mod_to_equations; lia).
  assert (Hmm : 0 <= mm < 10 ^ Z.of_nat 2)
    by (subst mm a; change (10 ^ Z.of_nat 2) with 100; Z.div_mod_to_equations; lia).
  assert (Hsign : exists c, (if o <? 0 then "-" else "+") = String c "" /\
                    Ascii.eqb c "Z" = false /\ Ascii.eqb c "+" || Ascii.eqb c "-" = true).
  { destruct (o <? 0); eexists; repeat split. }
  destruct Hsign as (c & -> & HZ & Hpm).
  rewrite lit_append. unfold iso8601.zone. rewrite HZ, Hpm.
  rewrite (field_zpad 2 hh) by (lia || exact Hhh).
  rewrite lit_append. change (Ascii.eqb ":" ":") with true. cbv iota.
  rewrite (field_zpad 2 mm) by (lia || exact Hmm).
  rewrite lit_append. reflexivity.
Qed.

(** Reading the text of [isoformat]: date, time and fraction are read back
    as they are, and what is left is the zone. *)
Lemma parse_isoformat dt :
  valid_datetime dt ->
  iso8601.parse (datetime.isoformat dt)
  = off ← iso8601.zone (datetime.format_offset (datetime.utcoffset dt));
    Some {| datetime.year := datetime.year dt; datetime.month := datetime.month dt;
            datetime.day := datetime.day dt; datetime.hour := datetime.hour dt;
            datetime.minute := datetime.minute dt; datetime.second := datetime.second dt;
            datetime.microsecond := datetime.microsecond dt;
            datetime.utcoffset := (fun m => m * 60000000) <$> off |}.
Proof.
  destruct dt as [y mo d h mi s us off].
  unfold valid_datetime. cbn [datetime.year datetime.month datetime.day
    datetime.hour datetime.minute datetime.second datetime.microsecond datetime.utcoffset].
  intros (Hy & Hmo & Hd & Hh & Hmi & Hs & Hus & Hoff).
  assert (Hd31 : iso8601.days_in_month y mo <= 31).
  { unfold iso8601.days_in_month.
    repeat match goal with |- context [if ?b then _ else _] => destruct b end; lia. }
  unfold datetime.isoformat, datetime.format_time.
  cbn [datetime.year datetime.month datetime.day datetime.hour datetime.minute
       datetime.second datetime.microsecond datetime.utcoffset].
  rewrite !append_assoc.
  unfold iso8601.parse.
  rewrite (field_zpad 4 y) by (change (10 ^ Z.of_nat 4) with 10000; lia).
  cbn [mbind option_bind]. rewrite lit_append, expect_cons. cbn [mbind option_bind].
  rewrite (field_zpad 2 mo) by (change (10 ^ Z.of_nat 2) with 100; lia).
  cbn [mbind option_bind]. rewrite lit_append, expect_cons. cbn [mbind option_bind].
  rewrite (field_zpad 2 d) by (change (10 ^ Z.of_nat 2) with 100; lia).
  cbn [mbind option_bind]. rewrite lit_append, expect_cons. cbn [mbind option_bind].
  rewrite (field_zpad 2 h) by (change (10 ^ Z.of_nat 2) with 100; lia).
  cbn [mbind option_bind]. rewrite lit_append, expect_cons. cbn [mbind option_bind].
  rewrite (field_zpad 2 mi) by (change (10 ^ Z.of_nat 2) with 100; lia).
  cbn [mbind option_bind]. rewrite lit_append, expect_cons. cbn [mbind option_bind].
  rewrite (field_zpad 2 s) by (change (10 ^ Z.of_nat 2) with 100; lia).
  cbn [mbind option_bind].
  assert (Hfrac : iso8601.fraction
                    ((if us =? 0 then "" else "." +:+ datetime.zpad 6 us)
                     +:+ datetime.format_offset off)
                  = Some (us, datetime.format_offset off)).
  { destruct (Z.eqb_spec us 0) as [->|Hnz].
    - change ("" +:+ datetime.format_offset off) with (datetime.format_offset off).
      destruct off as [o|]; [|reflexivity].
      unfold datetime.format_offset. cbv zeta.
      destruct (o <? 0); rewrite lit_append; reflexivity.
    - rewrite append_assoc, lit_append.
      destruct (zpad_spec 6 us ltac:(lia) ltac:(change (10 ^ Z.of_nat 6) with 1000000; lia))
        as (Hlen & Hdig & Hval).
      unfold iso8601.fraction. change (Ascii.eqb "." "." || Ascii.eqb "." ",") with true.
      cbv iota. rewrite span_digits_append; [|exact Hdig|].
      + rewrite Hlen, Hval. cbn [Nat.leb andb Nat.sub]. rewrite Z2N.id by lia.
        change (10 ^ Z.of_nat 0) with 1. by rewrite Z.mul_1_r.
      + destruct off as [o|]; [|exact I].
        unfold datetime.format_offset. cbv zeta.
        destruct (o <? 0); rewrite lit_append; reflexivity. }
  rewrite Hfrac. cbn [mbind option_bind].
  assert (Hok : (1 <=? mo) && (mo <=? 12) && (1 <=? d) && (d <=? iso8601.days_in_month y mo)
                && (h <=? 23) && (mi <=? 59) && (s <=? 59) = true).
  { repeat (apply andb_true_intro; split); apply Z.leb_le; lia. }
  by rewrite Hok.
Qed.

(** The text [isoformat] gives is ISO 8601, and spells the datetime, when
    the UTC offset, if any, is a whole number of minutes; it is not ISO 8601
    when the offset has seconds. *)
Lemma isoformat_iso8601 dt :
  valid_datetime dt -> whole_minute_offset dt ->
  iso8601.parse (datetime.isoformat dt) = Some dt.
Proof.
  intros Hvalid Hwhole. rewrite (parse_isoformat dt Hvalid).
  destruct Hvalid as (_ & _ & _ & _ & _ & _ & _ & Hoff).
  rewrite (zone_format_offset (datetime.utcoffset dt))
    by (intros o Ho; split; [exact (Hoff o Ho)|exact (Hwhole o Ho)]).
  cbn [mbind option_bind]. destruct dt as [y mo d h mi s us off].
  cbn [datetime.year datetime.month datetime.day datetime.hour datetime.minute
       datetime.second datetime.microsecond datetime.utcoffset] in *.
  do 2 f_equal. destruct off as [o|]; [|reflexivity]. cbn. f_equal.
  specialize (Hwhole o eq_refl). Z.div_mod_to_equations. lia.
Qed.

Lemma isoformat_not_iso8601 dt :
  valid_datetime dt -> ~ whole_minute_offset dt ->
  iso8601.parse (datetime.isoformat dt) = None.
Proof.
  intros Hvalid Hsec. rewrite (parse_isoformat dt Hvalid).
  destruct Hvalid as (_ & _ & _ & _ & _ & _ & _ & Hoff).
  destruct (datetime.utcoffset dt) as [o|] eqn:Hdt.
  - destruct (Z.eq_dec (o mod 60000000) 0) as [Hz|Hnz].
    + exfalso. apply Hsec. intros o' Ho'. rewrite Hdt in Ho'. by injection Ho' as <-.
    + by rewrite (zone_format_offset_seconds o (Hoff o eq_refl) Hnz).
  - exfalso. apply Hsec. intros o' Ho'. rewrite Hdt in Ho'. discriminate Ho'.
Qed.

Example iso8601_samples :
  iso8601.parse "2024-01-02T03:04:05" = Some sample_datetime /\
  iso8601.parse "2024-01-02T03:04:05Z"
  = Some {| datetime.year := 2024; datetime.month := 1; datetime.day := 2;
            datetime.hour := 3; datetime.minute := 4; datetime.second := 5;
            datetime.microsecond := 0; datetime.utcoffset := Some 0 |} /\
  iso8601.parse "0987-12-31T23:59:59.000250-03:30"
  = Some {| datetime.year := 987; datetime.month := 12; datetime.day := 31;
            datetime.hour := 23; datetime.minute := 59; datetime.second := 59;
            datetime.microsecond := 250; datetime.utcoffset := Some (-12600000000) |} /\
  iso8601.parse "2024-02-29T00:00:00,5+05" <> None /\
  iso8601.parse "2023-02-29T00:00:00" = None /\
  iso8601.parse "2024-01-02 03:04:05" = None /\
  iso8601.parse "2024-1-2T03:04:05" = None /\
  iso8601.parse "2024-01-02T03:04" = None /\
  iso8601.parse "2024-01-02T03:04:05-00:00" = None /\
  iso8601.parse "2024-01-02T03:04:05+00:00:30" = None /\
  iso8601.parse "" = None.
Proof. vm_compute. repeat split; discriminate. Qed.

Example isoformat_naive : datetime.isoformat sample_datetime = "2024-01-02T03:04:05".
Proof. reflexivity. Qed.

(** [search_links(creation_time_from=dt)] for a [dt] in a zone 30 seconds
    ahead of UTC: the text sent ends in [+00:00:30], an offset with
    seconds, which ISO 8601 does not have. *)
Lemma isoformat_offset_with_seconds :
  valid_datetime odd_offset_datetime /\
  sent (snd (search_links (module_with (client_returning ∅)) None None
               (Some (TimeDatetime odd_offset_datetime)) None None None None None None None
               fresh))
  = [GET "api/h2h/links/"
       (Some {["creationTimeFrom" := PStr "2024-01-02T03:04:05+00:00:30"]})] /\
  iso8601.parse "2024-01-02T03:04:05+00:00:30" = None.
Proof.
  split; [|split; vm_compute; reflexivity].
  unfold valid_datetime, odd_offset_datetime. cbn.
  repeat split; try lia.
  all: match goal with H : Some _ = Some _ |- _ => injection H as <- end; lia.
Qed.

(** C6 (as the code has it).  A creation-time bound given as a [datetime]
    is sent as its [isoformat()] text, and one given as a string is sent as
    that very string.  For a datetime whose UTC offset, if it has one, is a
    whole number of minutes, that text is ISO 8601 (extended format,
    [YYYY-MM-DDThh:mm:ss], with the fraction of the second and the zone
    when there are any) and spells the datetime: [iso8601.parse] reads it
    back as [dt].  For a datetime whose offset has seconds the text ends in
    [+HH:MM:SS], and is not ISO 8601. *)
Theorem time_bounds_iso_text :
  forall self amount_from amount_to creation_time_from creation_time_to
         order_id currencies statuses sorting skip_count max_result_count w,
    accepted amount_from -> accepted amount_to ->
    printable skip_count = true -> printable max_result_count = true ->
    exists params : pydict,
      sent (snd (search_links self amount_from amount_to creation_time_from
                   creation_time_to order_id currencies statuses sorting
                   skip_count max_result_count w))
      = sent w ++ [GET "api/h2h/links/" (Some params)] /\
      (forall dt, creation_time_from = Some (TimeDatetime dt) ->
         exists text,
           params !! "creationTimeFrom" = Some (PStr text) /\
           text = datetime.isoformat dt /\
           (valid_datetime dt -> whole_minute_offset dt -> iso8601.parse text = Some dt) /\
           (valid_datetime dt -> ~ whole_minute_offset dt -> iso8601.parse text = None)) /\
      (forall s, creation_time_from = Some (TimeStr s) ->
                 params !! "creationTimeFrom" = Some (PStr s)) /\
      (forall dt, creation_time_to = Some (TimeDatetime dt) ->
         exists text,
           params !! "creationTimeTo" = Some (PStr text) /\
           text = datetime.isoformat dt /\
           (valid_datetime dt -> whole_minute_offset dt -> iso8601.parse text = Some dt) /\
           (valid_datetime dt -> ~ whole_minute_offset dt -> iso8601.parse text = None)) /\
      (forall s, creation_time_to = Some (TimeStr s) ->
                 params !! "creationTimeTo" = Some (PStr s)).
Proof.
  intros self af at' ctf ctt oid cur st sort skip maxr w [vf Hvf] [vt Hvt] Hps Hpm.
  destruct (search_links_query self af at' ctf ctt oid cur st sort skip maxr w vf vt Hvf Hvt Hps Hpm)
    as (params & _ & Hsent & _ & _ & Hctf & Hctt & _).
  exists params. split; [exact Hsent|].
  split; [|split; [|split]].
  - intros dt ->. exists (datetime.isoformat dt).
    split; [exact Hctf|]. split; [reflexivity|].
    split; [apply isoformat_iso8601|apply isoformat_not_iso8601].
  - intros s' ->. exact Hctf.
  - intros dt ->. exists (datetime.isoformat dt).
    split; [exact Hctt|]. split; [reflexivity|].
    split; [apply isoformat_iso8601|apply isoformat_not_iso8601].
  - intros s' ->. exact Hctt.
Qed.

Lemma time_bounds_iso_text_witness :
  exists params : pydict,
    sent (snd (search_links (module_with (client_returning ∅)) None None
                 (Some (TimeDatetime aware_datetime)) (Some (TimeStr "2024-12-31T23:59:59"))
                 None None None None None None fresh))
    = sent fresh ++ [GET "api/h2h/links/" (Some params)] /\
    (forall dt, Some (TimeDatetime aware_datetime) = Some (TimeDatetime dt) ->
       exists text,
         params !! "creationTimeFrom" = Some (PStr text) /\
         text = datetime.isoformat dt /\
         (valid_datetime dt -> whole_minute_offset dt -> iso8601.parse text = Some dt) /\
         (valid_datetime dt -> ~ whole_minute_offset dt -> iso8601.parse text = None)) /\
    (forall s, Some (TimeDatetime aware_datetime) = Some (TimeStr s) ->
               params !! "creationTimeFrom" = Some (PStr s)) /\
    (forall dt, Some (TimeStr "2024-12-31T23:59:59") = Some (TimeDatetime dt) ->
       exists text,
         params !! "creationTimeTo" = Some (PStr text) /\
         text = datetime.isoformat dt /\
         (valid_datetime dt -> whole_minute_offset dt -> iso8601.parse text = Some dt) /\
         (valid_datetime dt -> ~ whole_minute_offset dt -> iso8601.parse text = None)) /\
    (forall s, Some (TimeStr "2024-12-31T23:59:59") = Some (TimeStr s) ->
               params !! "creationTimeTo" = Some (PStr s)).
Proof.
  apply (time_bounds_iso_text (module_with (client_returning ∅)) None None
           (Some (TimeDatetime aware_datetime)) (Some (TimeStr "2024-12-31T23:59:59"))
           None None None None None None fresh).
  - exact accepted_None.
  - exact accepted_None.
  - reflexivity.
  - reflexivity.
Defined.

(** The datetime of that call is in a zone three and a half hours behind
    UTC and has microseconds: its text is ISO 8601. *)
Example aware_datetime_iso8601 :
  valid_datetime aware_datetime /\ whole_minute_offset aware_datetime /\
  datetime.isoformat aware_datetime = "0987-12-31T23:59:59.000250-03:30" /\
  iso8601.parse "0987-12-31T23:59:59.000250-03:30" = Some aware_datetime.
Proof.
  split; [|split; [|split; vm_compute; reflexivity]].
  - unfold valid_datetime, aware_datetime. cbn.
    repeat split; try lia.
  all: match goal with H : Some _ = Some _ |- _ => injection H as <- end; lia.
  - intros off [= <-]. reflexivity.
Qed.

(** ** The three amount sites *)

(** C7.  The amount of [create] and the two amount bounds of
    [search_links] are normalized alike: given the same value, either all
    three sites transmit the same number, or [create] and [search_links]
    both raise the same exception and send nothing.  (Stated for the calls
    of [search_links] whose page numbers the debug line can print; in the
    others no query is sent, whatever the amounts.) *)
Theorem amount_sites_agree :
  forall self a currency description order_id success_redirect_url fail_redirect_url
         self' creation_time_from creation_time_to order_id' currencies statuses sorting
         skip_count max_result_count w w',
    printable skip_count = true -> printable max_result_count = true ->
    let made := create self a currency description order_id
                  success_redirect_url fail_redirect_url w in
    let searched := search_links self' (Some a) (Some a) creation_time_from creation_time_to
                      order_id' currencies statuses sorting skip_count max_result_count w' in
    (exists (x : spec_float) (data params : pydict),
        sent (snd made) = sent w ++ [POST "api/h2h/links" data] /\
        sent (snd searched) = sent w' ++ [GET "api/h2h/links/" (Some params)] /\
        data !! "amount" = Some (PFloat x) /\
        params !! "amountFrom" = Some (PFloat x) /\
        params !! "amountTo" = Some (PFloat x)) \/
    (exists ex : exn,
        fst made = Raise ex /\ fst searched = Raise ex /\
        sent (snd made) = sent w /\ sent (snd searched) = sent w').
Proof.
  intros self a currency d o s f self' ctf ctt oid cur st sort skip maxr w w' Hps Hpm
         made searched.
  subst made searched.
  pose proof (create_request self a currency d o s f w) as Hmade.
  destruct (transmitted_amount a) as [x|ex] eqn:Hx.
  - left.
    destruct (search_links_query self' (Some a) (Some a) ctf ctt oid cur st sort skip maxr w'
                (Some (PFloat x)) (Some (PFloat x)))
      as (params & _ & Hsent & Hfrom & Hto & _); try assumption;
      try (unfold amount_param; by rewrite Hx).
    exists x. eexists. exists params.
    split; [exact Hmade|]. split; [exact Hsent|].
    split; [|split; assumption].
    rewrite lookup_create_data by auto. reflexivity.
  - right. exists ex.
    pose proof (search_links_request self' (Some a) (Some a) ctf ctt oid cur st sort skip
                  maxr w') as Hsearched.
    cbv zeta in Hsearched. unfold amount_param in Hsearched. rewrite Hx in Hsearched.
    rewrite Hmade, Hsearched. cbn [fst snd]. repeat split.
    by destruct (format_amount a).
Qed.

Lemma amount_sites_agree_witness :
  let made := create (module_with (client_returning ∅)) (AmtFloat float_10_005) "RUB"
                None None None None fresh in
  let searched := search_links (module_with (client_returning ∅))
                    (Some (AmtFloat float_10_005)) (Some (AmtFloat float_10_005))
                    None None None None None None (Some 0) (Some 50) fresh in
  (exists (x : spec_float) (data params : pydict),
      sent (snd made) = sent fresh ++ [POST "api/h2h/links" data] /\
      sent (snd searched) = sent fresh ++ [GET "api/h2h/links/" (Some params)] /\
      data !! "amount" = Some (PFloat x) /\
      params !! "amountFrom" = Some (PFloat x) /\
      params !! "amountTo" = Some (PFloat x)) \/
  (exists ex : exn,
      fst made = Raise ex /\ fst searched = Raise ex /\
      sent (snd made) = sent fresh /\ sent (snd searched) = sent fresh).
Proof.
  apply (amount_sites_agree (module_with (client_returning ∅)) (AmtFloat float_10_005) "RUB"
           None None None None (module_with (client_returning ∅)) None None None None None
           None (Some 0) (Some 50) fresh fresh).
  - reflexivity.
  - reflexivity.
Defined.

(** ** Errors from the transport *)

Section CreateOutcome.
Variables (self : PaymentModule) (a : amount_arg) (currency : string).
Variables (description order_id success_redirect_url fail_redirect_url : option string).
Variable (w : world).
Variables (q : decimal.Decimal) (x : spec_float).
Hypothesis Hq : quantized_amount a = Return q.
Hypothesis Hx : binary64.of_Decimal q = Return x.

Let data : pydict :=
  set_if_truthy "failRedirectUrl" fail_redirect_url
    (set_if_truthy "successRedirectUrl" success_redirect_url
      (set_if_truthy "orderId" order_id
        (set_if_truthy "description" description
          (<["currency" := PStr currency]> (<["amount" := PFloat x]> ∅))))).
Let run := create self a currency description order_id
             success_redirect_url fail_redirect_url w.
Let answer := post (_http_client self) "api/h2h/links" data.
Let started := logged w ++ [(INFO, MsgCreating a currency)].
Let posted := sent w ++ [POST "api/h2h/links" data].

Lemma create_run_eq :
  run =
  match answer with
  | Return r => (Return r, {| sent := posted; logged := started ++ [(INFO, MsgCreated)] |})
  | Raise (ExApi e) =>
      match error_code e with
      | Some code =>
          (Raise (ExApi e),
           {| sent := posted;
              logged := started ++ [(ERROR, create_error_line code q currency e)] |})
      | None =>
          (Raise (ExAttributeError (class_name (cls e)) "error_code"),
           {| sent := posted; logged := started |})
      end
  | Raise ex => (Raise ex, {| sent := posted; logged := started |})
  end.
Proof.
  subst run answer started posted data. unfold create.
  unfold quantized_amount in Hq.
  rewrite coerce_amount, Decimal_cent. run_M.
  destruct (amount_decimal a) as [d|ex] eqn:Ha; [|discriminate Hq].
  rewrite (format_amount_accepted a d Ha), Hq, Hx.
  destruct (post (_http_client self) _ _) as [r|[e| | | | |]]; try reflexivity.
  destruct (error_code e) as [code|]; run_M; [|reflexivity].
  unfold create_error_line.
  destruct (eq_str code "Payment:PL_1001"); [reflexivity|].
  destruct (eq_str code "Payment:PL_1002"); reflexivity.
Qed.
End CreateOutcome.

Lemma get_link_by_uuid_run_eq self uuid w :
  get_link_by_uuid self uuid w =
  let started := logged w ++ [(INFO, MsgGetting uuid)] in
  let asked := sent w ++ [GET ("api/h2h/links/" +:+ uuid) None] in
  match get (_http_client self) ("api/h2h/links/" +:+ uuid) None with
  | Return r => (Return r, {| sent := asked; logged := started ++ [(DEBUG, MsgGot uuid)] |})
  | Raise (ExApi e) =>
      match error_code e with
      | Some code =>
          (Raise (ExApi e),
           {| sent := asked; logged := started ++ [(ERROR, get_error_line code uuid e)] |})
      | None =>
          (Raise (ExAttributeError (class_name (cls e)) "error_code"),
           {| sent := asked; logged := started |})
      end
  | Raise ex => (Raise ex, {| sent := asked; logged := started |})
  end.
Proof.
  unfold get_link_by_uuid. run_M.
  destruct (get (_http_client self) _ _) as [r|[e| | | | |]]; try reflexivity.
  destruct (error_code e) as [code|]; run_M; [|reflexivity].
  unfold get_error_line. destruct (eq_str code "Payment:PL_1003"); reflexivity.
Qed.

(** X6.  An [ApiError] that carries an [error_code] attribute leaves
    [create] as the very object the transport raised, after one request and
    one error line chosen by the code. *)
Lemma create_reraises_coded_error self a currency description order_id
    success_redirect_url fail_redirect_url w q x e code :
  quantized_amount a = Return q ->
  binary64.of_Decimal q = Return x ->
  (forall data, post (_http_client self) "api/h2h/links" data = Raise (ExApi e)) ->
  error_code e = Some code ->
  let run := create self a currency description order_id
               success_redirect_url fail_redirect_url w in
  fst run = Raise (ExApi e) /\
  (exists data, sent (snd run) = sent w ++ [POST "api/h2h/links" data]) /\
  logged (snd run)
  = (logged w ++ [(INFO, MsgCreating a currency)])
    ++ [(ERROR, create_error_line code q currency e)].
Proof.
  intros Hq Hx Hpost Hcode run. subst run.
  rewrite (create_run_eq self a currency description order_id success_redirect_url
             fail_redirect_url w q x Hq Hx), Hpost, Hcode.
  cbn [fst snd sent logged]. eauto.
Qed.

(** So when the transport attaches a code to the error it raises. *)
Example create_reraises_invalid_amount :
  let e := with_error_code (new_ApiError 400 "Bad Request" None) (PStr "Payment:PL_1001") in
  create (module_with (client_raising (ExApi e))) (AmtInt 10) "RUB" None None None None fresh
  = (Raise (ExApi e),
     {| sent := [POST "api/h2h/links"
                   (<["amount" := PFloat (S754_finite false 5629499534213120 (-49))]>
                     (<["currency" := PStr "RUB"]> ∅))];
        logged := [(INFO, MsgCreating (AmtInt 10) "RUB");
                   (ERROR, MsgInvalidAmount (decimal.Dec false 1000 (-2)))] |}).
Proof. vm_compute. reflexivity. Qed.

(** X7.  One without the attribute is replaced by an [AttributeError]. *)
Lemma create_uncoded_error_masked self a currency description order_id
    success_redirect_url fail_redirect_url w q x e :
  quantized_amount a = Return q ->
  binary64.of_Decimal q = Return x ->
  (forall data, post (_http_client self) "api/h2h/links" data = Raise (ExApi e)) ->
  error_code e = None ->
  fst (create self a currency description order_id success_redirect_url fail_redirect_url w)
  = Raise (ExAttributeError (class_name (cls e)) "error_code").
Proof.
  intros Hq Hx Hpost Hcode.
  rewrite (create_run_eq self a currency description order_id success_redirect_url
             fail_redirect_url w q x Hq Hx), Hpost, Hcode.
  reflexivity.
Qed.

(** The constructors of exceptions.py set no [error_code]. *)
Lemma constructors_set_no_error_code c status_code message response_data :
  error_code (ApiError_init c status_code message response_data) = None.
Proof. reflexivity. Qed.

(** [search_links] reads no attribute of the error and re-raises whatever
    the transport raised. *)
Lemma search_links_reraises self amount_from amount_to creation_time_from creation_time_to
    order_id currencies statuses sorting skip_count max_result_count w ex :
  accepted amount_from -> accepted amount_to ->
  printable skip_count = true -> printable max_result_count = true ->
  (forall params, get (_http_client self) "api/h2h/links/" params = Raise ex) ->
  let run := search_links self amount_from amount_to creation_time_from creation_time_to
               order_id currencies statuses sorting skip_count max_result_count w in
  fst run = Raise ex /\
  exists params, sent (snd run) = sent w ++ [GET "api/h2h/links/" (Some params)].
Proof.
  intros [vf Hvf] [vt Hvt] Hps Hpm Hget run. subst run.
  destruct (search_links_query self amount_from amount_to creation_time_from creation_time_to
              order_id currencies statuses sorting skip_count max_result_count w vf vt Hvf Hvt Hps Hpm)
    as (params & Hrun & Hsent & _).
  split; [|eauto].
  rewrite Hrun. unfold search_finish. rewrite Hget. by destruct ex.
Qed.

(** C3 (where the code departs from it).  The transport raises
    [ApiConnectionError()], an [ApiError] built by its constructor and so
    without an [error_code] attribute: [create] and [get_link_by_uuid] read
    [e.error_code] in their handler and raise [AttributeError] in place of
    the error; [search_links], which reads nothing, re-raises the error
    itself. *)
Theorem connection_error_masked_by_AttributeError :
  let e := new_ApiConnectionError None in
  let self := module_with (client_raising (ExApi e)) in
  fst (create self (AmtInt 10) "RUB" None None None None fresh)
  = Raise (ExAttributeError "ApiConnectionError" "error_code") /\
  fst (get_link_by_uuid self "0b5e3a0c" fresh)
  = Raise (ExAttributeError "ApiConnectionError" "error_code") /\
  fst (search_links self None None None None None None None None None None fresh)
  = Raise (ExApi e).
Proof. vm_compute. repeat split. Qed.

(** ** The response of [search_links] *)

(** X15.  A response without ["items"], or whose ["items"] has a length,
    is returned as it came; the two cases differ in the line logged, and the
    length logged is [len] of the value (for a string, its number of code
    points).  (For the calls that reach the request.) *)
Lemma search_links_returns_response self amount_from amount_to creation_time_from
    creation_time_to order_id currencies statuses sorting skip_count max_result_count w r :
  accepted amount_from -> accepted amount_to ->
  printable skip_count = true -> printable max_result_count = true ->
  (forall params, get (_http_client self) "api/h2h/links/" params = Return r) ->
  let run := search_links self amount_from amount_to creation_time_from creation_time_to
               order_id currencies statuses sorting skip_count max_result_count w in
  (r !! "items" = None ->
     fst run = Return r /\ last (logged (snd run)) = Some (WARNING, MsgNoItems)) /\
  (forall items count,
     r !! "items" = Some items -> py_len items = Return count ->
     fst run = Return r /\ last (logged (snd run)) = Some (INFO, MsgFound count)) /\
  (forall items ex,
     r !! "items" = Some items -> py_len items = Raise ex -> fst run = Raise ex).
Proof.
  intros [vf Hvf] [vt Hvt] Hps Hpm Hget run. subst run.
  destruct (search_links_query self amount_from amount_to creation_time_from creation_time_to
              order_id currencies statuses sorting skip_count max_result_count w vf vt Hvf Hvt Hps Hpm)
    as (params & Hrun & _).
  rewrite Hrun. unfold search_finish. rewrite Hget.
  split; [|split].
  - intros ->. cbn [fst snd logged]. by rewrite last_snoc.
  - intros items count -> ->. cbn [fst snd logged]. by rewrite last_snoc.
  - intros items ex -> ->. reflexivity.
Qed.

(** C8 (where the code departs from it).  The transport returns
    [{"items": null}]: the log line takes [len(result['items'])], [len] of
    [None] raises [TypeError], and the response is not returned. *)
Theorem search_links_null_items_not_returned :
  let response : pydict := {["items" := PNone]} in
  let self := module_with (client_returning response) in
  fst (search_links self None None None None None None None None None None fresh)
  = Raise (ExTypeError "object of type 'NoneType' has no len()").
Proof. vm_compute. reflexivity. Qed.

(** ** Sample values *)

Example repr_10_005 : binary64.repr float_10_005 = "10.005".
Proof. vm_compute. reflexivity. Qed.

(** [len] of a string counts code points. *)
Example py_len_samples :
  py_len (PStr "") = Return 0%nat /\ py_len (PStr "items") = Return 5%nat /\
  py_len (PStr "ж") = Return 1%nat /\ py_len (PStr "платёж €") = Return 8%nat /\
  py_len (PList [PNone; PNone]) = Return 2%nat.
Proof. vm_compute. repeat split. Qed.

Example repr_samples :
  binary64.repr (S754_finite false 4503599627370496 (-52)) = "1.0" /\
  binary64.repr (S754_finite false 7205759403792794 (-56)) = "0.1" /\
  binary64.repr (S754_finite true 5066549580791808 (-51)) = "-2.25" /\
  binary64.repr (S754_finite false 5000000000000000 1) = "1e+16" /\
  binary64.repr (S754_finite false 5902958103587057 (-69)) = "1e-05".
Proof. vm_compute. repeat split. Qed.

Example float_of_10_01 : binary64.of_Decimal (decimal.Dec false 1001 (-2)) = Return float_10_01.
Proof. vm_compute. reflexivity. Qed.

(** Half-up is not banker's rounding: 0.125 goes to 0.13, not 0.12. *)
Example half_up_is_not_half_even :
  decimal.quantize (decimal.Dec false 125 (-3)) (decimal.Dec false 1 (-2)) decimal.ROUND_HALF_UP
  = Return (decimal.Dec false 13 (-2)) /\
  decimal.quantize (decimal.Dec false 125 (-3)) (decimal.Dec false 1 (-2)) decimal.ROUND_HALF_EVEN
  = Return (decimal.Dec false 12 (-2)) /\
  decimal.quantize (decimal.Dec true 10005 (-3)) (decimal.Dec false 1 (-2)) decimal.ROUND_HALF_UP
  = Return (decimal.Dec true 1001 (-2)).
Proof. vm_compute. repeat split. Qed.

Example isoformat_aware :
  datetime.isoformat
    {| datetime.year := 987; datetime.month := 12; datetime.day := 31;
       datetime.hour := 23; datetime.minute := 59; datetime.second := 59;
       datetime.microsecond := 250; datetime.utcoffset := Some (-12600000000) |}
  = "0987-12-31T23:59:59.000250-03:30".
Proof. vm_compute. reflexivity. Qed.

(* ===================================================================== *)
(** * Further properties of the operations *)
(* ===================================================================== *)

#[local] Set Warnings "-clear-no-such-hyp".

(** ** [get_link_by_uuid] *)

(** X1.  When the transport returns a response, [get_link_by_uuid] returns
    that very response after exactly one GET to ["api/h2h/links/" + uuid]
    without query parameters, and logs one INFO and one DEBUG line; the
    identifier is not inspected. *)
Theorem get_link_by_uuid_returns_response self uuid w r :
  get (_http_client self) ("api/h2h/links/" +:+ uuid) None = Return r ->
  get_link_by_uuid self uuid w
  = (Return r,
     {| sent := sent w ++ [GET ("api/h2h/links/" +:+ uuid) None];
        logged := (logged w ++ [(INFO, MsgGetting uuid)]) ++ [(DEBUG, MsgGot uuid)] |}).
Proof. intros Hget. rewrite get_link_by_uuid_run_eq, Hget. reflexivity. Qed.

Lemma get_link_by_uuid_returns_response_witness :
  get_link_by_uuid (module_with (client_returning {["id" := PStr "0b5e3a0c"]})) "0b5e3a0c" fresh
  = (Return {["id" := PStr "0b5e3a0c"]},
     {| sent := sent fresh ++ [GET ("api/h2h/links/" +:+ "0b5e3a0c") None];
        logged := (logged fresh ++ [(INFO, MsgGetting "0b5e3a0c")])
                  ++ [(DEBUG, MsgGot "0b5e3a0c")] |}).
Proof.
  apply (get_link_by_uuid_returns_response
           (module_with (client_returning {["id" := PStr "0b5e3a0c"]})) "0b5e3a0c" fresh).
  reflexivity.
Defined.

(** X2.  An [ApiError] that carries an [error_code] leaves
    [get_link_by_uuid] as the very object the transport raised, after the
    one GET; the code ["Payment:PL_1003"] selects the "link unavailable"
    line, any other code the generic line with the text of the error. *)
Theorem get_link_by_uuid_reraises_coded_error self uuid w e code :
  get (_http_client self) ("api/h2h/links/" +:+ uuid) None = Raise (ExApi e) ->
  error_code e = Some code ->
  get_link_by_uuid self uuid w
  = (Raise (ExApi e),
     {| sent := sent w ++ [GET ("api/h2h/links/" +:+ uuid) None];
        logged := (logged w ++ [(INFO, MsgGetting uuid)])
                  ++ [(ERROR, if eq_str code "Payment:PL_1003"
                              then MsgLinkUnavailable uuid
                              else MsgGetFailed uuid (str_exc e))] |}).
Proof. intros Hget Hcode. rewrite get_link_by_uuid_run_eq, Hget, Hcode. reflexivity. Qed.

Lemma get_link_by_uuid_reraises_coded_error_witness :
  let e := with_error_code (new_ApiError 400 "Bad Request" None) (PStr "Payment:PL_1003") in
  get_link_by_uuid (module_with (client_raising (ExApi e))) "0b5e3a0c" fresh
  = (Raise (ExApi e),
     {| sent := sent fresh ++ [GET ("api/h2h/links/" +:+ "0b5e3a0c") None];
        logged := (logged fresh ++ [(INFO, MsgGetting "0b5e3a0c")])
                  ++ [(ERROR, if eq_str (PStr "Payment:PL_1003") "Payment:PL_1003"
                              then MsgLinkUnavailable "0b5e3a0c"
                              else MsgGetFailed "0b5e3a0c" (str_exc e))] |}).
Proof.
  intros e.
  apply (get_link_by_uuid_reraises_coded_error (module_with (client_raising (ExApi e)))
           "0b5e3a0c" fresh e (PStr "Payment:PL_1003")).
  - reflexivity.
  - reflexivity.
Defined.

(** X3.  An [ApiError] of any class built by the constructors of
    exceptions.py, whatever its status, message and response data, does not
    leave [get_link_by_uuid]: the handler reads [e.error_code], which no
    constructor sets, and an [AttributeError] naming the class leaves in its
    place, with no ERROR line logged. *)
Theorem constructed_error_masked_in_get_link self uuid w c status_code message response_data :
  get (_http_client self) ("api/h2h/links/" +:+ uuid) None
  = Raise (ExApi (ApiError_init c status_code message response_data)) ->
  get_link_by_uuid self uuid w
  = (Raise (ExAttributeError (class_name c) "error_code"),
     {| sent := sent w ++ [GET ("api/h2h/links/" +:+ uuid) None];
        logged := logged w ++ [(INFO, MsgGetting uuid)] |}).
Proof. intros Hget. rewrite get_link_by_uuid_run_eq, Hget. reflexivity. Qed.

Lemma constructed_error_masked_in_get_link_witness :
  get_link_by_uuid (module_with (client_raising (ExApi (new_ApiError 404 "Not Found" None))))
    "0b5e3a0c" fresh
  = (Raise (ExAttributeError (class_name ApiError) "error_code"),
     {| sent := sent fresh ++ [GET ("api/h2h/links/" +:+ "0b5e3a0c") None];
        logged := logged fresh ++ [(INFO, MsgGetting "0b5e3a0c")] |}).
Proof.
  apply (constructed_error_masked_in_get_link
           (module_with (client_raising (ExApi (new_ApiError 404 "Not Found" None))))
           "0b5e3a0c" fresh ApiError 404 "Not Found" None).
  reflexivity.
Defined.

(** X4.  Nothing is remembered between calls: two calls of
    [get_link_by_uuid] with the same identifier, one after the other, send
    two GETs and log twice. *)
Theorem get_link_by_uuid_not_cached self uuid w r :
  get (_http_client self) ("api/h2h/links/" +:+ uuid) None = Return r ->
  (first <- get_link_by_uuid self uuid ;;
   second <- get_link_by_uuid self uuid ;;
   ret (first, second)) w
  = (Return (r, r),
     {| sent := sent w ++ [GET ("api/h2h/links/" +:+ uuid) None;
                           GET ("api/h2h/links/" +:+ uuid) None];
        logged := logged w ++ [(INFO, MsgGetting uuid); (DEBUG, MsgGot uuid);
                               (INFO, MsgGetting uuid); (DEBUG, MsgGot uuid)] |}).
Proof.
  intros Hget. unfold bind at 1. rewrite get_link_by_uuid_run_eq, Hget. cbv zeta.
  unfold bind at 1. rewrite get_link_by_uuid_run_eq, Hget. cbv zeta.
  unfold ret. cbn [sent logged]. rewrite <- !app_assoc. reflexivity.
Qed.

Lemma get_link_by_uuid_not_cached_witness :
  (first <- get_link_by_uuid (module_with (client_returning ∅)) "0b5e3a0c" ;;
   second <- get_link_by_uuid (module_with (client_returning ∅)) "0b5e3a0c" ;;
   ret (first, second)) fresh
  = (Return (∅, ∅),
     {| sent := sent fresh ++ [GET ("api/h2h/links/" +:+ "0b5e3a0c") None;
                               GET ("api/h2h/links/" +:+ "0b5e3a0c") None];
        logged := logged fresh ++ [(INFO, MsgGetting "0b5e3a0c"); (DEBUG, MsgGot "0b5e3a0c");
                                   (INFO, MsgGetting "0b5e3a0c");
                                   (DEBUG, MsgGot "0b5e3a0c")] |}).
Proof.
  apply (get_link_by_uuid_not_cached (module_with (client_returning ∅)) "0b5e3a0c" fresh ∅).
  reflexivity.
Defined.

(** ** [create]: result and errors *)

Lemma transmitted_amount_inv a x :
  transmitted_amount a = Return x ->
  exists q, quantized_amount a = Return q /\ binary64.of_Decimal q = Return x.
Proof.
  unfold transmitted_amount. destruct (quantized_amount a) as [q|ex]; [eauto|discriminate].
Qed.

(** X5.  When the amount is one the program can normalize and the
    transport returns a response, [create] returns that very response and
    logs the two INFO lines. *)
Theorem create_returns_response self a currency description order_id
    success_redirect_url fail_redirect_url w x r :
  transmitted_amount a = Return x ->
  (forall data, post (_http_client self) "api/h2h/links" data = Return r) ->
  let run := create self a currency description order_id
               success_redirect_url fail_redirect_url w in
  fst run = Return r /\
  logged (snd run) = (logged w ++ [(INFO, MsgCreating a currency)]) ++ [(INFO, MsgCreated)].
Proof.
  intros Hx Hpost run. subst run.
  destruct (transmitted_amount_inv a x Hx) as (q & Hq & Hqx).
  rewrite (create_run_eq self a currency description order_id success_redirect_url
             fail_redirect_url w q x Hq Hqx), Hpost.
  split; reflexivity.
Qed.

Lemma create_returns_response_witness :
  let run := create (module_with (client_returning {["id" := PStr "0b5e3a0c"]}))
               (AmtInt 10) "RUB" None None None None fresh in
  fst run = Return {["id" := PStr "0b5e3a0c"]} /\
  logged (snd run)
  = (logged fresh ++ [(INFO, MsgCreating (AmtInt 10) "RUB")]) ++ [(INFO, MsgCreated)].
Proof.
  apply (create_returns_response (module_with (client_returning {["id" := PStr "0b5e3a0c"]}))
           (AmtInt 10) "RUB" None None None None fresh
           (S754_finite false 5629499534213120 (-49))).
  - vm_compute. reflexivity.
  - reflexivity.
Defined.

(** A coded error of [create]: "unsupported currency". *)
Lemma create_reraises_coded_error_witness :
  let e := with_error_code (new_ApiError 400 "Bad Request" None) (PStr "Payment:PL_1002") in
  let run := create (module_with (client_raising (ExApi e)))
               (AmtInt 10) "XXX" None None None None fresh in
  fst run = Raise (ExApi e) /\
  (exists data, sent (snd run) = sent fresh ++ [POST "api/h2h/links" data]) /\
  logged (snd run)
  = (logged fresh ++ [(INFO, MsgCreating (AmtInt 10) "XXX")])
    ++ [(ERROR, create_error_line (PStr "Payment:PL_1002") (decimal.Dec false 1000 (-2))
                  "XXX" e)].
Proof.
  intros e.
  apply (create_reraises_coded_error (module_with (client_raising (ExApi e)))
           (AmtInt 10) "XXX" None None None None fresh (decimal.Dec false 1000 (-2))
           (S754_finite false 5629499534213120 (-49)) e (PStr "Payment:PL_1002")).
  - vm_compute. reflexivity.
  - vm_compute. reflexivity.
  - reflexivity.
  - reflexivity.
Defined.

(** An uncoded error of [create]: a timeout built by its constructor. *)
Lemma create_uncoded_error_masked_witness :
  fst (create (module_with (client_raising (ExApi (new_ApiTimeoutError None))))
         (AmtInt 10) "RUB" None None None None fresh)
  = Raise (ExAttributeError (class_name (cls (new_ApiTimeoutError None))) "error_code").
Proof.
  apply (create_uncoded_error_masked
           (module_with (client_raising (ExApi (new_ApiTimeoutError None))))
           (AmtInt 10) "RUB" None None None None fresh (decimal.Dec false 1000 (-2))
           (S754_finite false 5629499534213120 (-49)) (new_ApiTimeoutError None)).
  - vm_compute. reflexivity.
  - vm_compute. reflexivity.
  - reflexivity.
  - reflexivity.
Defined.

(** ** Exceptions that are not [ApiError] *)

(** X8.  An exception of the transport that is not an [ApiError] crosses
    all three operations untouched: it is what the caller receives, and no
    ERROR line is logged for it.  (For the calls that reach the request.) *)
Theorem foreign_exceptions_pass_through self ex :
  is_api_error ex = false ->
  (forall a currency description order_id success_redirect_url fail_redirect_url w x,
      transmitted_amount a = Return x ->
      (forall data, post (_http_client self) "api/h2h/links" data = Raise ex) ->
      let run := create self a currency description order_id
                   success_redirect_url fail_redirect_url w in
      fst run = Raise ex /\
      logged (snd run) = logged w ++ [(INFO, MsgCreating a currency)]) /\
  (forall uuid w,
      get (_http_client self) ("api/h2h/links/" +:+ uuid) None = Raise ex ->
      let run := get_link_by_uuid self uuid w in
      fst run = Raise ex /\ logged (snd run) = logged w ++ [(INFO, MsgGetting uuid)]) /\
  (forall amount_from amount_to creation_time_from creation_time_to order_id
          currencies statuses sorting skip_count max_result_count w,
      accepted amount_from -> accepted amount_to ->
      printable skip_count = true -> printable max_result_count = true ->
      (forall params, get (_http_client self) "api/h2h/links/" params = Raise ex) ->
      let run := search_links self amount_from amount_to creation_time_from
                   creation_time_to order_id currencies statuses sorting
                   skip_count max_result_count w in
      fst run = Raise ex /\
      exists params,
        logged (snd run)
        = (logged w ++ [(INFO, MsgSearching)]) ++ [(DEBUG, MsgSearchParams params)]).
Proof.
  intros Hex. split; [|split].
  - intros a currency d o s f w x Hx Hpost run. subst run.
    destruct (transmitted_amount_inv a x Hx) as (q & Hq & Hqx).
    rewrite (create_run_eq self a currency d o s f w q x Hq Hqx), Hpost.
    destruct ex; [discriminate Hex|..]; split; reflexivity.
  - intros uuid w Hget run. subst run.
    rewrite get_link_by_uuid_run_eq, Hget.
    destruct ex; [discriminate Hex|..]; split; reflexivity.
  - intros af at' ctf ctt oid cur st sort skip maxr w [vf Hvf] [vt Hvt] Hps Hpm Hget run. subst run.
    destruct (search_links_query self af at' ctf ctt oid cur st sort skip maxr w vf vt Hvf Hvt Hps Hpm)
      as (params & Hrun & _).
    rewrite Hrun. unfold search_finish. rewrite Hget.
    destruct ex; [discriminate Hex|..]; (split; [reflexivity|eexists; reflexivity]).
Qed.

Lemma foreign_exceptions_pass_through_witness :
  let run := get_link_by_uuid (module_with (client_raising (ExOther "TimeoutError")))
               "0b5e3a0c" fresh in
  fst run = Raise (ExOther "TimeoutError") /\
  logged (snd run) = logged fresh ++ [(INFO, MsgGetting "0b5e3a0c")].
Proof.
  apply (proj1 (proj2 (foreign_exceptions_pass_through
                         (module_with (client_raising (ExOther "TimeoutError")))
                         (ExOther "TimeoutError") eq_refl)) "0b5e3a0c" fresh).
  reflexivity.
Defined.

(** ** How many requests *)

(** X9.  No operation sends more than one request, whatever its arguments
    and whatever the transport does: [get_link_by_uuid] sends exactly one,
    [create] and [search_links] one or, when an amount is rejected or a
    number cannot be printed in a log line, none. *)
Theorem operations_send_at_most_one_request self :
  (forall a currency description order_id success_redirect_url fail_redirect_url w,
      exists reqs,
        sent (snd (create self a currency description order_id
                     success_redirect_url fail_redirect_url w)) = sent w ++ reqs /\
        (length reqs <= 1)%nat) /\
  (forall uuid w,
      exists reqs,
        sent (snd (get_link_by_uuid self uuid w)) = sent w ++ reqs /\ length reqs = 1%nat) /\
  (forall amount_from amount_to creation_time_from creation_time_to order_id
          currencies statuses sorting skip_count max_result_count w,
      exists reqs,
        sent (snd (search_links self amount_from amount_to creation_time_from
                     creation_time_to order_id currencies statuses sorting
                     skip_count max_result_count w)) = sent w ++ reqs /\
        (length reqs <= 1)%nat).
Proof.
  split; [|split].
  - intros a currency d o s f w.
    pose proof (create_request self a currency d o s f w) as Hreq.
    destruct (transmitted_amount a) as [x|ex].
    + eexists. split; [exact Hreq|]. cbn. lia.
    + exists []. rewrite Hreq, app_nil_r. split; [by destruct (format_amount a)|]. cbn. lia.
  - intros uuid w. exists [GET ("api/h2h/links/" +:+ uuid) None]. split; [|reflexivity].
    rewrite get_link_by_uuid_run_eq. cbv zeta.
    destruct (get (_http_client self) _ _) as [r|[e| | | | |]]; try reflexivity.
    destruct (error_code e); reflexivity.
  - intros af at' ctf ctt oid cur st sort skip maxr w.
    pose proof (search_links_request self af at' ctf ctt oid cur st sort skip maxr w) as Hreq.
    cbv zeta in Hreq.
    destruct (amount_param af) as [vf|ex];
      [destruct (amount_param at') as [vt|ex]|].
    + destruct Hreq as (params & Hrun & _). rewrite Hrun. unfold search_end.
      destruct (format_params params).
      * eexists. split; [apply sent_search_finish|]. cbn. lia.
      * exists []. rewrite app_nil_r. split; [reflexivity|]. cbn. lia.
    + exists []. rewrite Hreq, app_nil_r. split; [reflexivity|]. cbn. lia.
    + exists []. rewrite Hreq, app_nil_r. split; [reflexivity|]. cbn. lia.
Qed.

(** X10.  An amount bound that cannot be normalized stops [search_links]
    before any request: the exception of the normalization leaves
    ([ValueError] for an [int] of more than 4300 digits,
    [decimal.InvalidOperation] for a number that [quantize] rejects),
    nothing is sent, and only the opening INFO line is logged.  The lower
    bound is examined first. *)
Theorem search_links_rejects_amount_before_request self creation_time_from creation_time_to
    order_id currencies statuses sorting skip_count max_result_count w a ex :
  transmitted_amount a = Raise ex ->
  (forall amount_to,
      search_links self (Some a) amount_to creation_time_from creation_time_to
        order_id currencies statuses sorting skip_count max_result_count w
      = (Raise ex, {| sent := sent w; logged := logged w ++ [(INFO, MsgSearching)] |})) /\
  (forall amount_from,
      accepted amount_from ->
      search_links self amount_from (Some a) creation_time_from creation_time_to
        order_id currencies statuses sorting skip_count max_result_count w
      = (Raise ex, {| sent := sent w; logged := logged w ++ [(INFO, MsgSearching)] |})).
Proof.
  intros Ha. split.
  - intros amount_to.
    pose proof (search_links_request self (Some a) amount_to creation_time_from
                  creation_time_to order_id currencies statuses sorting skip_count
                  max_result_count w) as Hreq.
    cbv zeta in Hreq. unfold amount_param in Hreq at 1. rewrite Ha in Hreq. exact Hreq.
  - intros amount_from [vf Hvf].
    pose proof (search_links_request self amount_from (Some a) creation_time_from
                  creation_time_to order_id currencies statuses sorting skip_count
                  max_result_count w) as Hreq.
    cbv zeta in Hreq. rewrite Hvf in Hreq.
    unfold amount_param in Hreq. rewrite Ha in Hreq. exact Hreq.
Qed.

Lemma search_links_rejects_amount_before_request_witness :
  search_links (module_with (client_returning ∅)) (Some (AmtInt (10 ^ 26))) (Some (AmtInt 5))
    None None None None None None None None fresh
  = (Raise ExInvalidOperation,
     {| sent := sent fresh; logged := logged fresh ++ [(INFO, MsgSearching)] |}).
Proof.
  apply (proj1 (search_links_rejects_amount_before_request (module_with (client_returning ∅))
                  None None None None None None None None fresh (AmtInt (10 ^ 26))
                  ExInvalidOperation ltac:(vm_compute; reflexivity))).
Defined.

(** ** The keys of the two requests *)

Lemma dom_set_if_truthy k v (m : pydict) :
  dom (set_if_truthy k v m) = key_if (truthy v) k ∪ dom m.
Proof.
  unfold set_if_truthy, key_if. destruct (truthy v).
  - apply dom_insert_L.
  - set_solver.
Qed.

(** X11.  The payload of [create] has exactly the keys ["amount"] and
    ["currency"] and one key per truthy optional argument: no other key is
    ever sent. *)
Theorem create_payload_keys self a currency description order_id
    success_redirect_url fail_redirect_url w x :
  transmitted_amount a = Return x ->
  exists data : pydict,
    sent (snd (create self a currency description order_id
                 success_redirect_url fail_redirect_url w))
    = sent w ++ [POST "api/h2h/links" data] /\
    dom data
    = {["amount"]} ∪ {["currency"]}
      ∪ key_if (truthy description) "description"
      ∪ key_if (truthy order_id) "orderId"
      ∪ key_if (truthy success_redirect_url) "successRedirectUrl"
      ∪ key_if (truthy fail_redirect_url) "failRedirectUrl".
Proof.
  intros Hx.
  pose proof (create_request self a currency description order_id success_redirect_url
                fail_redirect_url w) as Hreq.
  rewrite Hx in Hreq. eexists. split; [exact Hreq|].
  rewrite !dom_set_if_truthy, !dom_insert_L, dom_empty_L. set_solver.
Qed.

Lemma create_payload_keys_witness :
  exists data : pydict,
    sent (snd (create (module_with (client_returning ∅)) (AmtInt 10) "RUB"
                 (Some "book") (Some "") None (Some "https://shop.example/fail") fresh))
    = sent fresh ++ [POST "api/h2h/links" data] /\
    dom data
    = {["amount"]} ∪ {["currency"]}
      ∪ key_if (truthy (Some "book")) "description"
      ∪ key_if (truthy (Some "")) "orderId"
      ∪ key_if (truthy None) "successRedirectUrl"
      ∪ key_if (truthy (Some "https://shop.example/fail")) "failRedirectUrl".
Proof.
  apply (create_payload_keys (module_with (client_returning ∅)) (AmtInt 10) "RUB"
           (Some "book") (Some "") None (Some "https://shop.example/fail") fresh
           (S754_finite false 5629499534213120 (-49))).
  vm_compute. reflexivity.
Defined.

Lemma elem_of_key_if b k k' : k' ∈ key_if b k <-> b = true /\ k' = k.
Proof. unfold key_if. destruct b; set_solver. Qed.

Lemma given_fmap {A B} (f : A -> B) (o : option A) : is_Some (f <$> o) <-> given o = true.
Proof. destruct o; cbn; split; intros H; try done; by inversion H. Qed.

(** X12.  The query of [search_links] has exactly one key per argument
    that is not [None], under the name the endpoint documents, and no
    other.  (For the calls that reach the request.) *)
Theorem search_query_keys self amount_from amount_to creation_time_from creation_time_to
    order_id currencies statuses sorting skip_count max_result_count w :
  accepted amount_from -> accepted amount_to ->
  printable skip_count = true -> printable max_result_count = true ->
  exists params : pydict,
    sent (snd (search_links self amount_from amount_to creation_time_from
                 creation_time_to order_id currencies statuses sorting
                 skip_count max_result_count w))
    = sent w ++ [GET "api/h2h/links/" (Some params)] /\
    dom params
    = key_if (given amount_from) "amountFrom"
      ∪ key_if (given amount_to) "amountTo"
      ∪ key_if (given creation_time_from) "creationTimeFrom"
      ∪ key_if (given creation_time_to) "creationTimeTo"
      ∪ key_if (given order_id) "orderId"
      ∪ key_if (given currencies) "currencies"
      ∪ key_if (given statuses) "statuses"
      ∪ key_if (given sorting) "sorting"
      ∪ key_if (given skip_count) "skipCount"
      ∪ key_if (given max_result_count) "maxResultCount".
Proof.
  intros [vf Hvf] [vt Hvt] Hps Hpm.
  destruct (search_links_query self amount_from amount_to creation_time_from creation_time_to
              order_id currencies statuses sorting skip_count max_result_count w vf vt Hvf Hvt Hps Hpm)
    as (params & _ & Hsent & Hfrom & Hto & Hctf & Hctt & Hoid & Hcur & Hst & Hsort
        & Hskip & Hmax & Hother).
  exists params. split; [exact Hsent|].
  assert (Hgf : is_Some vf <-> given amount_from = true).
  { destruct amount_from as [a|]; cbn in Hvf.
    - destruct (transmitted_amount a); [|discriminate]. injection Hvf as <-. by split.
    - injection Hvf as <-. split; [intros [? ?]; discriminate|discriminate]. }
  assert (Hgt : is_Some vt <-> given amount_to = true).
  { destruct amount_to as [a|]; cbn in Hvt.
    - destruct (transmitted_amount a); [|discriminate]. injection Hvt as <-. by split.
    - injection Hvt as <-. split; [intros [? ?]; discriminate|discriminate]. }
  apply set_eq. intros k. rewrite elem_of_dom, !elem_of_union, !elem_of_key_if.
  destruct (decide (k ∈ search_keys)) as [Hin|Hout].
  - unfold search_keys in Hin.
    repeat (apply elem_of_cons in Hin as [->|Hin]); [..|by apply elem_of_nil in Hin].
    + rewrite Hfrom, Hgf. intuition congruence.
    + rewrite Hto, Hgt. intuition congruence.
    + rewrite Hctf, given_fmap. intuition congruence.
    + rewrite Hctt, given_fmap. intuition congruence.
    + rewrite Hoid, given_fmap. intuition congruence.
    + rewrite Hcur, given_fmap. intuition congruence.
    + rewrite Hst, given_fmap. intuition congruence.
    + rewrite Hsort, given_fmap. intuition congruence.
    + rewrite Hskip, given_fmap. intuition congruence.
    + rewrite Hmax, given_fmap. intuition congruence.
  - rewrite (Hother k Hout). unfold search_keys in Hout.
    repeat (apply not_elem_of_cons in Hout as [? Hout]).
    split; [intros [? ?]; discriminate|]. intuition congruence.
Qed.

Lemma search_query_keys_witness :
  exists params : pydict,
    sent (snd (search_links (module_with (client_returning ∅)) (Some (AmtInt 5)) None
                 None (Some (TimeStr "2024-01-02T03:04:05")) (Some "") None
                 (Some (FilterList ["Opened"; "Closed"])) None (Some 0) None fresh))
    = sent fresh ++ [GET "api/h2h/links/" (Some params)] /\
    dom params
    = key_if (given (Some (AmtInt 5))) "amountFrom"
      ∪ key_if (given (@None amount_arg)) "amountTo"
      ∪ key_if (given (@None time_arg)) "creationTimeFrom"
      ∪ key_if (given (Some (TimeStr "2024-01-02T03:04:05"))) "creationTimeTo"
      ∪ key_if (given (Some "")) "orderId"
      ∪ key_if (given (@None filter_arg)) "currencies"
      ∪ key_if (given (Some (FilterList ["Opened"; "Closed"]))) "statuses"
      ∪ key_if (given (@None string)) "sorting"
      ∪ key_if (given (Some 0)) "skipCount"
      ∪ key_if (given (@None Z)) "maxResultCount".
Proof.
  apply (search_query_keys (module_with (client_returning ∅)) (Some (AmtInt 5)) None
           None (Some (TimeStr "2024-01-02T03:04:05")) (Some "") None
           (Some (FilterList ["Opened"; "Closed"])) None (Some 0) None fresh).
  - eexists. vm_compute. reflexivity.
  - eexists. reflexivity.
  - reflexivity.
  - reflexivity.
Defined.

(** ** Equivalent arguments *)

(** X13.  For [create], an optional argument given as the empty string is
    the argument left out: the whole run (result, request, log) is the
    same. *)
Theorem create_empty_string_as_omitted self a currency description order_id
    success_redirect_url fail_redirect_url w :
  create self a currency description order_id success_redirect_url fail_redirect_url w
  = create self a currency (falsy_as_None description) (falsy_as_None order_id)
      (falsy_as_None success_redirect_url) (falsy_as_None fail_redirect_url) w.
Proof.
  destruct description as [[|? ?]|], order_id as [[|? ?]|],
           success_redirect_url as [[|? ?]|], fail_redirect_url as [[|? ?]|];
    reflexivity.
Qed.

(** X14.  For [search_links], a [datetime] bound is the bound given as its
    [isoformat()] text, and a list filter is the filter given as its
    comma-joined text (the empty list as the empty string): the whole run
    is the same. *)
Theorem search_links_preformatted_arguments self amount_from amount_to creation_time_from
    creation_time_to order_id currencies statuses sorting skip_count max_result_count w :
  search_links self amount_from amount_to creation_time_from creation_time_to
    order_id currencies statuses sorting skip_count max_result_count w
  = search_links self amount_from amount_to
      ((fun t => TimeStr (time_text t)) <$> creation_time_from)
      ((fun t => TimeStr (time_text t)) <$> creation_time_to)
      order_id
      ((fun f => FilterStr (filter_text f)) <$> currencies)
      ((fun f => FilterStr (filter_text f)) <$> statuses)
      sorting skip_count max_result_count w.
Proof.
  destruct creation_time_from as [[|]|], creation_time_to as [[|]|],
           currencies as [[|]|], statuses as [[|]|];
    reflexivity.
Qed.

(** ** [search_links]: result and errors *)

(** A response of [search_links] with two items. *)
Lemma search_links_returns_response_witness :
  let r : pydict := {["items" := PList [PDict ∅; PDict ∅]]} in
  let run := search_links (module_with (client_returning r)) None None None None None
               None None None None None fresh in
  fst run = Return r /\ last (logged (snd run)) = Some (INFO, MsgFound 2).
Proof.
  intros r.
  apply (proj1 (proj2 (search_links_returns_response (module_with (client_returning r))
                         None None None None None None None None None None fresh r
                         ltac:(eexists; reflexivity) ltac:(eexists; reflexivity)
                         eq_refl eq_refl ltac:(reflexivity)))
           (PList [PDict ∅; PDict ∅]) 2%nat).
  - reflexivity.
  - reflexivity.
Defined.

(** X16.  An [ApiError] of the transport leaves [search_links] as the very
    object raised, whether or not it carries a code, and the last line
    logged is the ERROR line with the text of the error; for an error built
    by a constructor of exceptions.py that text is
    ["API Error {status_code}: {message}"].  (For the calls that reach the
    request.) *)
Theorem search_links_error_line self amount_from amount_to creation_time_from
    creation_time_to order_id currencies statuses sorting skip_count max_result_count w e :
  accepted amount_from -> accepted amount_to ->
  printable skip_count = true -> printable max_result_count = true ->
  (forall params, get (_http_client self) "api/h2h/links/" params = Raise (ExApi e)) ->
  let run := search_links self amount_from amount_to creation_time_from creation_time_to
               order_id currencies statuses sorting skip_count max_result_count w in
  fst run = Raise (ExApi e) /\
  last (logged (snd run)) = Some (ERROR, MsgSearchFailed (str_exc e)) /\
  (forall c status_code message response_data,
      e = ApiError_init c status_code message response_data ->
      last (logged (snd run))
      = Some (ERROR, MsgSearchFailed ("API Error " +:+ str_int status_code +:+ ": "
                                        +:+ message))).
Proof.
  intros [vf Hvf] [vt Hvt] Hps Hpm Hget run. subst run.
  destruct (search_links_query self amount_from amount_to creation_time_from creation_time_to
              order_id currencies statuses sorting skip_count max_result_count w vf vt Hvf Hvt Hps Hpm)
    as (params & Hrun & _).
  rewrite Hrun. unfold search_finish. rewrite Hget. cbn [fst snd logged].
  rewrite last_snoc. split; [reflexivity|]. split; [reflexivity|].
  intros c sc msg rd ->. unfold str_exc, ApiError_init. cbn [args].
  destruct (startswith msg ("HTTP " +:+ str_int sc)); reflexivity.
Qed.

Lemma search_links_error_line_witness :
  let e := new_ApiConnectionError (Some "refused") in
  let run := search_links (module_with (client_raising (ExApi e))) None None None None None
               None None None None None fresh in
  fst run = Raise (ExApi e) /\
  last (logged (snd run)) = Some (ERROR, MsgSearchFailed (str_exc e)).
Proof.
  intros e.
  destruct (search_links_error_line (module_with (client_raising (ExApi e)))
              None None None None None None None None None None fresh e
              ltac:(eexists; reflexivity) ltac:(eexists; reflexivity) eq_refl eq_refl
              ltac:(reflexivity))
    as (H1 & H2 & _).
  split; [exact H1|exact H2].
Defined.

(** ** The amount: what the normalization keeps *)

Section AmountLaws.
Import decimal.

(** The quantized decimal of a finite one, in one equation. *)
Lemma quantize_finite s c e :
  quantize (Dec s c e) (Dec false 1 (-2)) ROUND_HALF_UP
  = if (half_up_cents c e <? 10 ^ 28)%N then Return (Dec s (half_up_cents c e) (-2))
    else Raise ExInvalidOperation.
Proof.
  destruct (N.ltb_spec (half_up_cents c e) (10 ^ 28)).
  - by apply quantize_cents.
  - by apply quantize_cents_overflow.
Qed.

Lemma half_up_cents_fixed c : half_up_cents c (-2) = c.
Proof.
  unfold half_up_cents. change (-2 <=? -2) with true. cbv iota.
  change (Z.to_N (-2 + 2)) with 0%N. rewrite N.pow_0_r. lia.
Qed.

Lemma quantize_idempotent d q :
  quantize d (Dec false 1 (-2)) ROUND_HALF_UP = Return q ->
  quantize q (Dec false 1 (-2)) ROUND_HALF_UP = Return q.
Proof.
  destruct d as [s c e|s|s [] p].
  - rewrite quantize_finite.
    destruct (N.ltb_spec (half_up_cents c e) (10 ^ 28)) as [Hfit|]; [|discriminate].
    intros [= <-]. rewrite quantize_finite, half_up_cents_fixed.
    destruct (N.ltb_spec (half_up_cents c e) (10 ^ 28)); [reflexivity|lia].
  - discriminate.
  - discriminate.
  - unfold quantize at 1. intros [= <-]. unfold fix_nan, quantize. unfold fix_nan.
    by rewrite N.Div0.mod_mod.
Qed.

Lemma half_up_cents_scale_Z c e k :
  0 <= k -> half_up_cents (c * 10 ^ Z.to_N k) (e - k) = half_up_cents c e.
Proof.
  intros Hk. unfold half_up_cents.
  destruct (Z.leb_spec (-2) (e - k)) as [H1|H1]; destruct (Z.leb_spec (-2) e) as [H2|H2];
    try lia.
  - rewrite <- N.mul_assoc, <- N.pow_add_r. do 2 f_equal. lia.
  - replace (Z.to_N (e + 2)) with (Z.to_N (e + 2) + 0)%N by lia.
    assert (Hsplit : Z.to_N k = (Z.to_N (e + 2) + Z.to_N (- 2 - (e - k)))%N) by lia.
    rewrite Hsplit, N.pow_add_r.
    set (p := (10 ^ Z.to_N (- 2 - (e - k)))%N).
    assert (Hp : (0 < p)%N) by apply pow10_pos.
    rewrite N.add_0_r.
    set (m := (c * 10 ^ Z.to_N (e + 2))%N).
    replace (2 * (c * (10 ^ Z.to_N (e + 2) * p)) + p)%N with ((2 * m + 1) * p)%N by (subst m; lia).
    replace (2 * p)%N with (2 * p)%N by reflexivity.
    rewrite N.Div0.div_mul_cancel_r by lia.
    symmetry. apply (N.div_unique _ _ _ 1%N); lia.
  - assert (Hsplit : Z.to_N (- 2 - (e - k)) = (Z.to_N (- 2 - e) + Z.to_N k)%N) by lia.
    rewrite Hsplit, N.pow_add_r.
    set (p := (10 ^ Z.to_N (- 2 - e))%N). set (t := (10 ^ Z.to_N k)%N).
    assert (Ht : (0 < t)%N) by apply pow10_pos.
    replace (2 * (c * t) + p * t)%N with ((2 * c + p) * t)%N by lia.
    replace (2 * (p * t))%N with (2 * p * t)%N by lia.
    apply N.Div0.div_mul_cancel_r. lia.
Qed.

Lemma half_up_cents_mono c1 c2 e :
  (c1 <= c2)%N -> (half_up_cents c1 e <= half_up_cents c2 e)%N.
Proof.
  intros Hle. unfold half_up_cents. destruct (-2 <=? e).
  - apply N.mul_le_mono_r. exact Hle.
  - apply N.Div0.div_le_mono. lia.
Qed.

Lemma half_up_cents_scale c e (k : N) :
  half_up_cents (c * 10 ^ k) (e - Z.of_N k) = half_up_cents c e.
Proof.
  rewrite <- (half_up_cents_scale_Z c e (Z.of_N k)) by lia. by rewrite N2Z.id.
Qed.

Lemma transmitted_amount_finite s c e :
  transmitted_amount (AmtDecimal (Dec s c e))
  = if (half_up_cents c e <? 10 ^ 28)%N then Return (float_of_cents s (half_up_cents c e))
    else Raise ExInvalidOperation.
Proof.
  unfold transmitted_amount, quantized_amount, amount_decimal.
  rewrite quantize_finite. destruct (half_up_cents c e <? 10 ^ 28)%N; [|reflexivity].
  apply of_Decimal_cents.
Qed.
End AmountLaws.

(** [create] depends on its amount through the quantized decimal only. *)
Lemma create_same_request self a a' currency description order_id
    success_redirect_url fail_redirect_url w :
  quantized_amount a = quantized_amount a' ->
  let run := create self a currency description order_id
               success_redirect_url fail_redirect_url w in
  let run' := create self a' currency description order_id
                success_redirect_url fail_redirect_url w in
  fst run = fst run' /\ sent (snd run) = sent (snd run').
Proof.
  intros Heq run run'. subst run run'.
  destruct (quantized_amount a) as [q|ex] eqn:Hq.
  - symmetry in Heq. destruct (binary64.of_Decimal q) as [x|ex] eqn:Hx.
    + rewrite (create_run_eq self a currency description order_id success_redirect_url
                 fail_redirect_url w q x Hq Hx),
              (create_run_eq self a' currency description order_id success_redirect_url
                 fail_redirect_url w q x Heq Hx).
      destruct (post (_http_client self) _ _) as [r|[e| | | | |]]; try (split; reflexivity).
      destruct (error_code e); split; reflexivity.
    + pose proof (create_request self a currency description order_id success_redirect_url
                    fail_redirect_url w) as H1.
      pose proof (create_request self a' currency description order_id success_redirect_url
                    fail_redirect_url w) as H2.
      unfold transmitted_amount in H1, H2. rewrite Hq, Hx in H1. rewrite Heq, Hx in H2.
      rewrite H1, H2. split; [reflexivity|]. cbn [snd].
      by destruct (format_amount a), (format_amount a').
  - symmetry in Heq.
    pose proof (create_request self a currency description order_id success_redirect_url
                  fail_redirect_url w) as H1.
    pose proof (create_request self a' currency description order_id success_redirect_url
                  fail_redirect_url w) as H2.
    unfold transmitted_amount in H1, H2. rewrite Hq in H1. rewrite Heq in H2.
    rewrite H1, H2. split; [reflexivity|]. cbn [snd].
    by destruct (format_amount a), (format_amount a').
Qed.

(** X17.  Normalization is idempotent: the quantized amount, given back as
    a [Decimal], is quantized to itself, and [create] with it has the same
    result and sends the same request. *)
Theorem amount_normalization_idempotent self a q currency description order_id
    success_redirect_url fail_redirect_url w :
  quantized_amount a = Return q ->
  quantized_amount (AmtDecimal q) = Return q /\
  let run := create self a currency description order_id
               success_redirect_url fail_redirect_url w in
  let run' := create self (AmtDecimal q) currency description order_id
                success_redirect_url fail_redirect_url w in
  fst run = fst run' /\ sent (snd run) = sent (snd run').
Proof.
  intros Hq.
  assert (Hq' : quantized_amount (AmtDecimal q) = Return q).
  { unfold quantized_amount in *. destruct (amount_decimal a) as [d|ex]; [|discriminate].
    cbn [amount_decimal]. by apply (quantize_idempotent d). }
  split; [exact Hq'|]. apply create_same_request. by rewrite Hq, Hq'.
Qed.

Lemma amount_normalization_idempotent_witness :
  quantized_amount (AmtDecimal (decimal.Dec false 1001 (-2)))
  = Return (decimal.Dec false 1001 (-2)) /\
  let run := create (module_with (client_returning ∅)) (AmtFloat float_10_005) "RUB"
               None None None None fresh in
  let run' := create (module_with (client_returning ∅))
                (AmtDecimal (decimal.Dec false 1001 (-2))) "RUB" None None None None fresh in
  fst run = fst run' /\ sent (snd run) = sent (snd run').
Proof.
  apply (amount_normalization_idempotent (module_with (client_returning ∅))
           (AmtFloat float_10_005) (decimal.Dec false 1001 (-2)) "RUB"
           None None None None fresh).
  vm_compute. reflexivity.
Defined.

(** X18.  Only the value of a [Decimal] amount counts, not its
    representation: with trailing zeros added to the coefficient and the
    exponent lowered to match, [create] has the same result and sends the
    same request. *)
Theorem amount_ignores_trailing_zeros self s c e (k : N) currency description order_id
    success_redirect_url fail_redirect_url w :
  let run := create self (AmtDecimal (decimal.Dec s (c * 10 ^ k) (e - Z.of_N k))) currency
               description order_id success_redirect_url fail_redirect_url w in
  let run' := create self (AmtDecimal (decimal.Dec s c e)) currency description order_id
                success_redirect_url fail_redirect_url w in
  fst run = fst run' /\ sent (snd run) = sent (snd run').
Proof.
  apply create_same_request. unfold quantized_amount, amount_decimal.
  rewrite !quantize_finite, half_up_cents_scale. reflexivity.
Qed.

(** X19.  An [int] amount of at most 4300 digits is read through its [str]
    as the [Decimal] of the same sign, magnitude and exponent 0: [create]
    has the same result and sends the same request for both.  For a longer
    [int] the two part: the [int] raises the [ValueError] of its [str], the
    [Decimal] the [InvalidOperation] of [quantize]. *)
Theorem int_amount_same_as_decimal self n currency description order_id
    success_redirect_url fail_redirect_url w :
  let run := create self (AmtInt n) currency description order_id
               success_redirect_url fail_redirect_url w in
  let run' := create self (AmtDecimal (decimal.Dec (n <? 0) (Z.abs_N n) 0)) currency
                description order_id success_redirect_url fail_redirect_url w in
  (int_printable n = true -> fst run = fst run' /\ sent (snd run) = sent (snd run')) /\
  (int_printable n = false ->
   fst run = Raise ExValueError /\ fst run' = Raise ExInvalidOperation).
Proof.
  intros run run'. subst run run'. split.
  - intros Hn. apply create_same_request. unfold quantized_amount.
    by rewrite (amount_decimal_int n Hn).
  - intros Hn. split; [by rewrite create_unprintable_int|].
    pose proof (create_request self (AmtDecimal (decimal.Dec (n <? 0) (Z.abs_N n) 0)) currency
                  description order_id success_redirect_url fail_redirect_url w) as Hreq.
    rewrite (transmitted_amount_overflow _ (n <? 0) (Z.abs_N n) 0) in Hreq;
      [by rewrite Hreq|reflexivity|].
    apply int_unprintable_iff in Hn.
    change (half_up_cents (Z.abs_N n) 0) with (Z.abs_N n * 100)%N.
    assert (Hbig : 10 ^ 28 <= Z.abs n)
      by (etrans; [apply (Z.pow_le_mono_r 10 28 4300); [reflexivity|discriminate]|exact Hn]).
    clear Hn.
    apply N2Z.inj_le. rewrite N2Z.inj_mul, N2Z.inj_abs_N, N2Z.inj_pow. cbn [Z.of_N]. lia.
Qed.

Lemma int_amount_same_as_decimal_witness :
  let run := create (module_with (client_returning ∅)) (AmtInt (-7)) "RUB"
               None None None None fresh in
  let run' := create (module_with (client_returning ∅))
                (AmtDecimal (decimal.Dec (-7 <? 0) (Z.abs_N (-7)) 0)) "RUB"
                None None None None fresh in
  fst run = fst run' /\ sent (snd run) = sent (snd run').
Proof.
  apply (proj1 (int_amount_same_as_decimal (module_with (client_returning ∅)) (-7) "RUB"
                  None None None None fresh)).
  reflexivity.
Defined.

Lemma of_ratio_negb s n d :
  binary64.of_ratio (negb s) n d = SFopp (binary64.of_ratio s n d).
Proof.
  unfold binary64.of_ratio.
  destruct (SFdiv_core_binary _ _ _ _ _ _) as [[mz ez] lz].
  unfold binary_round_aux.
  destruct (shr_fexp _ _ _ _ _) as [mrs' e'].
  destruct (shr_fexp _ _ _ _ _) as [mrs'' e''].
  destruct (shr_m mrs'') as [|m|m]; try reflexivity.
  destruct (e'' <=? _); reflexivity.
Qed.

Lemma float_of_cents_negb s n :
  float_of_cents (negb s) n = SFopp (float_of_cents s n).
Proof.
  unfold float_of_cents. destruct (n =? 0)%N; [reflexivity|]. apply of_ratio_negb.
Qed.

(** X20.  Rounding is symmetric about zero: the negated amount is
    transmitted as the negated number, or rejected alike, for every
    [Decimal] (infinities and NaNs included) and every [int] but 0. *)
Theorem amount_sign_symmetry :
  (forall d, transmitted_amount (AmtDecimal (copy_negate d))
             = map_outcome SFopp (transmitted_amount (AmtDecimal d))) /\
  (forall n, n <> 0 ->
             transmitted_amount (AmtInt (- n))
             = map_outcome SFopp (transmitted_amount (AmtInt n))).
Proof.
  assert (Hdec : forall d, transmitted_amount (AmtDecimal (copy_negate d))
             = map_outcome SFopp (transmitted_amount (AmtDecimal d))).
  { intros [s c e|s|s [] p]; cbn [copy_negate]; try reflexivity.
    rewrite !transmitted_amount_finite.
    destruct (half_up_cents c e <? 10 ^ 28)%N; [|reflexivity].
    cbn [map_outcome]. by rewrite float_of_cents_negb. }
  split; [exact Hdec|].
  intros n Hn.
  assert (Hsame : int_printable (- n) = int_printable n)
    by (unfold int_printable; by rewrite Zabs2N.inj_opp).
  destruct (int_printable n) eqn:Hp.
  - assert (Hint : forall m, int_printable m = true ->
                   transmitted_amount (AmtInt m)
                   = transmitted_amount (AmtDecimal (decimal.Dec (m <? 0) (Z.abs_N m) 0))).
    { intros m Hm. unfold transmitted_amount, quantized_amount.
      by rewrite (amount_decimal_int m Hm). }
    rewrite !Hint, <- Hdec by assumption. cbn [copy_negate].
    replace (- n <? 0) with (negb (n <? 0)) by lia.
    by rewrite Zabs2N.inj_opp.
  - unfold transmitted_amount, quantized_amount.
    by rewrite !amount_decimal_unprintable.
Qed.

Lemma amount_sign_symmetry_witness :
  transmitted_amount (AmtInt (- 7)) = map_outcome SFopp (transmitted_amount (AmtInt 7)).
Proof. apply (proj2 amount_sign_symmetry 7). lia. Defined.

(** X21.  Amounts that are not finite.  A quiet NaN, as a [Decimal] or as
    the [float] nan, is not rejected: [create] sends the request with the
    amount NaN.  An infinity, as a [Decimal] or a [float], and a signalling
    NaN raise [decimal.InvalidOperation] and nothing is sent. *)
Theorem non_finite_amounts self currency description order_id
    success_redirect_url fail_redirect_url w :
  let run a := create self a currency description order_id
                 success_redirect_url fail_redirect_url w in
  (forall a s p,
      amount_decimal a = Return (decimal.DecNaN s false p) ->
      exists data : pydict,
        sent (snd (run a)) = sent w ++ [POST "api/h2h/links" data] /\
        data !! "amount" = Some (PFloat S754_nan)) /\
  (forall a s,
      amount_decimal a = Return (decimal.DecInf s) ->
      fst (run a) = Raise ExInvalidOperation /\ sent (snd (run a)) = sent w) /\
  (forall a s p,
      amount_decimal a = Return (decimal.DecNaN s true p) ->
      fst (run a) = Raise ExInvalidOperation /\ sent (snd (run a)) = sent w) /\
  amount_decimal (AmtFloat S754_nan) = Return (decimal.DecNaN false false 0) /\
  (forall s, amount_decimal (AmtFloat (S754_infinity s)) = Return (decimal.DecInf s)).
Proof.
  intros run. subst run. cbv beta.
  split; [|split; [|split; [|split]]].
  - intros a s p Ha.
    pose proof (create_request self a currency description order_id success_redirect_url
                  fail_redirect_url w) as Hreq.
    unfold transmitted_amount, quantized_amount in Hreq. rewrite Ha in Hreq.
    cbn [decimal.quantize binary64.of_Decimal decimal.fix_nan] in Hreq.
    eexists. split; [exact Hreq|]. by rewrite lookup_create_data by auto.
  - intros a s Ha.
    pose proof (create_request self a currency description order_id success_redirect_url
                  fail_redirect_url w) as Hreq.
    unfold transmitted_amount, quantized_amount in Hreq. rewrite Ha in Hreq.
    cbn [decimal.quantize] in Hreq. rewrite Hreq, (format_amount_accepted a _ Ha).
    split; reflexivity.
  - intros a s p Ha.
    pose proof (create_request self a currency description order_id success_redirect_url
                  fail_redirect_url w) as Hreq.
    unfold transmitted_amount, quantized_amount in Hreq. rewrite Ha in Hreq.
    cbn [decimal.quantize] in Hreq. rewrite Hreq, (format_amount_accepted a _ Ha).
    split; reflexivity.
  - vm_compute. reflexivity.
  - intros []; vm_compute; reflexivity.
Qed.

Lemma non_finite_amounts_witness :
  exists data : pydict,
    sent (snd (create (module_with (client_returning ∅)) (AmtFloat S754_nan) "RUB"
                 None None None None fresh))
    = sent fresh ++ [POST "api/h2h/links" data] /\
    data !! "amount" = Some (PFloat S754_nan).
Proof.
  apply (proj1 (non_finite_amounts (module_with (client_returning ∅)) "RUB"
                  None None None None fresh) (AmtFloat S754_nan) false 0%N).
  vm_compute. reflexivity.
Defined.

(** X22.  Normalization keeps the order of a range: for non-negative
    [Decimal] bounds with [amount_from <= amount_to] in value, the
    hundredths sent as ["amountFrom"] do not exceed those sent as
    ["amountTo"].  (For the calls that reach the request.) *)
Theorem search_amount_bounds_keep_order self c1 e1 c2 e2 creation_time_from
    creation_time_to order_id currencies statuses sorting skip_count max_result_count w :
  let m := Z.min e1 e2 in
  (c1 * 10 ^ Z.to_N (e1 - m) <= c2 * 10 ^ Z.to_N (e2 - m))%N ->
  (half_up_cents c2 e2 < 10 ^ 28)%N ->
  printable skip_count = true -> printable max_result_count = true ->
  (half_up_cents c1 e1 <= half_up_cents c2 e2)%N /\
  exists params : pydict,
    sent (snd (search_links self (Some (AmtDecimal (decimal.Dec false c1 e1)))
                 (Some (AmtDecimal (decimal.Dec false c2 e2)))
                 creation_time_from creation_time_to order_id currencies statuses
                 sorting skip_count max_result_count w))
    = sent w ++ [GET "api/h2h/links/" (Some params)] /\
    params !! "amountFrom" = Some (PFloat (float_of_cents false (half_up_cents c1 e1))) /\
    params !! "amountTo" = Some (PFloat (float_of_cents false (half_up_cents c2 e2))).
Proof.
  intros m Hle Hfit Hps Hpm.
  assert (Hord : (half_up_cents c1 e1 <= half_up_cents c2 e2)%N).
  { rewrite <- (half_up_cents_scale_Z c1 e1 (e1 - m)), <- (half_up_cents_scale_Z c2 e2 (e2 - m))
      by lia.
    replace (e1 - (e1 - m)) with m by lia. replace (e2 - (e2 - m)) with m by lia.
    by apply half_up_cents_mono. }
  split; [exact Hord|].
  destruct (search_links_query self (Some (AmtDecimal (decimal.Dec false c1 e1)))
              (Some (AmtDecimal (decimal.Dec false c2 e2))) creation_time_from
              creation_time_to order_id currencies statuses sorting skip_count
              max_result_count w
              (Some (PFloat (float_of_cents false (half_up_cents c1 e1))))
              (Some (PFloat (float_of_cents false (half_up_cents c2 e2)))))
    as (params & _ & Hsent & Hfrom & Hto & _).
  - unfold amount_param. rewrite transmitted_amount_finite.
    assert (H1 : (half_up_cents c1 e1 <? 10 ^ 28)%N = true) by (apply N.ltb_lt; lia).
    by rewrite H1.
  - unfold amount_param. rewrite transmitted_amount_finite.
    assert (H2 : (half_up_cents c2 e2 <? 10 ^ 28)%N = true) by (apply N.ltb_lt; lia).
    by rewrite H2.
  - exact Hps.
  - exact Hpm.
  - eauto.
Qed.

Lemma search_amount_bounds_keep_order_witness :
  (half_up_cents 9995 (-3) <= half_up_cents 10 0)%N /\
  exists params : pydict,
    sent (snd (search_links (module_with (client_returning ∅))
                 (Some (AmtDecimal (decimal.Dec false 9995 (-3))))
                 (Some (AmtDecimal (decimal.Dec false 10 0)))
                 None None None None None None None None fresh))
    = sent fresh ++ [GET "api/h2h/links/" (Some params)] /\
    params !! "amountFrom"
    = Some (PFloat (float_of_cents false (half_up_cents 9995 (-3)))) /\
    params !! "amountTo" = Some (PFloat (float_of_cents false (half_up_cents 10 0))).
Proof.
  apply (search_amount_bounds_keep_order (module_with (client_returning ∅))
           9995 (-3) 10 0 None None None None None None None None fresh).
  - vm_compute. discriminate.
  - vm_compute. reflexivity.
  - reflexivity.
  - reflexivity.
Defined.

(** ** Two-decimal [float] amounts *)

Lemma same_eq x y : binary64.same x y = true -> x = y.
Proof.
  destruct x as [a|a| |a m e], y as [b|b| |b m' e']; cbn; try discriminate.
  - intros H. apply Bool.eqb_prop in H. by subst.
  - intros H. apply Bool.eqb_prop in H. by subst.
  - reflexivity.
  - intros H. apply andb_true_iff in H as [H He]. apply andb_true_iff in H as [Hs Hm].
    apply Bool.eqb_prop in Hs. apply Pos.eqb_eq in Hm. apply Z.eqb_eq in He. by subst.
Qed.

(** Checked by evaluation for every count of hundredths up to 2000. *)
Lemma float_amounts_checked :
  forallb float_amount_unchanged (seq 0 (N.to_nat 2001)) = true.
Proof. vm_cast_no_check (eq_refl true). Qed.

(** X23.  A [float] amount that is the binary64 nearest to a whole number
    of hundredths, from 0.00 to 20.00, passes through [str], [Decimal],
    [quantize] and [float] unchanged: [create] sends that very number. *)
Theorem two_decimal_float_amount_unchanged self (n : N) currency description order_id
    success_redirect_url fail_redirect_url w :
  (n <= 2000)%N ->
  exists data : pydict,
    sent (snd (create self (AmtFloat (float_of_cents false n)) currency description
                 order_id success_redirect_url fail_redirect_url w))
    = sent w ++ [POST "api/h2h/links" data] /\
    data !! "amount" = Some (PFloat (float_of_cents false n)).
Proof.
  intros Hn.
  pose proof float_amounts_checked as Hall. rewrite forallb_forall in Hall.
  specialize (Hall (N.to_nat n)). unfold float_amount_unchanged in Hall.
  rewrite N2Nat.id in Hall.
  pose proof (create_request self (AmtFloat (float_of_cents false n)) currency description
                order_id success_redirect_url fail_redirect_url w) as Hreq.
  destruct (transmitted_amount _) as [x|ex].
  - assert (Hx : x = float_of_cents false n) by (apply same_eq, Hall, in_seq; lia).
    subst x. eexists. split; [exact Hreq|]. by rewrite lookup_create_data by auto.
  - exfalso. assert (false = true) by (apply Hall, in_seq; lia). discriminate.
Qed.

Lemma two_decimal_float_amount_unchanged_witness :
  exists data : pydict,
    sent (snd (create (module_with (client_returning ∅)) (AmtFloat (float_of_cents false 1999))
                 "RUB" None None None None fresh))
    = sent fresh ++ [POST "api/h2h/links" data] /\
    data !! "amount" = Some (PFloat (float_of_cents false 1999)).
Proof.
  apply (two_decimal_float_amount_unchanged (module_with (client_returning ∅)) 1999 "RUB"
           None None None None fresh).
  vm_compute. discriminate.
Defined.
